(** * The client-side RPC engine of rDSN (src/core/core/rpc_engine.cpp)

    A shallow embedding of the client matcher, the server dispatcher and the
    outbound/inbound paths of [rpc_engine], followed by the properties the
    specification states about them.

    Conventions.
    - Machine integers are [Z]; every place where the C++ arithmetic wraps
      ([uint64_t] sums and differences, the [int] shift, [static_cast<int>])
      goes through [wrap_u64], [wrap_u32] or [wrap_i32].
    - Objects reached through pointers and mutated in place (request
      messages, response tasks, group addresses) live in stores of the
      engine state and are named by their handle.
    - Everything the engine does to its collaborators (transport, executor,
      resolver, hooks) is appended to a chronological [trace] of events.
    - A failed [dassert] ends the run with [Abort]; dereferencing a handle
      nobody allocated is [Fault]; a loop that cannot end is [Hang]. *)

From Stdlib Require Import ZArith Lia.
From stdpp Require Import gmap strings list fin_maps functions.

Open Scope Z_scope.

(** ** Machine arithmetic *)

Definition wrap_u64 (z : Z) : Z := z mod 2 ^ 64.
Definition wrap_u32 (z : Z) : Z := z mod 2 ^ 32.
Definition wrap_i32 (z : Z) : Z := (z + 2 ^ 31) mod 2 ^ 32 - 2 ^ 31.

(** ** Error codes, addresses, messages *)

Inductive error_code :=
  | ERR_OK
  | ERR_NETWORK_FAILURE
  | ERR_TIMEOUT
  | ERR_FORWARD_TO_OTHERS
  | ERR_SERVICE_NOT_FOUND
  | ERR_HANDLER_NOT_FOUND
  | ERR_APP_NOT_EXIST
  | ERR_OPERATION_DISABLED
  | ERR_OTHER (code : Z).

#[global] Instance error_code_eq_dec : EqDecision error_code.
Proof. solve_decision. Defined.

Inductive dsn_host_type :=
  | HOST_TYPE_INVALID
  | HOST_TYPE_IPV4
  | HOST_TYPE_URI
  | HOST_TYPE_GROUP.

#[global] Instance dsn_host_type_eq_dec : EqDecision dsn_host_type.
Proof. solve_decision. Defined.

(** Modelled from the spec: [rpc_address] is declared outside src/; the spec
    gives it as the tagged variant IPv4(ip, port) | Group(handle) |
    URI(handle) | Invalid.  [port] of an address that is not IPv4 is taken
    as 0. *)
Inductive rpc_address :=
  | addr_invalid
  | addr_ipv4 (ip : Z) (ipport : Z)
  | addr_uri (uri : Z)
  | addr_group (group : Z).

#[global] Instance rpc_address_eq_dec : EqDecision rpc_address.
Proof. solve_decision. Defined.

Definition addr_type (a : rpc_address) : dsn_host_type :=
  match a with
  | addr_invalid => HOST_TYPE_INVALID
  | addr_ipv4 _ _ => HOST_TYPE_IPV4
  | addr_uri _ => HOST_TYPE_URI
  | addr_group _ => HOST_TYPE_GROUP
  end.

Definition port (a : rpc_address) : Z :=
  match a with addr_ipv4 _ p => p | _ => 0 end.

Definition is_invalid (a : rpc_address) : bool :=
  bool_decide (addr_type a = HOST_TYPE_INVALID).

Record message_header := {
  id : Z;
  trace_id : Z;
  rpc_name : string;
  from_address : rpc_address;
  client_timeout_ms : Z;
  client_partition_hash : Z;
  client_thread_hash : Z;
  server_error_name : string;
  server_error_code : error_code;
  server_error_hash : Z;
  is_request : bool;
  is_forwarded : bool;
  is_forward_supported : bool;
  gpid : Z
}.

(** [dl_alone] is [request->dl.is_alone()]: the message sits in no sending
    queue.  [ref_count] is [get_count()].  [body] is the marshalled payload;
    the engine itself only ever marshals an address into it. *)
Record message_ex := {
  header : message_header;
  to_address : rpc_address;
  server_address : rpc_address;
  local_rpc_code : Z;
  hdr_format : Z;
  io_session : option Z;
  send_retry_count : Z;
  dl_alone : bool;
  ref_count : Z;
  body : option rpc_address
}.

Definition hdr_set_id (v : Z) (h : message_header) : message_header :=
  {| id := v; trace_id := trace_id h; rpc_name := rpc_name h;
     from_address := from_address h; client_timeout_ms := client_timeout_ms h;
     client_partition_hash := client_partition_hash h;
     client_thread_hash := client_thread_hash h;
     server_error_name := server_error_name h;
     server_error_code := server_error_code h;
     server_error_hash := server_error_hash h;
     is_request := is_request h; is_forwarded := is_forwarded h;
     is_forward_supported := is_forward_supported h; gpid := gpid h |}.

Definition hdr_set_trace_id (v : Z) (h : message_header) : message_header :=
  {| id := id h; trace_id := v; rpc_name := rpc_name h;
     from_address := from_address h; client_timeout_ms := client_timeout_ms h;
     client_partition_hash := client_partition_hash h;
     client_thread_hash := client_thread_hash h;
     server_error_name := server_error_name h;
     server_error_code := server_error_code h;
     server_error_hash := server_error_hash h;
     is_request := is_request h; is_forwarded := is_forwarded h;
     is_forward_supported := is_forward_supported h; gpid := gpid h |}.

Definition hdr_set_from_address (v : rpc_address) (h : message_header)
  : message_header :=
  {| id := id h; trace_id := trace_id h; rpc_name := rpc_name h;
     from_address := v; client_timeout_ms := client_timeout_ms h;
     client_partition_hash := client_partition_hash h;
     client_thread_hash := client_thread_hash h;
     server_error_name := server_error_name h;
     server_error_code := server_error_code h;
     server_error_hash := server_error_hash h;
     is_request := is_request h; is_forwarded := is_forwarded h;
     is_forward_supported := is_forward_supported h; gpid := gpid h |}.

Definition hdr_set_client_timeout_ms (v : Z) (h : message_header)
  : message_header :=
  {| id := id h; trace_id := trace_id h; rpc_name := rpc_name h;
     from_address := from_address h; client_timeout_ms := v;
     client_partition_hash := client_partition_hash h;
     client_thread_hash := client_thread_hash h;
     server_error_name := server_error_name h;
     server_error_code := server_error_code h;
     server_error_hash := server_error_hash h;
     is_request := is_request h; is_forwarded := is_forwarded h;
     is_forward_supported := is_forward_supported h; gpid := gpid h |}.

Definition hdr_set_client_thread_hash (v : Z) (h : message_header)
  : message_header :=
  {| id := id h; trace_id := trace_id h; rpc_name := rpc_name h;
     from_address := from_address h; client_timeout_ms := client_timeout_ms h;
     client_partition_hash := client_partition_hash h;
     client_thread_hash := v;
     server_error_name := server_error_name h;
     server_error_code := server_error_code h;
     server_error_hash := server_error_hash h;
     is_request := is_request h; is_forwarded := is_forwarded h;
     is_forward_supported := is_forward_supported h; gpid := gpid h |}.

Definition hdr_set_server_error (name : string) (code : error_code) (hash : Z)
    (h : message_header) : message_header :=
  {| id := id h; trace_id := trace_id h; rpc_name := rpc_name h;
     from_address := from_address h; client_timeout_ms := client_timeout_ms h;
     client_partition_hash := client_partition_hash h;
     client_thread_hash := client_thread_hash h;
     server_error_name := name;
     server_error_code := code;
     server_error_hash := hash;
     is_request := is_request h; is_forwarded := is_forwarded h;
     is_forward_supported := is_forward_supported h; gpid := gpid h |}.

Definition hdr_set_is_request (v : bool) (h : message_header)
  : message_header :=
  {| id := id h; trace_id := trace_id h; rpc_name := rpc_name h;
     from_address := from_address h; client_timeout_ms := client_timeout_ms h;
     client_partition_hash := client_partition_hash h;
     client_thread_hash := client_thread_hash h;
     server_error_name := server_error_name h;
     server_error_code := server_error_code h;
     server_error_hash := server_error_hash h;
     is_request := v; is_forwarded := is_forwarded h;
     is_forward_supported := is_forward_supported h; gpid := gpid h |}.

Definition hdr_set_is_forwarded (v : bool) (h : message_header)
  : message_header :=
  {| id := id h; trace_id := trace_id h; rpc_name := rpc_name h;
     from_address := from_address h; client_timeout_ms := client_timeout_ms h;
     client_partition_hash := client_partition_hash h;
     client_thread_hash := client_thread_hash h;
     server_error_name := server_error_name h;
     server_error_code := server_error_code h;
     server_error_hash := server_error_hash h;
     is_request := is_request h; is_forwarded := v;
     is_forward_supported := is_forward_supported h; gpid := gpid h |}.

Definition hdr_set_gpid (v : Z) (h : message_header) : message_header :=
  {| id := id h; trace_id := trace_id h; rpc_name := rpc_name h;
     from_address := from_address h; client_timeout_ms := client_timeout_ms h;
     client_partition_hash := client_partition_hash h;
     client_thread_hash := client_thread_hash h;
     server_error_name := server_error_name h;
     server_error_code := server_error_code h;
     server_error_hash := server_error_hash h;
     is_request := is_request h; is_forwarded := is_forwarded h;
     is_forward_supported := is_forward_supported h; gpid := v |}.

Definition msg_set_header (f : message_header → message_header)
    (m : message_ex) : message_ex :=
  {| header := f (header m); to_address := to_address m;
     server_address := server_address m; local_rpc_code := local_rpc_code m;
     hdr_format := hdr_format m; io_session := io_session m;
     send_retry_count := send_retry_count m; dl_alone := dl_alone m;
     ref_count := ref_count m; body := body m |}.

Definition msg_set_to_address (v : rpc_address) (m : message_ex) : message_ex :=
  {| header := header m; to_address := v;
     server_address := server_address m; local_rpc_code := local_rpc_code m;
     hdr_format := hdr_format m; io_session := io_session m;
     send_retry_count := send_retry_count m; dl_alone := dl_alone m;
     ref_count := ref_count m; body := body m |}.

Definition msg_set_send_retry_count (v : Z) (m : message_ex) : message_ex :=
  {| header := header m; to_address := to_address m;
     server_address := server_address m; local_rpc_code := local_rpc_code m;
     hdr_format := hdr_format m; io_session := io_session m;
     send_retry_count := v; dl_alone := dl_alone m;
     ref_count := ref_count m; body := body m |}.

Definition msg_set_dl_alone (v : bool) (m : message_ex) : message_ex :=
  {| header := header m; to_address := to_address m;
     server_address := server_address m; local_rpc_code := local_rpc_code m;
     hdr_format := hdr_format m; io_session := io_session m;
     send_retry_count := send_retry_count m; dl_alone := v;
     ref_count := ref_count m; body := body m |}.

Definition msg_set_body (v : option rpc_address) (m : message_ex)
  : message_ex :=
  {| header := header m; to_address := to_address m;
     server_address := server_address m; local_rpc_code := local_rpc_code m;
     hdr_format := hdr_format m; io_session := io_session m;
     send_retry_count := send_retry_count m; dl_alone := dl_alone m;
     ref_count := ref_count m; body := v |}.

(** Modelled from the spec: [message_ex::error()] is declared outside src/;
    the error of a response is the one stamped into server.error_code. *)
Definition error (m : message_ex) : error_code := server_error_code (header m).

(** Modelled from the spec: [gpid] is declared outside src/; a 64-bit value
    made of app_id and partition_index, 0 when unassigned.  The partition
    index is taken as its upper half. *)
Definition gpid_partition_index (g : Z) : Z := Z.shiftr g 32.

(** ** Tasks, groups, matcher entries *)

Inductive task_state :=
  | TASK_STATE_READY
  | TASK_STATE_RUNNING
  | TASK_STATE_FINISHED
  | TASK_STATE_CANCELLED.

#[global] Instance task_state_eq_dec : EqDecision task_state.
Proof. solve_decision. Defined.

(** The callback chain of a response task.  [cb_null] is the empty
    [std::function]; [cb_uri_retry deadline old] is the closure
    [new_callback] that [call_uri] builds: it captures [deadline_ms] and
    [old_callback]. *)
Inductive callback :=
  | cb_null
  | cb_user (f : Z)
  | cb_uri_retry (deadline_ms : Z) (old_callback : callback).

Record rpc_response_task := {
  request : Z;
  state : task_state;
  current_handler : callback;
  delay_milliseconds : Z
}.

Definition task_set_state (v : task_state) (t : rpc_response_task)
  : rpc_response_task :=
  {| request := request t; state := v;
     current_handler := current_handler t;
     delay_milliseconds := delay_milliseconds t |}.

Definition task_set_handler (v : callback) (t : rpc_response_task)
  : rpc_response_task :=
  {| request := request t; state := state t;
     current_handler := v;
     delay_milliseconds := delay_milliseconds t |}.

Definition task_set_delay (v : Z) (t : rpc_response_task)
  : rpc_response_task :=
  {| request := request t; state := state t;
     current_handler := current_handler t;
     delay_milliseconds := v |}.

Inductive grpc_mode_t := GRPC_TO_LEADER | GRPC_TO_ANY | GRPC_TO_ALL.

#[global] Instance grpc_mode_eq_dec : EqDecision grpc_mode_t.
Proof. solve_decision. Defined.

(** Modelled from the spec: [rpc_group_address] is declared outside src/.
    The spec gives a group its members, a leader slot, the
    [update_leader_automatically] flag, [set_leader(ip)] and
    [leader_forward()], which rotates the hint to the next member. *)
Record group_address := {
  members : list rpc_address;
  leader : rpc_address;
  is_update_leader_automatically : bool
}.

Definition set_leader (a : rpc_address) (g : group_address) : group_address :=
  {| members := members g; leader := a;
     is_update_leader_automatically := is_update_leader_automatically g |}.

Fixpoint member_after (a : rpc_address) (first : rpc_address)
    (l : list rpc_address) : rpc_address :=
  match l with
  | [] => first
  | x :: rest =>
      if decide (x = a)
      then match rest with [] => first | y :: _ => y end
      else member_after a first rest
  end.

Definition leader_forward (g : group_address) : group_address :=
  match members g with
  | [] => g
  | first :: _ => set_leader (member_after (leader g) first (members g)) g
  end.

Record match_entry := {
  resp_task : Z;
  timeout_task : Z;
  timeout_ts_ms : Z
}.

Definition entry_set_timeout_task (v : Z) (e : match_entry) : match_entry :=
  {| resp_task := resp_task e; timeout_task := v;
     timeout_ts_ms := timeout_ts_ms e |}.

(** ** What the engine does to its collaborators *)

Inductive event :=
  (* [call->enqueue(err, reply)], with the delay the task carries *)
  | EvCallEnqueue (call : Z) (err : error_code) (reply : option message_ex)
      (delay_ms : Z)
  (* [timeout_task->set_delay(d); timeout_task->enqueue()] *)
  | EvTimerEnqueue (timer : Z) (key : Z) (delay_ms : Z)
  (* [task->cancel(false)] *)
  | EvTaskCancel (task : Z)
  (* [delete msg], also through the add_ref/release_ref pair *)
  | EvDeleteMessage (m : message_ex)
  | EvNetSend (net : Z) (m : message_ex)
  | EvSessionSend (session : Z) (m : message_ex)
  | EvSessionCancel (session : Z) (msg : Z)
  | EvInjectDrop (net : Z) (m : message_ex) (is_send : bool)
  | EvOnRpcCall (m : message_ex) (call : option Z)
  | EvOnRpcReply (task : Z) (m : message_ex)
  | EvAccessFailure (resolver : Z) (partition_index : Z) (err : error_code)
  | EvResolve (resolver : Z) (partition_hash : Z) (req : Z) (call : option Z)
      (timeout_ms : Z)
  | EvDelayedCall (server : rpc_address) (call : Z) (delay_ms : Z)
  | EvUserCallback (f : Z) (err : error_code) (req : Z)
      (resp : option message_ex).

(** ** Per-code policy and the constants declared outside src/ *)

(** [on_rpc_call] and [on_rpc_reply] are the join points; what is kept of
    them is the verdict ([false] is a fault-injection denial). *)
Record task_spec := {
  grpc_mode : grpc_mode_t;
  rpc_call_channel : Z;
  rpc_call_header_format : Z;
  rpc_request_resend_timeout_milliseconds : Z;
  on_rpc_call : message_ex → bool;
  on_rpc_reply : message_ex → bool
}.

(** Constants, tables and collaborators that the two source files use and
    do not define.  [debug_build] says whether [dbg_dassert] is compiled in.
    [response_enqueue_accepts] is the verdict [call->enqueue(err, reply)]
    returns.  [rand_source] is the stream the random generator draws from.
    [rpc_paired_code] gives the code of the response to a request code. *)
Class environment := {
  MATCHER_BUCKET_NR : Z;
  MAX_CLIENT_PORT : Z;
  TASK_CODE_INVALID : Z;
  RPC_CHANNEL_TCP : Z;
  debug_build : bool;
  task_spec_get : Z → task_spec;
  task_code_to_string : Z → string;
  error_code_to_string : error_code → string;
  error_name_size : nat;
  s_local_hash : Z;
  session_net : Z → Z;
  response_enqueue_accepts : Z → error_code → bool;
  rand_source : nat → Z;
  gpid_thread_hash : Z → Z;
  rpc_paired_code : Z → Z
}.

(** ** Engine state *)

(** [_requests] is the array of [MATCHER_BUCKET_NR] hash maps, as a total
    function on bucket indices.  [_client_nets] is indexed by (header
    format, channel); an absent key is a null network. *)
Record rpc_engine := {
  _requests : Z → gmap Z match_entry;
  calls : gmap Z rpc_response_task;
  messages : gmap Z message_ex;
  groups : gmap Z group_address;
  uri_resolvers : gmap Z Z;
  _client_nets : gmap (Z * Z) Z;
  _server_nets : gmap Z (gmap Z Z);
  _local_primary_address : rpc_address;
  next_request_id : Z;
  next_handle : Z;
  rand_pos : nat;
  clock : Z;
  trace : list event
}.

Definition set_requests (v : Z → gmap Z match_entry) (e : rpc_engine)
  : rpc_engine :=
  {| _requests := v; calls := calls e; messages := messages e;
     groups := groups e; uri_resolvers := uri_resolvers e;
     _client_nets := _client_nets e; _server_nets := _server_nets e;
     _local_primary_address := _local_primary_address e;
     next_request_id := next_request_id e; next_handle := next_handle e;
     rand_pos := rand_pos e; clock := clock e; trace := trace e |}.

Definition set_calls (v : gmap Z rpc_response_task) (e : rpc_engine)
  : rpc_engine :=
  {| _requests := _requests e; calls := v; messages := messages e;
     groups := groups e; uri_resolvers := uri_resolvers e;
     _client_nets := _client_nets e; _server_nets := _server_nets e;
     _local_primary_address := _local_primary_address e;
     next_request_id := next_request_id e; next_handle := next_handle e;
     rand_pos := rand_pos e; clock := clock e; trace := trace e |}.

Definition set_messages (v : gmap Z message_ex) (e : rpc_engine)
  : rpc_engine :=
  {| _requests := _requests e; calls := calls e; messages := v;
     groups := groups e; uri_resolvers := uri_resolvers e;
     _client_nets := _client_nets e; _server_nets := _server_nets e;
     _local_primary_address := _local_primary_address e;
     next_request_id := next_request_id e; next_handle := next_handle e;
     rand_pos := rand_pos e; clock := clock e; trace := trace e |}.

Definition set_groups (v : gmap Z group_address) (e : rpc_engine)
  : rpc_engine :=
  {| _requests := _requests e; calls := calls e; messages := messages e;
     groups := v; uri_resolvers := uri_resolvers e;
     _client_nets := _client_nets e; _server_nets := _server_nets e;
     _local_primary_address := _local_primary_address e;
     next_request_id := next_request_id e; next_handle := next_handle e;
     rand_pos := rand_pos e; clock := clock e; trace := trace e |}.

Definition set_next_request_id (v : Z) (e : rpc_engine) : rpc_engine :=
  {| _requests := _requests e; calls := calls e; messages := messages e;
     groups := groups e; uri_resolvers := uri_resolvers e;
     _client_nets := _client_nets e; _server_nets := _server_nets e;
     _local_primary_address := _local_primary_address e;
     next_request_id := v; next_handle := next_handle e;
     rand_pos := rand_pos e; clock := clock e; trace := trace e |}.

Definition set_next_handle (v : Z) (e : rpc_engine) : rpc_engine :=
  {| _requests := _requests e; calls := calls e; messages := messages e;
     groups := groups e; uri_resolvers := uri_resolvers e;
     _client_nets := _client_nets e; _server_nets := _server_nets e;
     _local_primary_address := _local_primary_address e;
     next_request_id := next_request_id e; next_handle := v;
     rand_pos := rand_pos e; clock := clock e; trace := trace e |}.

Definition set_rand_pos (v : nat) (e : rpc_engine) : rpc_engine :=
  {| _requests := _requests e; calls := calls e; messages := messages e;
     groups := groups e; uri_resolvers := uri_resolvers e;
     _client_nets := _client_nets e; _server_nets := _server_nets e;
     _local_primary_address := _local_primary_address e;
     next_request_id := next_request_id e; next_handle := next_handle e;
     rand_pos := v; clock := clock e; trace := trace e |}.

Definition set_clock (v : Z) (e : rpc_engine) : rpc_engine :=
  {| _requests := _requests e; calls := calls e; messages := messages e;
     groups := groups e; uri_resolvers := uri_resolvers e;
     _client_nets := _client_nets e; _server_nets := _server_nets e;
     _local_primary_address := _local_primary_address e;
     next_request_id := next_request_id e; next_handle := next_handle e;
     rand_pos := rand_pos e; clock := v; trace := trace e |}.

Definition set_trace (v : list event) (e : rpc_engine) : rpc_engine :=
  {| _requests := _requests e; calls := calls e; messages := messages e;
     groups := groups e; uri_resolvers := uri_resolvers e;
     _client_nets := _client_nets e; _server_nets := _server_nets e;
     _local_primary_address := _local_primary_address e;
     next_request_id := next_request_id e; next_handle := next_handle e;
     rand_pos := rand_pos e; clock := clock e; trace := v |}.

(** ** The monad: state, fatal assertion, fault, non-termination *)

Inductive result (A : Type) :=
  | Ok (a : A)
  | Abort (msg : string)
  | Fault
  | Hang.

Arguments Ok {A} a.
Arguments Abort {A} msg.
Arguments Fault {A}.
Arguments Hang {A}.

Definition M (S A : Type) : Type := S → result (A * S).

#[global] Instance M_ret {S} : MRet (M S) := λ A a s, Ok (a, s).

#[global] Instance M_bind {S} : MBind (M S) := λ A B f m s,
  match m s with
  | Ok (a, s') => f a s'
  | Abort msg => Abort msg
  | Fault => Fault
  | Hang => Hang
  end.

Definition gets {S A} (f : S → A) : M S A := λ s, Ok (f s, s).
Definition modify {S} (f : S → S) : M S unit := λ s, Ok (tt, f s).
Definition abort {S A} (msg : string) : M S A := λ _, Abort msg.
Definition fault {S A} : M S A := λ _, Fault.
Definition hang {S A} : M S A := λ _, Hang.

Definition dassert {S} (cond : bool) (msg : string) : M S unit :=
  if cond then mret tt else abort msg.

Definition emit (e : event) : M rpc_engine unit :=
  modify (λ st, set_trace (trace st ++ [e]) st).

Definition get_msg (p : Z) : M rpc_engine message_ex := λ st,
  match messages st !! p with Some m => Ok (m, st) | None => Fault end.

Definition update_msg (p : Z) (f : message_ex → message_ex)
  : M rpc_engine unit :=
  m ← get_msg p;
  modify (λ st, set_messages (<[p := f m]> (messages st)) st).

Definition get_call (c : Z) : M rpc_engine rpc_response_task := λ st,
  match calls st !! c with Some t => Ok (t, st) | None => Fault end.

Definition update_call (c : Z) (f : rpc_response_task → rpc_response_task)
  : M rpc_engine unit :=
  t ← get_call c;
  modify (λ st, set_calls (<[c := f t]> (calls st)) st).

(** [addr.group_address()]: only a Group address has one. *)
Definition get_group (a : rpc_address) : M rpc_engine (Z * group_address) :=
  λ st,
  match a with
  | addr_group g =>
      match groups st !! g with Some grp => Ok ((g, grp), st) | None => Fault end
  | _ => Fault
  end.

Definition update_group (g : Z) (f : group_address → group_address)
  : M rpc_engine unit :=
  modify (λ st, set_groups (alter f g (groups st)) st).

Definition dsn_now_ms : M rpc_engine Z := gets clock.

(** Modelled from the spec: [message_ex::new_id()] is declared outside src/;
    the spec asks for a fresh id, here the next value of a counter. *)
Definition new_id : M rpc_engine Z := λ st,
  Ok (next_request_id st, set_next_request_id (next_request_id st + 1) st).

(** [new rpc_timeout_task(...)], [message_ex] allocation: a fresh handle. *)
Definition alloc_handle : M rpc_engine Z := λ st,
  Ok (next_handle st, set_next_handle (next_handle st + 1) st).

(** Modelled from the spec: [rand::next_u64(min, max)] is declared outside
    src/; a draw from the closed range it is asked for. *)
Definition next_u64 `{environment} (lo hi : Z) : M rpc_engine Z := λ st,
  Ok (lo + rand_source (rand_pos st) `mod` (hi - lo + 1),
      set_rand_pos (S (rand_pos st)) st).

(** * The engine, over an environment *)

Section Engine.

Context `{env : environment}.

Definition dbg_dassert {S} (cond : bool) (msg : string) : M S unit :=
  if debug_build then dassert cond msg else mret tt.

(** [call->set_delay(ms)] *)
Definition call_set_delay (c : Z) (ms : Z) : M rpc_engine unit :=
  update_call c (task_set_delay ms).

(** [call->enqueue(err, reply)]: the response task is handed to the
    executor; the result is the verdict of the response join point. *)
Definition call_enqueue (c : Z) (err : error_code) (reply : option message_ex)
  : M rpc_engine bool :=
  t ← get_call c;
  emit (EvCallEnqueue c err reply (delay_milliseconds t));;
  mret (response_enqueue_accepts c err).

(** The pair [request->add_ref(); request->release_ref()]: a message nobody
    references is deleted by it. *)
Definition add_ref_release_ref (m : message_ex) : M rpc_engine unit :=
  if bool_decide (ref_count m = 0) then emit (EvDeleteMessage m) else mret tt.

(** ** rpc_client_matcher *)

(** The critical section of [on_call]: [_requests[b].emplace(id, entry)],
    whose result says whether the key was free. *)
Definition emplace (bucket_index key : Z) (e : match_entry)
  : M rpc_engine bool := λ st,
  match _requests st bucket_index !! key with
  | Some _ => Ok (false, st)
  | None =>
      Ok (true,
          set_requests
            (<[bucket_index := <[key := e]> (_requests st bucket_index)]>
               (_requests st)) st)
  end.

Definition on_call (req : Z) (call : Z) : M rpc_engine unit :=
  m ← get_msg req;
  let hdr := header m in
  let bucket_index := id hdr `mod` MATCHER_BUCKET_NR in
  let sp := task_spec_get (local_rpc_code m) in
  let timeout_ms := client_timeout_ms hdr in
  (* reset timeout when resend is enabled *)
  '(timeout_ms, timeout_ts_ms) ←
    (if bool_decide (rpc_request_resend_timeout_milliseconds sp > 0)
        && bool_decide
             (timeout_ms > rpc_request_resend_timeout_milliseconds sp)
     then
       now ← dsn_now_ms;
       mret (rpc_request_resend_timeout_milliseconds sp,
             wrap_u64 (now + timeout_ms))
     else mret (timeout_ms, 0));
  _ ← get_call call;
  timeout_task ← alloc_handle;
  pr ← emplace bucket_index (id hdr)
         {| resp_task := call; timeout_task := timeout_task;
            timeout_ts_ms := timeout_ts_ms |};
  dassert pr "the message is already on the fly!!!";;
  emit (EvTimerEnqueue timeout_task (id hdr) timeout_ms).

(** ** rpc_engine::call_ip *)

(** The loop [while (!request->dl.is_alone())]: a message still in a
    sending queue is picked out through its session; without a session the
    loop cannot end. *)
Definition pick_out_of_sending_queue (req : Z) : M rpc_engine unit :=
  m ← get_msg req;
  if dl_alone m then mret tt
  else match io_session m with
       | Some s =>
           emit (EvSessionCancel s req);;
           update_msg req (msg_set_dl_alone true)
       | None => hang
       end.

Definition client_net (format channel : Z) (msg : string) : M rpc_engine Z :=
  λ st,
  match _client_nets st !! (format, channel) with
  | Some net => Ok (net, st)
  | None => Abort msg
  end.

Definition call_ip (addr : rpc_address) (req : Z) (call : option Z)
    (reset_request_id set_forwarded : bool) : M rpc_engine unit :=
  dbg_dassert (bool_decide (addr_type addr = HOST_TYPE_IPV4))
    "only IPV4 is now supported";;
  dbg_dassert (bool_decide (port addr > MAX_CLIENT_PORT))
    "only server address can be called";;
  m ← get_msg req;
  dassert (negb (is_invalid (from_address (header m))))
    "from address must be set before call call_ip";;
  pick_out_of_sending_queue req;;
  update_msg req (msg_set_to_address addr);;
  m ← get_msg req;
  let sp := task_spec_get (local_rpc_code m) in
  net ← client_net (hdr_format m) (rpc_call_channel sp)
          "network not present for rpc channel";
  (if reset_request_id
   then i ← new_id; update_msg req (msg_set_header (hdr_set_id i))
   else mret tt);;
  m ← get_msg req;
  (if set_forwarded && bool_decide (is_forwarded (header m) = false)
   then update_msg req (msg_set_header (hdr_set_is_forwarded true))
   else mret tt);;
  m ← get_msg req;
  (* join point and possible fault injection *)
  emit (EvOnRpcCall m call);;
  if negb (on_rpc_call sp m) then
    emit (EvInjectDrop net m true);;
    match call with
    | Some c =>
        call_set_delay c (client_timeout_ms (header m));;
        _ ← call_enqueue c ERR_TIMEOUT None;
        mret tt
    | None => add_ref_release_ref m
    end
  else
    (match call with
     | Some c => on_call req c
     | None => mret tt
     end);;
    m ← get_msg req;
    emit (EvNetSend net m).

(** ** rpc_client_matcher::on_recv_reply *)

(** The critical section: find the entry and erase it. *)
Definition on_recv_reply_take (key : Z) : M rpc_engine (option match_entry) :=
  λ st,
  let bucket_index := key `mod` MATCHER_BUCKET_NR in
  match _requests st bucket_index !! key with
  | Some e =>
      Ok (Some e,
          set_requests
            (<[bucket_index := delete key (_requests st bucket_index)]>
               (_requests st)) st)
  | None => Ok (None, st)
  end.

(** Modelled from the spec: [unmarshall(reply, addr)] is declared outside
    src/; it reads the address the reply body carries into the
    default-constructed (invalid) [addr]. *)
Definition unmarshall (m : message_ex) : rpc_address :=
  default addr_invalid (body m).

(** The "server address side effect" switch, which both reply shapes run:
    under Group and GRPC_TO_LEADER, [guard] is the part of the condition
    evaluated before the group is dereferenced, and the leader becomes
    [new_leader] when the group updates its leader automatically; any
    address type but Group is the "not implemented" default. *)
Definition server_address_side_effect (m : message_ex) (sp : task_spec)
    (guard : bool) (new_leader : rpc_address) : M rpc_engine unit :=
  match addr_type (server_address m) with
  | HOST_TYPE_GROUP =>
      match grpc_mode sp with
      | GRPC_TO_LEADER =>
          if guard then
            '(g, grp) ← get_group (server_address m);
            if is_update_leader_automatically grp
            then update_group g (set_leader new_leader)
            else mret tt
          else mret tt
      | _ => mret tt
      end
  | _ => dassert false "not implemented"
  end.

(** Everything [on_recv_reply] does after it has taken entry [e] out of its
    bucket.  [cur] is [task::get_current_task()].  The two [dbg_dassert]s on
    [call] and [timeout_task] hold by construction: an entry names both. *)
Definition on_recv_reply_found (cur : option Z) (net : Z)
    (reply : option message_ex) (delay_ms : Z) (e : match_entry)
  : M rpc_engine bool :=
  let call := resp_task e in
  (if bool_decide (Some (timeout_task e) ≠ cur)
   then emit (EvTaskCancel (timeout_task e))
   else mret tt);;
  t ← get_call call;
  let req := request t in
  m ← get_msg req;
  let sp := task_spec_get (local_rpc_code m) in
  match reply with
  | None =>
      (* rpc is early terminated with empty reply *)
      (if bool_decide (addr_type (server_address m) = HOST_TYPE_GROUP)
          && bool_decide (grpc_mode sp = GRPC_TO_LEADER)
       then
         '(g, grp) ← get_group (server_address m);
         if is_update_leader_automatically grp
         then update_group g leader_forward
         else mret tt
       else mret tt);;
      call_set_delay call delay_ms;;
      _ ← call_enqueue call ERR_NETWORK_FAILURE None;
      mret true
  | Some r =>
      let err := error r in
      if bool_decide (err = ERR_FORWARD_TO_OTHERS) then
        let addr := unmarshall r in
        dbg_dassert (bool_decide (addr ≠ to_address m))
          "impossible forwarding to myself";;
        server_address_side_effect m sp true addr;;
        (* do fake forwarding, reset request_id *)
        call_ip addr req (Some call) true false;;
        dassert (bool_decide (ref_count r = 0))
          "reply should not be referenced by anybody so far";;
        emit (EvDeleteMessage r);;
        mret true
      else
        (if is_forwarded (header r)
         then server_address_side_effect m sp
                (bool_decide (err = ERR_OK)) (from_address (header r))
         else mret tt);;
        call_set_delay call delay_ms;;
        accepted ← call_enqueue call err (Some r);
        (if negb accepted
         then emit (EvInjectDrop net r false)
         else mret tt);;
        mret true
  end.

Definition on_recv_reply (cur : option Z) (net : Z) (key : Z)
    (reply : option message_ex) (delay_ms : Z) : M rpc_engine bool :=
  found ← on_recv_reply_take key;
  match found with
  | Some e => on_recv_reply_found cur net reply delay_ms e
  | None =>
      match reply with
      | Some r =>
          dassert (bool_decide (ref_count r = 0))
            "reply should not be referenced by anybody so far";;
          emit (EvDeleteMessage r)
      | None => mret tt
      end;;
      mret false
  end.

(** ** rpc_client_matcher::on_rpc_timeout *)

(** First critical section: the entry is read, and erased when its
    [timeout_ts_ms] is 0.  The result is [(call, timeout_ts_ms, resend)]. *)
Definition on_rpc_timeout_find (key : Z)
  : M rpc_engine (option (Z * Z * bool)) := λ st,
  let bucket_index := key `mod` MATCHER_BUCKET_NR in
  match _requests st bucket_index !! key with
  | Some e =>
      if bool_decide (timeout_ts_ms e = 0) then
        Ok (Some (resp_task e, timeout_ts_ms e, false),
            set_requests
              (<[bucket_index := delete key (_requests st bucket_index)]>
                 (_requests st)) st)
      else
        (* resend is enabled *)
        Ok (Some (resp_task e, timeout_ts_ms e, true), st)
  | None => Ok (None, st)
  end.

(** Outside the lock: prepare resend context and check again.  The result
    is [(now_ts_ms, resend, new_timeout_task)]. *)
Definition on_rpc_timeout_prepare (call timeout_ts_ms : Z)
  : M rpc_engine (Z * bool * option Z) :=
  now_ts_ms ← dsn_now_ms;
  (* resend when timeout is not yet, and the call is not cancelled *)
  resend ←
    (if bool_decide (now_ts_ms < timeout_ts_ms)
     then t ← get_call call; mret (bool_decide (state t = TASK_STATE_READY))
     else mret false);
  new_timeout_task ←
    (if (resend : bool) then nt ← alloc_handle; mret (Some nt)
     else mret None);
  mret (now_ts_ms, resend, new_timeout_task).

(** Second critical section; the result is the final [resend]. *)
Definition on_rpc_timeout_recheck (key : Z) (resend : bool)
    (new_timeout_task : option Z) : M rpc_engine bool := λ st,
  let bucket_index := key `mod` MATCHER_BUCKET_NR in
  match _requests st bucket_index !! key with
  | Some e =>
      if negb resend then
        (* timeout *)
        Ok (resend,
            set_requests
              (<[bucket_index := delete key (_requests st bucket_index)]>
                 (_requests st)) st)
      else
        (* resend: reset timeout task *)
        match new_timeout_task with
        | Some nt =>
            Ok (resend,
                set_requests
                  (<[bucket_index :=
                       <[key := entry_set_timeout_task nt e]>
                         (_requests st bucket_index)]>
                     (_requests st)) st)
        | None => Fault
        end
  | None =>
      (* response is received *)
      Ok (false, st)
  end.

(** After the second critical section, when [resend] still holds. *)
Definition on_rpc_timeout_resend (key call timeout_ts_ms now_ts_ms : Z)
    (new_timeout_task : option Z) : M rpc_engine unit :=
  t ← get_call call;
  let req := request t in
  m ← get_msg req;
  (* resend without handling rpc_matcher, use the same request_id *)
  call_ip (to_address m) req None false false;;
  (* use rest of the timeout to resend once only *)
  match new_timeout_task with
  | Some nt =>
      emit (EvTimerEnqueue nt key (wrap_i32 (wrap_u64 (timeout_ts_ms - now_ts_ms))))
  | None => fault
  end.

Definition on_rpc_timeout (key : Z) : M rpc_engine unit :=
  found ← on_rpc_timeout_find key;
  match found with
  | None => mret tt
  | Some (call, timeout_ts_ms, false) =>
      (* if timeout *)
      _ ← call_enqueue call ERR_TIMEOUT None;
      mret tt
  | Some (call, timeout_ts_ms, true) =>
      '(now_ts_ms, resend, new_timeout_task) ←
        on_rpc_timeout_prepare call timeout_ts_ms;
      resend ← on_rpc_timeout_recheck key resend new_timeout_task;
      if (resend : bool)
      then on_rpc_timeout_resend key call timeout_ts_ms now_ts_ms
             new_timeout_task
      else mret tt
  end.

(** ** Outbound dispatch: call_group, call_uri, call_address, call *)

(** Modelled from the spec: [possible_leader()] and [random_member()] are
    declared outside src/.  The first gives the leader slot, the second a
    member drawn with [next_u64]. *)
Definition random_member (grp : group_address) : M rpc_engine rpc_address :=
  match members grp with
  | [] => mret addr_invalid
  | first :: _ =>
      i ← next_u64 0 (Z.of_nat (length (members grp)) - 1);
      mret (nth (Z.to_nat i) (members grp) first)
  end.

Definition possible_leader (grp : group_address) : M rpc_engine rpc_address :=
  mret (leader grp).

Definition call_group (addr : rpc_address) (req : Z) (call : option Z)
  : M rpc_engine unit :=
  dbg_dassert (bool_decide (addr_type addr = HOST_TYPE_GROUP))
    "only group is now supported";;
  m ← get_msg req;
  let sp := task_spec_get (local_rpc_code m) in
  match grpc_mode sp with
  | GRPC_TO_LEADER =>
      '(_, grp) ← get_group (server_address m);
      a ← possible_leader grp;
      call_ip a req call false false
  | GRPC_TO_ANY =>
      '(_, grp) ← get_group (server_address m);
      a ← random_member grp;
      call_ip a req call false false
  | GRPC_TO_ALL => abort "to be implemented"
  end.

(** [addr.uri_address()->get_resolver()]; [None] is the null resolver. *)
Definition get_resolver (a : rpc_address) : M rpc_engine (option Z) := λ st,
  match a with
  | addr_uri u => Ok (uri_resolvers st !! u, st)
  | _ => Fault
  end.

Definition call_uri (addr : rpc_address) (req : Z) (call : option Z)
  : M rpc_engine unit :=
  dbg_dassert (bool_decide (addr_type addr = HOST_TYPE_URI))
    "only URI is now supported";;
  m ← get_msg req;
  let hdr := header m in
  resolver ← get_resolver (server_address m);
  match resolver with
  | None =>
      match call with
      | Some c => _ ← call_enqueue c ERR_SERVICE_NOT_FOUND None; mret tt
      | None => add_ref_release_ref m
      end
  | Some r =>
      match call with
      | Some c =>
          now ← dsn_now_ms;
          let deadline_ms := wrap_u64 (now + client_timeout_ms hdr) in
          t ← get_call c;
          let old_callback := current_handler t in
          (* call->replace_callback(std::move(new_callback)) *)
          update_call c (task_set_handler (cb_uri_retry deadline_ms old_callback))
      | None => mret tt
      end;;
      emit (EvResolve r (client_partition_hash hdr) req call
              (client_timeout_ms hdr))
  end.

(** Modelled from the spec: [call_address] is declared outside src/; the
    spec gives the dispatch on the address type (IPv4 to [call_ip], Group to
    [call_group], URI to [call_uri]); any other type is fatal. *)
Definition call_address (addr : rpc_address) (req : Z) (call : option Z)
  : M rpc_engine unit :=
  match addr_type addr with
  | HOST_TYPE_IPV4 => call_ip addr req call false false
  | HOST_TYPE_URI => call_uri addr req call
  | HOST_TYPE_GROUP => call_group addr req call
  | HOST_TYPE_INVALID => abort "invalid target address type"
  end.

Record resolve_result := {
  resolve_err : error_code;
  resolve_pid : Z;
  resolve_address : rpc_address
}.

(** The continuation [call_uri] hands to [resolver->resolve]. *)
Definition on_resolve_result (req : Z) (call : option Z)
    (result : resolve_result) : M rpc_engine unit :=
  if bool_decide (resolve_err result = ERR_OK) then
    m ← get_msg req;
    (* update gpid when necessary *)
    (if bool_decide (gpid (header m) ≠ resolve_pid result) then
       dassert (bool_decide (gpid (header m) = 0)) "inconsistent gpid";;
       update_msg req (msg_set_header (hdr_set_gpid (resolve_pid result)));;
       (* update thread hash if not assigned by applications *)
       if bool_decide (client_thread_hash (header m) = 0)
       then update_msg req
              (msg_set_header
                 (hdr_set_client_thread_hash
                    (gpid_thread_hash (resolve_pid result))))
       else mret tt
     else mret tt);;
    call_address (resolve_address result) req call
  else
    match call with
    | Some c => _ ← call_enqueue c (resolve_err result) None; mret tt
    | None => m ← get_msg req; add_ref_release_ref m
    end.

Definition call (req : Z) (call : option Z) : M rpc_engine unit :=
  primary ← gets _local_primary_address;
  update_msg req (msg_set_header (hdr_set_from_address primary));;
  r ← next_u64 0 (2 ^ 64 - 1);
  update_msg req (msg_set_header (hdr_set_trace_id r));;
  m ← get_msg req;
  call_address (server_address m) req call.

(** ** The URI retry shim *)

(** [uint64_t gap = 8 << send_retry_count; if (gap > 1000) gap = 1000;]
    The shift is an [int] shift; its result is converted to [uint64_t]. *)
Definition backoff_gap (send_retry_count : Z) : Z :=
  let gap := wrap_u64 (wrap_i32 (Z.shiftl 8 send_retry_count)) in
  if bool_decide (gap > 1000) then 1000 else gap.

(** [dynamic_cast<rpc_response_task *>(task::get_current_task())] and the
    assertion that follows it. *)
Definition current_response_task (cur : option Z) : M rpc_engine Z := λ st,
  match cur with
  | Some c =>
      match calls st !! c with
      | Some _ => Ok (c, st)
      | None => Abort "current task must be rpc_response_task"
      end
  | None => Abort "current task must be rpc_response_task"
  end.

(** Modelled from the spec: [task::set_retry(false)] is declared outside
    src/; it marks the running task retryable (back to READY) without
    enqueueing it.  The assertion around its call reports the task state on
    failure: it fails on a task that is not running. *)
Definition set_retry (c : Z) : M rpc_engine bool :=
  t ← get_call c;
  if bool_decide (state t = TASK_STATE_RUNNING)
  then update_call c (task_set_state TASK_STATE_READY);; mret true
  else mret false.

Definition retry_trigger (req2 : message_ex) (err : error_code) : bool :=
  bool_decide (gpid (header req2) ≠ 0)
  && bool_decide (err ≠ ERR_OK)
  && bool_decide (err ≠ ERR_HANDLER_NOT_FOUND)
  && bool_decide (err ≠ ERR_APP_NOT_EXIST)
  && bool_decide (err ≠ ERR_OPERATION_DISABLED).

(** Running a callback [cb(err, req, resp)] with current task [cur].  The
    [cb_uri_retry] case is the body of [new_callback]; an empty callback is
    never invoked ([if (old_callback)]). *)
Fixpoint run_callback (cb : callback) (cur : option Z) (err : error_code)
    (req : Z) (resp : option message_ex) : M rpc_engine unit :=
  match cb with
  | cb_null => mret tt
  | cb_user f => emit (EvUserCallback f err req resp)
  | cb_uri_retry deadline_ms old_callback =>
      req2 ← get_msg req;
      if retry_trigger req2 err then
        resolver ← get_resolver (server_address req2);
        match resolver with
        | Some r =>
            emit (EvAccessFailure r
                    (gpid_partition_index (gpid (header req2))) err);;
            (* still got time, retry *)
            nms ← dsn_now_ms;
            let gap := backoff_gap (send_retry_count req2) in
            if bool_decide (wrap_u64 (nms + gap) < deadline_ms) then
              update_msg req
                (msg_set_send_retry_count
                   (wrap_u32 (send_retry_count req2 + 1)));;
              update_msg req
                (msg_set_header
                   (hdr_set_client_timeout_ms
                      (wrap_i32 (wrap_u64 (deadline_ms - nms - gap)))));;
              ctask ← current_response_task cur;
              update_call ctask (task_set_handler old_callback);;
              retried ← set_retry ctask;
              dassert (retried : bool) "rpc_response_task set retry failed";;
              (* sleep gap milliseconds before retry *)
              emit (EvDelayedCall (server_address req2) ctask gap)
            else
              run_callback old_callback cur ERR_TIMEOUT req resp
        | None => run_callback old_callback cur err req resp
        end
      else run_callback old_callback cur err req resp
  end.

(** ** rpc_engine::reply *)

(** [strncpy(dst, src, n)], as far as the characters go. *)
Fixpoint strncpy (n : nat) (src : string) : string :=
  match n, src with
  | S n', String c rest => String c (strncpy n' rest)
  | _, _ => EmptyString
  end.

Definition server_net (p channel : Z) (msg : string) : M rpc_engine Z := λ st,
  match _server_nets st !! p with
  | Some nets =>
      match nets !! channel with
      | Some net => Ok (net, st)
      | None => Abort msg
      end
  | None => Fault
  end.

(** The three assignments to [response->header->server]. *)
Definition stamp_error (err : error_code) (response : message_ex)
  : message_ex :=
  msg_set_header
    (hdr_set_server_error
       (strncpy error_name_size (error_code_to_string err))
       err s_local_hash) response.

(** [cur_task] is [task::get_current_task()]. *)
Definition reply (cur_task : option Z) (response : message_ex)
    (err : error_code) : M rpc_engine unit :=
  (* when a message doesn't need to reply, we don't do the on_rpc_reply
     hooks to avoid mistakes *)
  let s := io_session response in
  if bool_decide (s = None) && is_invalid (to_address response) then
    add_ref_release_ref response
  else
    let response := stamp_error err response in
    (* response rpc code may be TASK_CODE_INVALID when request rpc code is
       not exist *)
    let sp := if bool_decide (local_rpc_code response = TASK_CODE_INVALID)
              then None
              else Some (task_spec_get (local_rpc_code response)) in
    no_fail ←
      match sp, cur_task with
      | Some sp, Some t =>
          emit (EvOnRpcReply t response);;
          mret (on_rpc_reply sp response)
      | _, _ => mret true
      end;
    let rpc_channel := match sp with
                       | Some sp => rpc_call_channel sp
                       | None => RPC_CHANNEL_TCP
                       end in
    match s with
    | Some s =>
        (* connection oriented network, we have bound session *)
        if negb (is_forwarded (header response)) then
          if (no_fail : bool)
          then emit (EvSessionSend s response)
          else emit (EvInjectDrop (session_net s) response true)
        else
          dbg_dassert
            (bool_decide (port (to_address response) > MAX_CLIENT_PORT))
            "target address must have named port in this case";;
          net ← client_net (hdr_format response) rpc_channel
                  "client network not present for rpc channel";
          if (no_fail : bool)
          then emit (EvNetSend net response)
          else emit (EvInjectDrop net response true)
    | None =>
        (* not connection oriented network *)
        dbg_dassert
          (bool_decide (port (to_address response) > MAX_CLIENT_PORT))
          "target address must have named port in this case";;
        net ← server_net (port (from_address (header response))) rpc_channel
                "server network not present for rpc channel";
        if (no_fail : bool)
        then emit (EvNetSend net response)
        else emit (EvInjectDrop net response true)
    end;;
    if negb no_fail then add_ref_release_ref response else mret tt.

(** ** rpc_engine::forward *)

(** Modelled from the spec: [message_ex::create_response] is declared
    outside src/.  The response answers on the session of the request: it
    inherits the header, the session and the wire format, is not a request,
    has source and target swapped and the code paired with the request's. *)
Definition create_response (req : message_ex) : message_ex :=
  {| header :=
       hdr_set_from_address (to_address req)
         (hdr_set_is_request false (header req));
     to_address := from_address (header req);
     server_address := server_address req;
     local_rpc_code := rpc_paired_code (local_rpc_code req);
     hdr_format := hdr_format req;
     io_session := io_session req;
     send_retry_count := 0;
     dl_alone := true;
     ref_count := 0;
     body := None |}.

(** Modelled from the spec: [marshall(resp, address)] is declared outside
    src/; the response carries [address] as its body. *)
Definition marshall (resp : message_ex) (address : rpc_address) : message_ex :=
  msg_set_body (Some address) resp.

(** Modelled from the spec: [copy_and_prepare_send] is declared outside
    src/; a new message with the header and content of the request, in no
    sending queue and referenced by nobody. *)
Definition copy_and_prepare_send (req : message_ex) : M rpc_engine Z :=
  p ← alloc_handle;
  let copied :=
    {| header := header req; to_address := to_address req;
       server_address := server_address req;
       local_rpc_code := local_rpc_code req; hdr_format := hdr_format req;
       io_session := io_session req;
       send_retry_count := send_retry_count req;
       dl_alone := true; ref_count := 0; body := body req |} in
  modify (λ st, set_messages (<[p := copied]> (messages st)) st);;
  mret p.

Definition forward (cur_task : option Z) (req : message_ex)
    (address : rpc_address) : M rpc_engine unit :=
  dassert (is_request (header req)) "only rpc request can be forwarded";;
  dassert (is_forward_supported (header req))
    "rpc msg does not support being forwared";;
  primary ← gets _local_primary_address;
  dassert (bool_decide (address ≠ primary))
    "cannot forward msg to the local node";;
  if bool_decide (port (from_address (header req)) <= MAX_CLIENT_PORT)
  then
    (* msg is from pure client (no server port assigned): fake it *)
    let resp := create_response req in
    let resp := marshall resp address in
    reply cur_task resp ERR_FORWARD_TO_OTHERS
  else
    (* do real forwarding, not reset request_id, but set forwarded flag *)
    copied_request ← copy_and_prepare_send req;
    call_ip address copied_request None false true.

(** ** rpc_server_dispatcher *)

(** [h] is the [std::function] of the handler: [None] when it is empty,
    else the function it holds. *)
Record handler_entry := {
  code : Z;
  extra_name : string;
  h : option Z
}.

(** [_handlers] is the name index; [_vhandlers] the dense array of code
    slots, [None] being an empty [unique_ptr]. *)
Record rpc_server_dispatcher := {
  _handlers : gmap string handler_entry;
  _vhandlers : list (option handler_entry)
}.

(** The slot [_vhandlers[code]]; an index outside the vector is a fault. *)
Definition set_vhandler (c : Z) (v : option handler_entry)
    (handlers : gmap string handler_entry)
  : M rpc_server_dispatcher unit := λ d,
  if bool_decide (0 <= c < Z.of_nat (length (_vhandlers d))) then
    Ok (tt, {| _handlers := handlers;
               _vhandlers := <[Z.to_nat c := v]> (_vhandlers d) |})
  else Fault.

Definition register_rpc_handler (c : Z) (name : string)
    (handler : option Z) : M rpc_server_dispatcher bool :=
  let ctx := {| code := c; extra_name := name; h := handler |} in
  handlers ← gets _handlers;
  match handlers !! task_code_to_string c, handlers !! name with
  | None, None =>
      let handlers := <[task_code_to_string c := ctx]> handlers in
      let handlers := <[extra_name ctx := ctx]> handlers in
      set_vhandler c (Some ctx) handlers;;
      mret true
  | _, _ => abort "rpc registration confliction"
  end.

Definition unregister_rpc_handler (rpc_code : Z)
  : M rpc_server_dispatcher bool :=
  handlers ← gets _handlers;
  match handlers !! task_code_to_string rpc_code with
  | None => mret false
  | Some ctx =>
      let handlers := delete (task_code_to_string rpc_code) handlers in
      let handlers := delete (extra_name ctx) handlers in
      set_vhandler rpc_code None handlers;;
      mret true
  end.

(** The lookup that opens [on_request]: the code [msg] carries afterwards
    and the [handler] copied from the entry found, empty when there is
    none.  A request with a code is looked up in the slot of the code; one
    without a code in the name index, and the entry found there writes its
    code into [msg->local_rpc_code]. *)
Definition on_request_lookup (msg : message_ex)
  : M rpc_server_dispatcher (Z * option Z) := λ d,
  if bool_decide (TASK_CODE_INVALID ≠ local_rpc_code msg) then
    if bool_decide (0 <= local_rpc_code msg
                    < Z.of_nat (length (_vhandlers d))) then
      match _vhandlers d !! Z.to_nat (local_rpc_code msg) with
      | Some (Some ctx) => Ok ((local_rpc_code msg, h ctx), d)
      | _ => Ok ((local_rpc_code msg, None), d)
      end
    else Fault
  else
    match _handlers d !! rpc_name (header msg) with
    | Some ctx => Ok ((code ctx, h ctx), d)
    | None => Ok ((local_rpc_code msg, None), d)
    end.

(** [on_request]: the lookup, then [if (handler)]: the code and the handler
    of the request task it returns, [None] for [nullptr]. *)
Definition on_request (msg : message_ex)
  : M rpc_server_dispatcher (option (Z * Z)) :=
  '(c, handler) ← on_request_lookup msg;
  match handler with
  | Some f => mret (Some (c, f))
  | None => mret None
  end.

(** ** Handlers racing on the matcher

    A handler thread runs from one critical section to the next; between
    two of them it is suspended with its local variables.  [reply_found] is
    [on_recv_reply] after its critical section took the entry out;
    [timeout_found], [timeout_prepared] and [timeout_rechecked] are
    [on_rpc_timeout] after its first critical section, before its second one
    and after it. *)

Inductive handler :=
  | reply_found (cur : option Z) (net : Z) (reply : option message_ex)
      (delay_ms : Z) (e : match_entry)
  | timeout_found (key call timeout_ts_ms : Z) (resend : bool)
  | timeout_prepared (key call timeout_ts_ms now_ts_ms : Z) (resend : bool)
      (new_timeout_task : option Z)
  | timeout_rechecked (key call timeout_ts_ms now_ts_ms : Z)
      (new_timeout_task : option Z).

(** The call a suspended handler has removed from the table and must still
    complete or register again. *)
Definition owner (hd : handler) : option Z :=
  match hd with
  | reply_found _ _ _ _ e => Some (resp_task e)
  | timeout_found _ call _ false => Some call
  | _ => None
  end.

(** The message an event hands to a collaborator. *)
Definition event_message (ev : event) : option message_ex :=
  match ev with
  | EvDeleteMessage m | EvNetSend _ m | EvSessionSend _ m
  | EvInjectDrop _ m _ | EvOnRpcCall m _ | EvOnRpcReply _ m => Some m
  | EvCallEnqueue _ _ reply _ => reply
  | _ => None
  end.

(** The events by which a request leaves the engine through [call_ip]. *)
Definition is_outbound_call (ev : event) : bool :=
  match ev with
  | EvOnRpcCall _ _ => true
  | _ => false
  end.

Definition is_call_enqueue (c : Z) (ev : event) : bool :=
  match ev with
  | EvCallEnqueue c' _ _ _ => bool_decide (c' = c)
  | _ => false
  end.

(** How many times [call->enqueue] ran for response task [c]. *)
Definition completions (tr : list event) (c : Z) : nat :=
  length (filter (λ ev, is_call_enqueue c ev) tr).

(** Every response task sits in at most one entry. *)
Definition entries_distinct (st : rpc_engine) : Prop :=
  ∀ b k e b' k' e',
    _requests st b !! k = Some e → _requests st b' !! k' = Some e' →
    resp_task e = resp_task e' → b = b' ∧ k = k'.

Definition not_pending (st : rpc_engine) (c : Z) : Prop :=
  ∀ b k e, _requests st b !! k = Some e → resp_task e ≠ c.

Definition system : Type := rpc_engine * list handler.

Inductive step : system → system → Prop :=
  (* on_recv_reply, critical section: the entry is there *)
  | step_reply_take cur net key reply delay_ms e st st' pool :
      on_recv_reply_take key st = Ok (Some e, st') →
      step (st, pool) (st', reply_found cur net reply delay_ms e :: pool)
  (* on_recv_reply, the entry is gone: the whole function *)
  | step_reply_absent cur net key reply delay_ms r st st' pool :
      on_recv_reply_take key st = Ok (None, st) →
      on_recv_reply cur net key reply delay_ms st = Ok (r, st') →
      step (st, pool) (st', pool)
  (* on_recv_reply, after the critical section *)
  | step_reply_finish cur net reply delay_ms e r st st' pre post :
      on_recv_reply_found cur net reply delay_ms e st = Ok (r, st') →
      step (st, pre ++ reply_found cur net reply delay_ms e :: post)
           (st', pre ++ post)
  (* on_rpc_timeout, first critical section *)
  | step_timeout_find key call ts resend st st' pool :
      on_rpc_timeout_find key st = Ok (Some (call, ts, resend), st') →
      step (st, pool) (st', timeout_found key call ts resend :: pool)
  | step_timeout_absent key st st' pool :
      on_rpc_timeout_find key st = Ok (None, st') →
      step (st, pool) (st', pool)
  (* on_rpc_timeout, [!resend]: complete with ERR_TIMEOUT *)
  | step_timeout_expire key call ts accepted st st' pre post :
      call_enqueue call ERR_TIMEOUT None st = Ok (accepted, st') →
      step (st, pre ++ timeout_found key call ts false :: post)
           (st', pre ++ post)
  (* on_rpc_timeout, between the critical sections *)
  | step_timeout_prepare key call ts now resend nt st st' pre post :
      on_rpc_timeout_prepare call ts st = Ok ((now, resend, nt), st') →
      step (st, pre ++ timeout_found key call ts true :: post)
           (st', pre ++ timeout_prepared key call ts now resend nt :: post)
  (* on_rpc_timeout, second critical section *)
  | step_timeout_recheck key call ts now resend nt resend' st st' pre post :
      on_rpc_timeout_recheck key resend nt st = Ok (resend', st') →
      step (st, pre ++ timeout_prepared key call ts now resend nt :: post)
           (st', pre ++ (if resend'
                         then [timeout_rechecked key call ts now nt]
                         else []) ++ post)
  (* on_rpc_timeout, the resend itself *)
  | step_timeout_resend key call ts now nt st st' pre post :
      on_rpc_timeout_resend key call ts now nt st = Ok (tt, st') →
      step (st, pre ++ timeout_rechecked key call ts now nt :: post)
           (st', pre ++ post)
  (* a user thread issues a call with a response task of its own *)
  | step_call addr req call st st' pool :
      completions (trace st) call = 0%nat →
      not_pending st call →
      call ∉ omap owner pool →
      call_ip addr req (Some call) false false st = Ok (tt, st') →
      step (st, pool) (st', pool)
  (* the clock, the executor, the application: anything that leaves the
     table and the history alone *)
  | step_environment st st' pool :
      _requests st' = _requests st →
      trace st' = trace st →
      step (st, pool) (st', pool).

(** ** Reasoning about runs that return

    [returns m st Q]: if [m] returns from [st], the result satisfies [Q].
    [quiet m]: [m] neither touches the table nor completes a call.
    [consistent owners st]: the table and the history agree, and the calls
    in [owners], taken out of the table by handlers that have not finished,
    are neither pending nor completed. *)

Definition returns {S A} (m : M S A) (s : S) (Q : A → S → Prop) : Prop :=
  match m s with
  | Ok (a, s') => Q a s'
  | _ => True
  end.

Definition triple {S A} (P : S → Prop) (m : M S A) (Q : A → S → Prop)
  : Prop :=
  ∀ s, P s → returns m s Q.

Definition same_matcher (st st' : rpc_engine) : Prop :=
  _requests st' = _requests st ∧
  ∀ c, completions (trace st') c = completions (trace st) c.

Definition quiet {A} (m : M rpc_engine A) : Prop :=
  ∀ st, returns m st (λ _ st', same_matcher st st').

Record consistent (owners : list Z) (st : rpc_engine) : Prop := {
  pending_not_completed :
    ∀ b k e, _requests st b !! k = Some e →
             completions (trace st) (resp_task e) = 0%nat;
  pending_once : entries_distinct st;
  completed_once : ∀ c, (completions (trace st) c <= 1)%nat;
  owned_not_completed :
    ∀ c, c ∈ owners → completions (trace st) c = 0%nat;
  owned_not_pending : ∀ c, c ∈ owners → not_pending st c;
  owners_distinct : NoDup owners
}.

Definition sys_consistent (sys : system) : Prop :=
  consistent (omap owner sys.2) sys.1.

(** Every entry of [st] is an entry of the table [R0] with the deadline it
    had there. *)
Definition deadlines_from (R0 : Z → gmap Z match_entry) (st : rpc_engine)
  : Prop :=
  ∀ b k e', _requests st b !! k = Some e' →
            ∃ e, R0 b !! k = Some e ∧ timeout_ts_ms e' = timeout_ts_ms e.

(** ** What call_ip asks of its arguments, and the message it sends

    [call_ip_message] is the request after the assignments of [call_ip]
    that precede the join point; [call_ip_ready] collects what its
    assertions, its loop and its network lookup need to get there. *)

Definition call_ip_message (addr : rpc_address) (reset_request_id
    set_forwarded : bool) (new_request_id : Z) (m : message_ex)
  : message_ex :=
  let m1 := msg_set_to_address addr m in
  let m2 := if reset_request_id
            then msg_set_header (hdr_set_id new_request_id) m1 else m1 in
  if set_forwarded && bool_decide (is_forwarded (header m2) = false)
  then msg_set_header (hdr_set_is_forwarded true) m2 else m2.

Definition call_ip_ready (addr : rpc_address) (req : Z) (m : message_ex)
    (net : Z) (st : rpc_engine) : Prop :=
  (debug_build = true →
   addr_type addr = HOST_TYPE_IPV4 ∧ port addr > MAX_CLIENT_PORT) ∧
  messages st !! req = Some m ∧
  is_invalid (from_address (header m)) = false ∧
  dl_alone m = true ∧
  _client_nets st
    !! (hdr_format m, rpc_call_channel (task_spec_get (local_rpc_code m)))
  = Some net.

(** The delay of the first timer and the deadline [on_call] stores for
    request [m] when the clock shows [now]. *)
Definition on_call_timer (m : message_ex) (now : Z) : Z * Z :=
  let sp := task_spec_get (local_rpc_code m) in
  let timeout_ms := client_timeout_ms (header m) in
  if bool_decide (rpc_request_resend_timeout_milliseconds sp > 0)
     && bool_decide (timeout_ms > rpc_request_resend_timeout_milliseconds sp)
  then (rpc_request_resend_timeout_milliseconds sp,
        wrap_u64 (now + timeout_ms))
  else (timeout_ms, 0).

End Engine.

(** * The rest of rpc_engine.cpp: teardown, startup, the inbound path *)

(** ** rpc_server_dispatcher: construction, call sequences *)

(** [rpc_server_dispatcher()]: one empty slot per task code, 0 to
    [task_code::max()], and an empty name index. *)
Definition rpc_server_dispatcher_new (task_code_max : Z)
  : rpc_server_dispatcher :=
  {| _handlers := ∅;
     _vhandlers := replicate (Z.to_nat (task_code_max + 1)) None |}.

(** A call a user makes on the dispatcher. *)
Inductive dispatcher_call :=
  | call_register (c : Z) (name : string) (handler : option Z)
  | call_unregister (c : Z).

(** ** Request tasks and what the node sees of them *)

(** [rpc_request_task]: the request, the handler found for it, the delay
    the task carries and its reference count. *)
Record rpc_request_task := {
  task_request : message_ex;
  task_handler : Z;
  task_delay_milliseconds : Z;
  task_ref_count : Z
}.

Definition request_task_set_delay (v : Z) (t : rpc_request_task)
  : rpc_request_task :=
  {| task_request := task_request t; task_handler := task_handler t;
     task_delay_milliseconds := v; task_ref_count := task_ref_count t |}.

Inductive node_event :=
  (* [r->spec().on_task_create.execute(task::get_current_task(), r)] *)
  | NvTaskCreate (cur : option Z) (tsk : rpc_request_task)
  (* [tsk->enqueue()] *)
  | NvRequestEnqueue (tsk : rpc_request_task)
  (* the task freed by [tsk->add_ref(); tsk->release_ref()] *)
  | NvRequestRelease (tsk : rpc_request_task)
  (* [factory_store<network>::create(name, type, this, inner)] *)
  | NvNetworkCreate (net : Z) (factory : string) (inner : option Z)
  | NvResetParserAttr (net : Z) (client_hdr_format : Z) (block_size : Z)
  (* [net->start(channel, port, client_only)] *)
  | NvNetworkStart (net : Z) (channel : Z) (cs_port : Z) (client_only : bool).

(** ** Startup configuration *)

Record network_client_config := {
  client_factory_name : string;
  client_message_buffer_block_size : Z
}.

Record network_server_config := {
  cs_port : Z;
  channel : Z;
  factory_name : string;
  message_buffer_block_size : Z
}.

(** [network_server_confs] is a [std::map]; what is kept of it is the
    sequence of its values in iteration order. *)
Record service_app_spec := {
  aspec_id : Z;
  ports : list Z;
  network_client_confs : gmap Z network_client_config;
  network_server_confs : list network_server_config
}.

(** The startup codes of [error_code]: two of the codes the client paths
    do not name. *)
Definition ERR_SERVICE_ALREADY_RUNNING : error_code := ERR_OTHER 1.
Definition ERR_NETWORK_INIT_FAILED : error_code := ERR_OTHER 2.

(** What startup and the inbound path use and the source files do not
    define.  [rpc_code] is [msg->rpc_code()]: the code, and the message as
    the call leaves it.  [generate_intercepted_request_task] is the hosting
    node's answer for a replicated partition.  [on_rpc_request_enqueue] is
    the join point: its verdict, and the task as the hook leaves it.
    [network_start] is the result of [net->start] on the network with that
    handle; [network_address] is [net->address()]. *)
Class node_environment := {
  rpc_code : message_ex → Z * message_ex;
  gpid_app_id : Z → Z;
  generate_intercepted_request_task : message_ex → option rpc_request_task;
  on_rpc_request_enqueue : rpc_request_task → bool * rpc_request_task;
  NET_HDR_INVALID : Z;
  NET_HDR_DSN : Z;
  network_header_format_max_value : Z;
  rpc_channel_max_value : Z;
  network_aspects : list string;
  network_start : Z → Z → Z → bool → error_code;
  network_address : Z → rpc_address;
  set_port : Z → rpc_address → rpc_address
}.

(** ** The whole engine *)

(** [rpc_engine] of the source holds the matcher and the transports (the
    record [rpc_engine] above), the dispatcher and the two lifecycle
    flags. *)
Record rpc_service := {
  engine : rpc_engine;
  _rpc_dispatcher : rpc_server_dispatcher;
  _is_running : bool;
  _is_serving : bool;
  node_log : list node_event
}.

Definition set_engine (v : rpc_engine) (s : rpc_service) : rpc_service :=
  {| engine := v; _rpc_dispatcher := _rpc_dispatcher s;
     _is_running := _is_running s; _is_serving := _is_serving s;
     node_log := node_log s |}.

Definition set_rpc_dispatcher (v : rpc_server_dispatcher) (s : rpc_service)
  : rpc_service :=
  {| engine := engine s; _rpc_dispatcher := v;
     _is_running := _is_running s; _is_serving := _is_serving s;
     node_log := node_log s |}.

Definition set_is_running (v : bool) (s : rpc_service) : rpc_service :=
  {| engine := engine s; _rpc_dispatcher := _rpc_dispatcher s;
     _is_running := v; _is_serving := _is_serving s;
     node_log := node_log s |}.

Definition set_node_log (v : list node_event) (s : rpc_service)
  : rpc_service :=
  {| engine := engine s; _rpc_dispatcher := _rpc_dispatcher s;
     _is_running := _is_running s; _is_serving := _is_serving s;
     node_log := v |}.

Definition set_client_nets (v : gmap (Z * Z) Z) (e : rpc_engine)
  : rpc_engine :=
  {| _requests := _requests e; calls := calls e; messages := messages e;
     groups := groups e; uri_resolvers := uri_resolvers e;
     _client_nets := v; _server_nets := _server_nets e;
     _local_primary_address := _local_primary_address e;
     next_request_id := next_request_id e; next_handle := next_handle e;
     rand_pos := rand_pos e; clock := clock e; trace := trace e |}.

Definition set_server_nets (v : gmap Z (gmap Z Z)) (e : rpc_engine)
  : rpc_engine :=
  {| _requests := _requests e; calls := calls e; messages := messages e;
     groups := groups e; uri_resolvers := uri_resolvers e;
     _client_nets := _client_nets e; _server_nets := v;
     _local_primary_address := _local_primary_address e;
     next_request_id := next_request_id e; next_handle := next_handle e;
     rand_pos := rand_pos e; clock := clock e; trace := trace e |}.

Definition set_local_primary_address (v : rpc_address) (e : rpc_engine)
  : rpc_engine :=
  {| _requests := _requests e; calls := calls e; messages := messages e;
     groups := groups e; uri_resolvers := uri_resolvers e;
     _client_nets := _client_nets e; _server_nets := _server_nets e;
     _local_primary_address := v;
     next_request_id := next_request_id e; next_handle := next_handle e;
     rand_pos := rand_pos e; clock := clock e; trace := trace e |}.

Definition msg_set_local_rpc_code (v : Z) (m : message_ex) : message_ex :=
  {| header := header m; to_address := to_address m;
     server_address := server_address m; local_rpc_code := v;
     hdr_format := hdr_format m; io_session := io_session m;
     send_retry_count := send_retry_count m; dl_alone := dl_alone m;
     ref_count := ref_count m; body := body m |}.

(** Running a member function of the matcher and transports, or of the
    dispatcher, on the part of the engine it belongs to. *)
Definition lift_engine {A} (m : M rpc_engine A) : M rpc_service A := λ s,
  match m (engine s) with
  | Ok (a, e) => Ok (a, set_engine e s)
  | Abort msg => Abort msg
  | Fault => Fault
  | Hang => Hang
  end.

Definition lift_dispatcher {A} (m : M rpc_server_dispatcher A)
  : M rpc_service A := λ s,
  match m (_rpc_dispatcher s) with
  | Ok (a, d) => Ok (a, set_rpc_dispatcher d s)
  | Abort msg => Abort msg
  | Fault => Fault
  | Hang => Hang
  end.

Definition node_emit (ev : node_event) : M rpc_service unit :=
  modify (λ s, set_node_log (node_log s ++ [ev]) s).

(** A loop whose body may leave the function with an error code. *)
Fixpoint for_each {S A} (l : list A) (body : A → M S (option error_code))
  : M S (option error_code) :=
  match l with
  | [] => mret None
  | x :: rest =>
      r ← body x;
      match r with
      | Some err => mret (Some err)
      | None => for_each rest body
      end
  end.

(** The sends, on a session or a network, in a history. *)
Definition is_send (ev : event) : bool :=
  match ev with
  | EvNetSend _ _ | EvSessionSend _ _ => true
  | _ => false
  end.

Section Service.

Context `{env : environment} `{nenv : node_environment}.

(** ** rpc_client_matcher::~rpc_client_matcher *)

(** The loop [for (i = 0; i < MATCHER_BUCKET_NR; i++)], from bucket [i]
    on, [n] buckets to go. *)
Fixpoint buckets_empty_from (i : Z) (n : nat) : M rpc_engine unit :=
  match n with
  | O => mret tt
  | S n' =>
      requests ← gets _requests;
      dassert (bool_decide (size (requests i) = 0%nat))
        "all rpc entries must be removed before the matcher ends";;
      buckets_empty_from (i + 1) n'
  end.

Definition rpc_client_matcher_destroy : M rpc_engine unit :=
  buckets_empty_from 0 (Z.to_nat MATCHER_BUCKET_NR).

(** ** Sequences of dispatcher calls *)

Definition run_dispatcher_call (op : dispatcher_call)
  : M rpc_server_dispatcher bool :=
  match op with
  | call_register c name handler => register_rpc_handler c name handler
  | call_unregister c => unregister_rpc_handler c
  end.

Fixpoint run_dispatcher_calls (ops : list dispatcher_call)
  : M rpc_server_dispatcher unit :=
  match ops with
  | [] => mret tt
  | op :: rest => _ ← run_dispatcher_call op; run_dispatcher_calls rest
  end.

(** An extra name is plain when it is not the name of another task code. *)
Definition plain_name (c : Z) (name : string) : Prop :=
  ∀ c', name = task_code_to_string c' → c' = c.

Definition plain_call (op : dispatcher_call) : Prop :=
  match op with
  | call_register c name _ => plain_name c name
  | call_unregister _ => True
  end.

(** The name index and the code slots describe the same handlers: an entry
    is filed under its code name and its extra name, and sits in the slot
    of its code; a slot holds an entry of its own code that the index has
    under the code name. *)
Record dispatcher_consistent (d : rpc_server_dispatcher) : Prop := {
  filed_under_own_names :
    ∀ n e, _handlers d !! n = Some e →
           n = task_code_to_string (code e) ∨ n = extra_name e;
  filed_under_both_names :
    ∀ n e, _handlers d !! n = Some e →
           _handlers d !! task_code_to_string (code e) = Some e ∧
           _handlers d !! extra_name e = Some e;
  filed_in_slot :
    ∀ n e, _handlers d !! n = Some e →
           0 <= code e ∧
           _vhandlers d !! Z.to_nat (code e) = Some (Some e);
  filed_plain :
    ∀ n e, _handlers d !! n = Some e → plain_name (code e) (extra_name e);
  slot_filed :
    ∀ i e, _vhandlers d !! i = Some (Some e) →
           code e = Z.of_nat i ∧
           _handlers d !! task_code_to_string (code e) = Some e
}.

(** ** rpc_engine::register_rpc_handler, unregister_rpc_handler *)

Definition engine_register_rpc_handler (c : Z) (name : string)
    (handler : option Z) : M rpc_service bool :=
  lift_dispatcher (register_rpc_handler c name handler).

Definition engine_unregister_rpc_handler (rpc_code : Z)
  : M rpc_service bool :=
  lift_dispatcher (unregister_rpc_handler rpc_code).

(** ** rpc_engine::on_recv_request *)

(** Modelled from the spec: [dsn_rpc_reply] is declared outside src/; the
    spec has the engine synthesize the response and reply.  The pair
    [msg->add_ref()] ... [msg->release_ref()] around it frees the request,
    which nobody referenced before. *)
Definition reply_handler_not_found (cur_task : option Z) (msg : message_ex)
  : M rpc_service unit :=
  dassert (bool_decide (ref_count msg = 0))
    "request should not be referenced by anybody so far";;
  lift_engine (reply cur_task (create_response msg) ERR_HANDLER_NOT_FOUND);;
  lift_engine (emit (EvDeleteMessage msg)).

(** [_rpc_dispatcher.on_request(msg, _node)] as the engine sees it: the
    message with the code the lookup left in it, and the request task built
    around a handler that is not empty, announced to the on_task_create
    hook.  A new task has no delay and no reference. *)
Definition dispatch_request (cur_task : option Z) (msg : message_ex)
  : M rpc_service (message_ex * option rpc_request_task) :=
  '(c, handler) ← lift_dispatcher (on_request_lookup msg);
  let msg := msg_set_local_rpc_code c msg in
  match handler with
  | Some f =>
      let r := {| task_request := msg; task_handler := f;
                  task_delay_milliseconds := 0; task_ref_count := 0 |} in
      node_emit (NvTaskCreate cur_task r);;
      mret (msg, Some r)
  | None => mret (msg, None)
  end.

Definition on_recv_request (cur_task : option Z) (net : Z) (msg : message_ex)
    (delay_ms : Z) : M rpc_service unit :=
  serving ← gets _is_serving;
  if negb serving then
    dassert (bool_decide (ref_count msg = 0))
      "request should not be referenced by anybody so far";;
    lift_engine (emit (EvDeleteMessage msg))
  else
    let '(code, msg) := rpc_code msg in
    if bool_decide (code ≠ TASK_CODE_INVALID) then
      (* handle replication *)
      let intercepted :=
        if bool_decide (gpid_app_id (gpid (header msg)) > 0)
        then generate_intercepted_request_task msg else None in
      '(msg, tsk) ← match intercepted with
                    | Some tsk => mret (msg, Some tsk)
                    | None => dispatch_request cur_task msg
                    end;
      match tsk with
      | Some tsk =>
          (* injector *)
          let '(accepted, tsk) := on_rpc_request_enqueue tsk in
          if (accepted : bool) then
            (* we set a default delay if it isn't generated by
               fault-injector *)
            let tsk := if bool_decide (task_delay_milliseconds tsk = 0)
                       then request_task_set_delay delay_ms tsk else tsk in
            node_emit (NvRequestEnqueue tsk)
          else
            (* call network failure model when network is present *)
            lift_engine (emit (EvInjectDrop net msg false));;
            if bool_decide (task_ref_count tsk = 0)
            then node_emit (NvRequestRelease tsk) else mret tt
      | None => reply_handler_not_found cur_task msg
      end
    else reply_handler_not_found cur_task msg.

(** ** rpc_engine::create_network, rpc_engine::start *)

Definition new_network (factory : string) (inner : option Z)
  : M rpc_service Z :=
  net ← lift_engine alloc_handle;
  node_emit (NvNetworkCreate net factory inner);;
  mret net.

(** The loop over [spec.network_aspects]: each aspect wraps the network
    built so far. *)
Fixpoint wrap_aspects (aspects : list string) (net : Z) : M rpc_service Z :=
  match aspects with
  | [] => mret net
  | a :: rest => net ← new_network a (Some net); wrap_aspects rest net
  end.

(** The result is [None] for [nullptr]. *)
Definition create_network (netcs : network_server_config) (client_only : bool)
    (client_hdr_format : Z) : M rpc_service (option Z) :=
  net ← new_network (factory_name netcs) None;
  node_emit (NvResetParserAttr net client_hdr_format
               (message_buffer_block_size netcs));;
  net ← wrap_aspects network_aspects net;
  (* start the net *)
  node_emit (NvNetworkStart net (channel netcs) (cs_port netcs) client_only);;
  let ret := network_start net (channel netcs) (cs_port netcs) client_only in
  if bool_decide (ret = ERR_OK) then mret (Some net)
  else
    (* mem leak, don't care as it halts the program *)
    dassert false "create network failed";;
    mret None.

(** The body of the loop "for each channel" of [start], for format [i]
    and channel [j]. *)
Definition start_client_channel (aspec : service_app_spec) (i j : Z)
  : M rpc_service (option error_code) :=
  match network_client_confs aspec !! j with
  | None =>
      (* network client for channel not registered, assuming not used
         further *)
      mret None
  | Some conf =>
      let cs := {| cs_port := aspec_id aspec; channel := j;
                   factory_name := client_factory_name conf;
                   message_buffer_block_size :=
                     client_message_buffer_block_size conf |} in
      net ← create_network cs true i;
      match net with
      | None => mret (Some ERR_NETWORK_INIT_FAILED)
      | Some net =>
          lift_engine
            (modify (λ e, set_client_nets
                            (<[(i, j) := net]> (_client_nets e)) e));;
          mret None
      end
  end.

(** The body of the loop over [aspec.network_server_confs]: the table of
    the port is created when it is missing, and the network is put in the
    slot of its channel. *)
Definition start_server (sp : network_server_config)
  : M rpc_service (option error_code) :=
  lift_engine
    (modify (λ e, match _server_nets e !! cs_port sp with
                  | None => set_server_nets
                              (<[cs_port sp := ∅]> (_server_nets e)) e
                  | Some _ => e
                  end));;
  net ← create_network sp false NET_HDR_DSN;
  match net with
  | None => mret (Some ERR_NETWORK_INIT_FAILED)
  | Some net =>
      lift_engine
        (modify (λ e, set_server_nets
                        (alter (insert (channel sp) net) (cs_port sp)
                           (_server_nets e)) e));;
      mret None
  end.

(** [rpc_engine::start].  The two tables are maps here, so the [resize]
    calls have nothing to do; [_uri_resolver_mgr.reset] builds the resolver
    manager, which the engine state does not hold; the logging is left
    out.  [_client_nets[NET_HDR_DSN][0]->address()] on a null entry is a
    fault. *)
Definition start (aspec : service_app_spec) : M rpc_service error_code :=
  running ← gets _is_running;
  if (running : bool) then mret ERR_SERVICE_ALREADY_RUNNING
  else
    (* start client networks: for each format, for each channel *)
    r ← for_each
          (seqZ (NET_HDR_INVALID + 1)
             (network_header_format_max_value - NET_HDR_INVALID))
          (λ i, for_each (seqZ 0 (rpc_channel_max_value + 1))
                  (start_client_channel aspec i));
    match r with
    | Some err => mret err
    | None =>
        (* start server networks *)
        r ← for_each (network_server_confs aspec) start_server;
        match r with
        | Some err => mret err
        | None =>
            nets ← lift_engine (gets _client_nets);
            match nets !! (NET_HDR_DSN, 0) with
            | None => fault
            | Some net =>
                let p := match ports aspec with
                         | p :: _ => p
                         | [] => aspec_id aspec
                         end in
                lift_engine
                  (modify (set_local_primary_address
                             (set_port p (network_address net))));;
                modify (set_is_running true);;
                mret ERR_OK
            end
        end
    end.

End Service.

(** * task_worker.cpp: the worker thread *)

Module task_worker.

Record threadpool_spec := {
  worker_priority : Z;
  worker_share_core : bool;
  worker_affinity_mask : Z
}.

(** [_thread] is [None] for [nullptr], else the handle of the thread. *)
Record task_worker := {
  _index : Z;
  _is_running : bool;
  _thread : option Z;
  next_thread : Z;
  created : list Z;
  joined : list Z
}.

(** [task_worker(pool, q, index, inner_provider)] *)
Definition task_worker_new (index : Z) (next_thread : Z) : task_worker :=
  {| _index := index; _is_running := false; _thread := None;
     next_thread := next_thread; created := []; joined := [] |}.

(** [start()]: a second call changes nothing.  [new std::thread] gives the
    next thread handle; the wait on [_started] is not modelled. *)
Definition start : M task_worker unit := λ w,
  if _is_running w then Ok (tt, w)
  else
    Ok (tt, {| _index := _index w; _is_running := true;
               _thread := Some (next_thread w);
               next_thread := next_thread w + 1;
               created := created w ++ [next_thread w];
               joined := joined w |}).

(** [stop()]: [_thread->join()] on a null [_thread] is a fault.  The wait
    inside [join] is not modelled: the thread is recorded as joined. *)
Definition stop : M task_worker unit := λ w,
  if negb (_is_running w) then Ok (tt, w)
  else
    match _thread w with
    | None => Fault
    | Some t =>
        Ok (tt, {| _index := _index w; _is_running := false;
                   _thread := None;
                   next_thread := next_thread w;
                   created := created w;
                   joined := joined w ++ [t] |})
    end.

Inductive worker_call := call_start | call_stop.

Definition run_worker_call (op : worker_call) : M task_worker unit :=
  match op with
  | call_start => start
  | call_stop => stop
  end.

Fixpoint run_worker_calls (ops : list worker_call) : M task_worker unit :=
  match ops with
  | [] => mret tt
  | op :: rest => run_worker_call op;; run_worker_calls rest
  end.

(** One round of the loop of [run_internal]:
    [current_mask &= (current_mask - 1);
     if (0 == current_mask) current_mask = pool_spec().worker_affinity_mask;]
    on [uint64_t]. *)
Definition next_mask (worker_affinity_mask current_mask : Z) : Z :=
  let current_mask := Z.land current_mask (wrap_u64 (current_mask - 1)) in
  if bool_decide (0 = current_mask) then worker_affinity_mask
  else current_mask.

(** [for (int i = 0; i < _index; ++i)], [n] rounds to go. *)
Fixpoint skip_cores (worker_affinity_mask : Z) (n : nat) (current_mask : Z)
  : Z :=
  match n with
  | O => current_mask
  | S n' =>
      skip_cores worker_affinity_mask n'
        (next_mask worker_affinity_mask current_mask)
  end.

(** The mask [run_internal] hands to [set_affinity] when the workers of
    the pool do not share cores. *)
Definition own_core_mask (worker_affinity_mask index : Z) : Z :=
  let current_mask :=
    skip_cores worker_affinity_mask (Z.to_nat index) worker_affinity_mask in
  wrap_u64
    (current_mask - Z.land current_mask (wrap_u64 (current_mask - 1))).

(** The calls of [run_internal] that concern the affinity: the argument of
    [set_affinity], [None] when it is not called. *)
Definition run_internal_affinity (spec : threadpool_spec) (index : Z)
  : option Z :=
  if worker_share_core spec then
    if bool_decide (worker_affinity_mask spec > 0)
    then Some (worker_affinity_mask spec) else None
  else Some (own_core_mask (worker_affinity_mask spec) index).

(** The number of bits set in a mask. *)
Fixpoint popcount_pos (p : positive) : nat :=
  match p with
  | xH => 1
  | xO p' => popcount_pos p'
  | xI p' => S (popcount_pos p')
  end.

Definition popcount (z : Z) : nat :=
  match z with
  | Zpos p => popcount_pos p
  | _ => 0
  end.

End task_worker.

(** * A concrete engine: the scenarios of the specification *)

Definition demo_spec : task_spec :=
  {| grpc_mode := GRPC_TO_LEADER;
     rpc_call_channel := 0;
     rpc_call_header_format := 0;
     rpc_request_resend_timeout_milliseconds := 200;
     on_rpc_call := λ _, true;
     on_rpc_reply := λ _, true |}.

(** The policy of code 44: no resend threshold. *)
Definition demo_spec_no_resend : task_spec :=
  {| grpc_mode := GRPC_TO_LEADER;
     rpc_call_channel := 0;
     rpc_call_header_format := 0;
     rpc_request_resend_timeout_milliseconds := 0;
     on_rpc_call := λ _, true;
     on_rpc_reply := λ _, true |}.

Definition demo_env : environment :=
  {| MATCHER_BUCKET_NR := 13;
     MAX_CLIENT_PORT := 1023;
     TASK_CODE_INVALID := 0;
     RPC_CHANNEL_TCP := 0;
     debug_build := true;
     task_spec_get := λ c, if bool_decide (c = 44) then demo_spec_no_resend
                           else demo_spec;
     task_code_to_string := λ c, if bool_decide (c = 42) then "RPC_ECHO"
                                 else "RPC_OTHER";
     error_code_to_string := λ e, match e with
                                  | ERR_OK => "ERR_OK"
                                  | ERR_FORWARD_TO_OTHERS =>
                                      "ERR_FORWARD_TO_OTHERS"
                                  | _ => "ERR_UNKNOWN"
                                  end;
     error_name_size := 48;
     s_local_hash := 1;
     session_net := λ s, s;
     response_enqueue_accepts := λ _ _, true;
     rand_source := λ _, 0;
     gpid_thread_hash := λ g, g;
     rpc_paired_code := λ c, c + 1 |}.

Definition demo_header : message_header :=
  {| id := 7; trace_id := 0; rpc_name := "RPC_ECHO";
     from_address := addr_ipv4 167772162 34601;
     client_timeout_ms := 1000;
     client_partition_hash := 0; client_thread_hash := 0;
     server_error_name := ""; server_error_code := ERR_OK;
     server_error_hash := 0;
     is_request := true; is_forwarded := false;
     is_forward_supported := true; gpid := 0 |}.

(** The request of scenario S1: code 42 to 10.0.0.1:7000, 1000 ms. *)
Definition demo_request : message_ex :=
  {| header := demo_header;
     to_address := addr_ipv4 167772161 7000;
     server_address := addr_ipv4 167772161 7000;
     local_rpc_code := 42; hdr_format := 0; io_session := None;
     send_retry_count := 0; dl_alone := true; ref_count := 0;
     body := None |}.

Definition demo_task : rpc_response_task :=
  {| request := 1; state := TASK_STATE_READY;
     current_handler := cb_user 1; delay_milliseconds := 0 |}.

(** An engine with one request (handle 1) and its response task (handle
    100), nothing in flight, the clock at 5000 ms. *)
Definition demo_engine : rpc_engine :=
  {| _requests := λ _, ∅;
     calls := {[ 100 := demo_task ]};
     messages := {[ 1 := demo_request ]};
     groups := ∅;
     uri_resolvers := ∅;
     _client_nets := {[ (0, 0) := 900 ]};
     _server_nets := ∅;
     _local_primary_address := addr_ipv4 167772162 34601;
     next_request_id := 1000;
     next_handle := 200;
     rand_pos := 0;
     clock := 5000;
     trace := [] |}.

Definition demo_dispatcher : rpc_server_dispatcher :=
  {| _handlers := ∅; _vhandlers := replicate 64 None |}.

Definition engine_after {A} (r : result (A * rpc_engine))
    (otherwise : rpc_engine) : rpc_engine :=
  match r with
  | Ok (_, st) => st
  | _ => otherwise
  end.

(** S2: the request of S1 under code 44 with 100 ms, issued through
    [call_ip]. *)
Definition demo_short_request : message_ex :=
  {| header := hdr_set_client_timeout_ms 100 demo_header;
     to_address := addr_invalid;
     server_address := addr_ipv4 167772161 7000;
     local_rpc_code := 44; hdr_format := 0; io_session := None;
     send_retry_count := 0; dl_alone := true; ref_count := 0;
     body := None |}.

Definition demo_short_in_flight : rpc_engine :=
  engine_after
    (call (env := demo_env) 1 (Some 100)
       (set_messages {[ 1 := demo_short_request ]} demo_engine))
    demo_engine.

(** S3: the request of S1 issued through [call]. *)
Definition demo_called : rpc_engine :=
  engine_after (call (env := demo_env) 1 (Some 100) demo_engine) demo_engine.

(** The call of S3 in flight: id 7, resend threshold 200 ms, so the entry
    holds the deadline 6000 and the first timer fires after 200 ms. *)
Definition demo_in_flight : rpc_engine :=
  engine_after (on_call (env := demo_env) 1 100 demo_engine) demo_engine.

(** The same table with an empty history. *)
Definition demo_registered : rpc_engine := set_trace [] demo_in_flight.

Definition demo_reply_header (err : error_code) : message_header :=
  {| id := 7; trace_id := 0; rpc_name := "RPC_ECHO_ACK";
     from_address := addr_ipv4 167772161 7000;
     client_timeout_ms := 0;
     client_partition_hash := 0; client_thread_hash := 0;
     server_error_name := ""; server_error_code := err;
     server_error_hash := 1;
     is_request := false; is_forwarded := false;
     is_forward_supported := true; gpid := 0 |}.

Definition demo_reply (err : error_code) (payload : option rpc_address)
  : message_ex :=
  {| header := demo_reply_header err;
     to_address := addr_ipv4 167772162 34601;
     server_address := addr_invalid;
     local_rpc_code := 43; hdr_format := 0; io_session := Some 5;
     send_retry_count := 0; dl_alone := true; ref_count := 0;
     body := payload |}.

(** A reply of S4: FORWARD_TO_OTHERS carrying 10.0.0.3:7000. *)
Definition demo_redirect : message_ex :=
  demo_reply ERR_FORWARD_TO_OTHERS (Some (addr_ipv4 167772163 7000)).

(** S4: the request is addressed to group 1 = {10.0.0.1, 10.0.0.3},
    leader 10.0.0.1, updated automatically. *)
Definition demo_group : group_address :=
  {| members := [addr_ipv4 167772161 7000; addr_ipv4 167772163 7000];
     leader := addr_ipv4 167772161 7000;
     is_update_leader_automatically := true |}.

Definition demo_group_request : message_ex :=
  {| header := demo_header;
     to_address := addr_ipv4 167772161 7000;
     server_address := addr_group 1;
     local_rpc_code := 42; hdr_format := 0; io_session := None;
     send_retry_count := 0; dl_alone := true; ref_count := 0;
     body := None |}.

Definition demo_group_engine : rpc_engine :=
  engine_after
    (on_call (env := demo_env) 1 100
       (set_groups {[ 1 := demo_group ]}
          (set_messages {[ 1 := demo_group_request ]} demo_engine)))
    demo_engine.

(** S5: the request is addressed to URI 1, resolved to partition 1 of
    app 1; its response task is running its callback.  [resolvers] says
    which URI has which resolver. *)
Definition demo_uri_request (retries : Z) : message_ex :=
  {| header := hdr_set_gpid (1 + 2 ^ 32)
                 (hdr_set_client_timeout_ms 50 demo_header);
     to_address := addr_ipv4 167772161 7000;
     server_address := addr_uri 1;
     local_rpc_code := 42; hdr_format := 0; io_session := None;
     send_retry_count := retries; dl_alone := true; ref_count := 0;
     body := None |}.

Definition demo_uri_engine (resolvers : gmap Z Z) (now retries : Z)
  : rpc_engine :=
  {| _requests := λ _, ∅;
     calls := {[ 100 := task_set_state TASK_STATE_RUNNING demo_task ]};
     messages := {[ 1 := demo_uri_request retries ]};
     groups := ∅;
     uri_resolvers := resolvers;
     _client_nets := {[ (0, 0) := 900 ]};
     _server_nets := ∅;
     _local_primary_address := addr_ipv4 167772162 34601;
     next_request_id := 1000;
     next_handle := 200;
     rand_pos := 0;
     clock := now;
     trace := [] |}.

(** S6: a request that arrived over session 5 from a pure client. *)
Definition demo_client_request : message_ex :=
  {| header := hdr_set_from_address (addr_ipv4 167772170 1000) demo_header;
     to_address := addr_ipv4 167772162 34601;
     server_address := addr_invalid;
     local_rpc_code := 42; hdr_format := 0; io_session := Some 5;
     send_retry_count := 0; dl_alone := true; ref_count := 0;
     body := None |}.

(** A request that arrived from another server, 10.0.0.9:34601. *)
Definition demo_server_request : message_ex :=
  {| header := hdr_set_from_address (addr_ipv4 167772169 34601) demo_header;
     to_address := addr_ipv4 167772162 34601;
     server_address := addr_invalid;
     local_rpc_code := 42; hdr_format := 0; io_session := Some 5;
     send_retry_count := 0; dl_alone := true; ref_count := 0;
     body := None |}.

(** A response nobody can receive: no session, invalid to_address. *)
Definition demo_lost_response : message_ex :=
  {| header := demo_reply_header ERR_OK;
     to_address := addr_invalid;
     server_address := addr_invalid;
     local_rpc_code := 43; hdr_format := 0; io_session := None;
     send_retry_count := 0; dl_alone := true; ref_count := 0;
     body := None |}.

(** The HANDLER_NOT_FOUND response to an unknown rpc name: it has a
    session, and its code is TASK_CODE_INVALID. *)
Definition demo_unknown_response : message_ex :=
  {| header := demo_reply_header ERR_OK;
     to_address := addr_ipv4 167772170 1000;
     server_address := addr_invalid;
     local_rpc_code := 0; hdr_format := 0; io_session := Some 5;
     send_retry_count := 0; dl_alone := true; ref_count := 0;
     body := None |}.

(** The sends a transport has seen. *)
Definition is_net_send (ev : event) : bool :=
  match ev with
  | EvNetSend _ _ => true
  | _ => false
  end.

(** * A concrete node: startup, the inbound path, a worker pool *)

(** Two wire formats above NET_HDR_INVALID = 0, two channels, one network
    aspect; the injector denies the requests for handler 13; a network
    asked to listen on port 9999 fails to start. *)
Definition demo_node_env : node_environment :=
  {| rpc_code := λ m, (local_rpc_code m, m);
     gpid_app_id := λ g, g `mod` 2 ^ 32;
     generate_intercepted_request_task := λ _, None;
     on_rpc_request_enqueue :=
       λ t, (bool_decide (task_handler t ≠ 13), t);
     NET_HDR_INVALID := 0;
     NET_HDR_DSN := 1;
     network_header_format_max_value := 2;
     rpc_channel_max_value := 1;
     network_aspects := ["tracer"];
     network_start :=
       λ _ _ p _, if bool_decide (p = 9999) then ERR_OTHER 7 else ERR_OK;
     network_address := λ _, addr_ipv4 167772162 0;
     set_port := λ p a, match a with
                        | addr_ipv4 ip _ => addr_ipv4 ip p
                        | _ => a
                        end |}.

(** The engine of S1 with an empty dispatcher: serving, not started. *)
Definition demo_service : rpc_service :=
  {| engine := demo_engine;
     _rpc_dispatcher := demo_dispatcher;
     _is_running := false;
     _is_serving := true;
     node_log := [] |}.

Definition service_after {A} (r : result (A * rpc_service))
    (otherwise : rpc_service) : rpc_service :=
  match r with
  | Ok (_, s) => s
  | _ => otherwise
  end.

(** [demo_service] with handler [handler] registered for code 42 under
    the extra name "Echo". *)
Definition demo_serving (handler : Z) : rpc_service :=
  service_after
    (engine_register_rpc_handler (env := demo_env) 42 "Echo" (Some handler)
       demo_service)
    demo_service.

(** App 1 on port 34601: a client configuration for channel 0 only, one
    server network on channel 0. *)
Definition demo_app_spec : service_app_spec :=
  {| aspec_id := 1;
     ports := [34601];
     network_client_confs :=
       {[ 0 := {| client_factory_name := "sim";
                  client_message_buffer_block_size := 65536 |} ]};
     network_server_confs :=
       [ {| cs_port := 34601; channel := 0; factory_name := "sim";
            message_buffer_block_size := 65536 |} ] |}.

(** The request of S1 addressed to URI 1, before any resolution. *)
Definition demo_unresolved_request : message_ex :=
  {| header := demo_header;
     to_address := addr_invalid;
     server_address := addr_uri 1;
     local_rpc_code := 42; hdr_format := 0; io_session := None;
     send_retry_count := 0; dl_alone := true; ref_count := 0;
     body := None |}.

Definition demo_unresolved_engine (resolvers : gmap Z Z) : rpc_engine :=
  {| _requests := λ _, ∅;
     calls := {[ 100 := demo_task ]};
     messages := {[ 1 := demo_unresolved_request ]};
     groups := ∅;
     uri_resolvers := resolvers;
     _client_nets := {[ (0, 0) := 900 ]};
     _server_nets := {[ 34601 := {[ 0 := 901 ]} ]};
     _local_primary_address := addr_ipv4 167772162 34601;
     next_request_id := 1000;
     next_handle := 200;
     rand_pos := 0;
     clock := 5000;
     trace := [] |}.

(** A response to a request that another server forwarded: it has the
    session of the forwarder and the named port of the caller. *)
Definition demo_forwarded_response : message_ex :=
  {| header := hdr_set_is_forwarded true (demo_reply_header ERR_OK);
     to_address := addr_ipv4 167772169 34601;
     server_address := addr_invalid;
     local_rpc_code := 43; hdr_format := 0; io_session := Some 5;
     send_retry_count := 0; dl_alone := true; ref_count := 0;
     body := None |}.

(** A pool of workers with their own cores out of the cores 1, 2 and 4
    (mask 2^1 + 2^2 + 2^4 = 22). *)
Definition demo_pool_spec : task_worker.threadpool_spec :=
  {| task_worker.worker_priority := 2;
     task_worker.worker_share_core := false;
     task_worker.worker_affinity_mask := 22 |}.

(** A policy whose hooks deny every call and every reply. *)
Definition demo_spec_denying : task_spec :=
  {| grpc_mode := GRPC_TO_LEADER;
     rpc_call_channel := 0;
     rpc_call_header_format := 0;
     rpc_request_resend_timeout_milliseconds := 0;
     on_rpc_call := λ _, false;
     on_rpc_reply := λ _, false |}.

(** [demo_env] under fault injection: every code has the denying policy. *)
Definition demo_denying_env : environment :=
  {| MATCHER_BUCKET_NR := 13;
     MAX_CLIENT_PORT := 1023;
     TASK_CODE_INVALID := 0;
     RPC_CHANNEL_TCP := 0;
     debug_build := true;
     task_spec_get := λ _, demo_spec_denying;
     task_code_to_string := λ c, if bool_decide (c = 42) then "RPC_ECHO"
                                 else "RPC_OTHER";
     error_code_to_string := λ _, "ERR_UNKNOWN";
     error_name_size := 48;
     s_local_hash := 1;
     session_net := λ s, s;
     response_enqueue_accepts := λ _ _, true;
     rand_source := λ _, 0;
     gpid_thread_hash := λ g, g;
     rpc_paired_code := λ c, c + 1 |}.

(** Two calls in flight in the same bucket: id 7 (task 100) and id 20
    (task 101), 20 mod 13 = 7. *)
Definition demo_two_in_flight : rpc_engine :=
  engine_after
    (on_call (env := demo_env) 2 101
       (set_calls {[ 100 := demo_task;
                     101 := {| request := 2; state := TASK_STATE_READY;
                               current_handler := cb_user 2;
                               delay_milliseconds := 0 |} ]}
          (set_messages
             {[ 1 := demo_request;
                2 := msg_set_header (hdr_set_id 20) demo_request ]}
             demo_in_flight)))
    demo_engine.

(** [demo_env] with a name for every task code: "RPC_" followed by the
    number of the code. *)
Definition demo_named_env : environment :=
  {| MATCHER_BUCKET_NR := 13;
     MAX_CLIENT_PORT := 1023;
     TASK_CODE_INVALID := 0;
     RPC_CHANNEL_TCP := 0;
     debug_build := true;
     task_spec_get := λ _, demo_spec;
     task_code_to_string := λ c, "RPC_" +:+ pretty.pretty c;
     error_code_to_string := λ _, "ERR_UNKNOWN";
     error_name_size := 48;
     s_local_hash := 1;
     session_net := λ s, s;
     response_enqueue_accepts := λ _ _, true;
     rand_source := λ _, 0;
     gpid_thread_hash := λ g, g;
     rpc_paired_code := λ c, c + 1 |}.

(** A request that names its operation "Echo" and carries no code. *)
Definition demo_named_request : message_ex :=
  {| header :=
       {| id := 7; trace_id := 0; rpc_name := "Echo";
          from_address := addr_ipv4 167772170 1000;
          client_timeout_ms := 1000;
          client_partition_hash := 0; client_thread_hash := 0;
          server_error_name := ""; server_error_code := ERR_OK;
          server_error_hash := 0;
          is_request := true; is_forwarded := false;
          is_forward_supported := true; gpid := 0 |};
     to_address := addr_ipv4 167772162 34601;
     server_address := addr_invalid;
     local_rpc_code := 0; hdr_format := 0; io_session := Some 5;
     send_retry_count := 0; dl_alone := true; ref_count := 0;
     body := None |}.

(** [demo_service] before it serves. *)
Definition demo_not_serving : rpc_service :=
  {| engine := demo_engine;
     _rpc_dispatcher := demo_dispatcher;
     _is_running := false;
     _is_serving := false;
     node_log := [] |}.

(** * Properties *)

Section Properties.

Context `{env : environment}.

(** ** Running the monad *)

Lemma bind_run {S A B} (m : M S A) (f : A → M S B) (s : S) :
  (m ≫= f) s =
  match m s with
  | Ok (a, s') => f a s'
  | Abort msg => Abort msg
  | Fault => Fault
  | Hang => Hang
  end.
Proof. reflexivity. Qed.

Lemma bind_ok {S A B} (m : M S A) (f : A → M S B) (s s' : S) (a : A) :
  m s = Ok (a, s') → (m ≫= f) s = f a s'.
Proof. intros Hm. rewrite bind_run, Hm. reflexivity. Qed.

Lemma get_msg_ok (p : Z) (m : message_ex) (st : rpc_engine) :
  messages st !! p = Some m → get_msg p st = Ok (m, st).
Proof. intros Hp. unfold get_msg. rewrite Hp. reflexivity. Qed.

Lemma get_call_ok (c : Z) (t : rpc_response_task) (st : rpc_engine) :
  calls st !! c = Some t → get_call c st = Ok (t, st).
Proof. intros Hc. unfold get_call. rewrite Hc. reflexivity. Qed.

Lemma wrap_u64_small (z : Z) : 0 <= z < 2 ^ 64 → wrap_u64 z = z.
Proof. intros Hz. unfold wrap_u64. apply Z.mod_small. exact Hz. Qed.

Lemma wrap_i32_small (z : Z) : - 2 ^ 31 <= z < 2 ^ 31 → wrap_i32 z = z.
Proof.
  intros Hz. unfold wrap_i32. rewrite Z.mod_small by lia. lia.
Qed.

(** Unfolding the monad and the primitives, then the state projections. *)
Tactic Notation "munfold" "in" hyp(H) :=
  cbv [mbind M_bind mret M_ret gets modify abort fault hang dassert
       emit get_msg get_call update_msg update_call update_group
       dsn_now_ms alloc_handle new_id next_u64 call_set_delay call_enqueue
       add_ref_release_ref emplace client_net server_net] in H;
  cbn [_requests calls messages groups uri_resolvers _client_nets
       _server_nets _local_primary_address next_request_id next_handle
       rand_pos clock trace
       set_requests set_calls set_messages set_groups set_next_request_id
       set_next_handle set_rand_pos set_clock set_trace fst snd
       andb orb negb] in H.

Tactic Notation "munfold" :=
  cbv [mbind M_bind mret M_ret gets modify abort fault hang dassert
       emit get_msg get_call update_msg update_call update_group
       dsn_now_ms alloc_handle new_id next_u64 call_set_delay call_enqueue
       add_ref_release_ref emplace client_net server_net];
  cbn [_requests calls messages groups uri_resolvers _client_nets
       _server_nets _local_primary_address next_request_id next_handle
       rand_pos clock trace
       set_requests set_calls set_messages set_groups set_next_request_id
       set_next_handle set_rand_pos set_clock set_trace fst snd
       andb orb negb].

(** Stepping through straight-line code: unfold, project, read back what
    was just written. *)
Ltac mgo :=
  repeat (munfold;
          cbn [header to_address server_address local_rpc_code hdr_format
               io_session send_retry_count dl_alone ref_count body
               msg_set_header msg_set_to_address msg_set_send_retry_count
               msg_set_dl_alone msg_set_body
               id trace_id rpc_name from_address client_timeout_ms
               client_partition_hash client_thread_hash server_error_name
               server_error_code server_error_hash is_request is_forwarded
               is_forward_supported gpid
               hdr_set_id hdr_set_trace_id hdr_set_from_address
               hdr_set_client_timeout_ms hdr_set_client_thread_hash
               hdr_set_server_error hdr_set_is_request hdr_set_is_forwarded
               hdr_set_gpid
               request state current_handler delay_milliseconds
               task_set_state task_set_handler task_set_delay];
          rewrite ?lookup_insert_eq, ?fn_lookup_insert).

(** ** call_ip, case by case *)

Ltac call_ip_prefix Hready :=
  let Hdbg := fresh "Hdbg" in
  let Hm := fresh "Hm" in
  let Hfrom := fresh "Hfrom" in
  let Halone := fresh "Halone" in
  let Hnet := fresh "Hnet" in
  destruct Hready as (Hdbg & Hm & Hfrom & Halone & Hnet);
  unfold call_ip, dbg_dassert, pick_out_of_sending_queue;
  destruct debug_build;
  [destruct Hdbg as [Htype Hport]; [reflexivity|];
   rewrite (bool_decide_eq_true_2 _ Htype), (bool_decide_eq_true_2 _ Hport)
  |];
  munfold; rewrite Hm; munfold; rewrite Hfrom; munfold; rewrite Hm;
  munfold; rewrite Halone; munfold; rewrite Hm; mgo; rewrite Hnet; mgo.

Lemma is_forwarded_unset_true :
  bool_decide (true = false) = false.
Proof. reflexivity. Qed.

Lemma is_forwarded_unset_false :
  bool_decide (false = false) = true.
Proof. reflexivity. Qed.

Ltac msg_fields_in H :=
  cbn [header to_address server_address local_rpc_code hdr_format
       io_session send_retry_count dl_alone ref_count body
       msg_set_header msg_set_to_address msg_set_send_retry_count
       msg_set_dl_alone msg_set_body
       id trace_id rpc_name from_address client_timeout_ms
       client_partition_hash client_thread_hash server_error_name
       server_error_code server_error_hash is_request is_forwarded
       is_forward_supported gpid
       hdr_set_id hdr_set_trace_id hdr_set_from_address
       hdr_set_client_timeout_ms hdr_set_client_thread_hash
       hdr_set_server_error hdr_set_is_request hdr_set_is_forwarded
       hdr_set_gpid andb] in H.

Lemma call_ip_sent (addr : rpc_address) (req : Z) (reset fwd : bool)
    (m : message_ex) (net : Z) (st : rpc_engine) :
  call_ip_ready addr req m net st →
  let m' := call_ip_message addr reset fwd (next_request_id st) m in
  on_rpc_call (task_spec_get (local_rpc_code m)) m' = true →
  call_ip addr req None reset fwd st
  = Ok (tt,
        set_trace (trace st ++ [EvOnRpcCall m' None; EvNetSend net m'])
          (set_messages (<[req := m']> (messages st))
             (if reset
              then set_next_request_id (next_request_id st + 1) st
              else st))).
Proof.
  intros Hready m' Hhook. subst m'. unfold call_ip_message in *.
  destruct reset, fwd, (is_forwarded (header m)) eqn:Hfwd;
    call_ip_prefix Hready; msg_fields_in Hhook; cbn [andb]; mgo;
    rewrite ?Hfwd in *;
    rewrite ?is_forwarded_unset_true, ?is_forwarded_unset_false in *; mgo;
    rewrite Hhook; mgo; rewrite ?insert_insert_eq, <- ?(assoc_L (++));
    reflexivity.
Qed.

Lemma call_ip_dropped (addr : rpc_address) (req : Z) (reset fwd : bool)
    (m : message_ex) (net : Z) (st : rpc_engine) :
  call_ip_ready addr req m net st →
  let m' := call_ip_message addr reset fwd (next_request_id st) m in
  on_rpc_call (task_spec_get (local_rpc_code m)) m' = false →
  call_ip addr req None reset fwd st
  = Ok (tt,
        set_trace
          (trace st ++ [EvOnRpcCall m' None; EvInjectDrop net m' true]
             ++ (if bool_decide (ref_count m' = 0)
                 then [EvDeleteMessage m'] else []))
          (set_messages (<[req := m']> (messages st))
             (if reset
              then set_next_request_id (next_request_id st + 1) st
              else st))).
Proof.
  intros Hready m' Hhook. subst m'. unfold call_ip_message in *.
  destruct reset, fwd, (is_forwarded (header m)) eqn:Hfwd;
    call_ip_prefix Hready; msg_fields_in Hhook; cbn [andb]; mgo;
    rewrite ?Hfwd in *;
    rewrite ?is_forwarded_unset_true, ?is_forwarded_unset_false in *; mgo;
    rewrite Hhook; mgo;
    destruct (bool_decide (ref_count m = 0)); mgo;
    rewrite ?insert_insert_eq, <- ?(assoc_L (++)), ?app_nil_r;
    reflexivity.
Qed.

Lemma on_call_run (req call : Z) (m : message_ex) (t : rpc_response_task)
    (st : rpc_engine) :
  let key := id (header m) in
  let b := key `mod` MATCHER_BUCKET_NR in
  let e := {| resp_task := call; timeout_task := next_handle st;
              timeout_ts_ms := (on_call_timer m (clock st)).2 |} in
  messages st !! req = Some m →
  calls st !! call = Some t →
  _requests st b !! key = None →
  on_call req call st
  = Ok (tt,
        set_trace
          (trace st
             ++ [EvTimerEnqueue (next_handle st) key
                   (on_call_timer m (clock st)).1])
          (set_requests (<[b := <[key := e]> (_requests st b)]> (_requests st))
             (set_next_handle (next_handle st + 1) st))).
Proof.
  intros key b e Hm Hc Hfree. subst e. unfold on_call, on_call_timer.
  munfold. rewrite Hm. fold key b.
  destruct (bool_decide _ && bool_decide _); munfold;
    rewrite Hc; munfold; rewrite Hfree; reflexivity.
Qed.

Lemma call_ip_registered (addr : rpc_address) (req c : Z) (reset fwd : bool)
    (m : message_ex) (t : rpc_response_task) (net : Z) (st : rpc_engine) :
  call_ip_ready addr req m net st →
  let m' := call_ip_message addr reset fwd (next_request_id st) m in
  let key := id (header m') in
  let b := key `mod` MATCHER_BUCKET_NR in
  let e := {| resp_task := c; timeout_task := next_handle st;
              timeout_ts_ms := (on_call_timer m' (clock st)).2 |} in
  on_rpc_call (task_spec_get (local_rpc_code m)) m' = true →
  calls st !! c = Some t →
  _requests st b !! key = None →
  call_ip addr req (Some c) reset fwd st
  = Ok (tt,
        set_trace
          (trace st
             ++ [EvOnRpcCall m' (Some c);
                 EvTimerEnqueue (next_handle st) key
                   (on_call_timer m' (clock st)).1;
                 EvNetSend net m'])
          (set_requests
             (<[b := <[key := e]> (_requests st b)]> (_requests st))
             (set_next_handle (next_handle st + 1)
                (set_messages (<[req := m']> (messages st))
                   (if reset
                    then set_next_request_id (next_request_id st + 1) st
                    else st))))).
Proof.
  intros Hready m' key b e Hhook Hc Hfree. subst e b key m'.
  unfold call_ip_message in *.
  destruct reset, fwd, (is_forwarded (header m)) eqn:Hfwd;
    call_ip_prefix Hready; msg_fields_in Hhook; msg_fields_in Hfree;
    cbn [andb]; mgo;
    rewrite ?Hfwd in *;
    rewrite ?is_forwarded_unset_true, ?is_forwarded_unset_false in *; mgo;
    rewrite Hhook; mgo;
    (erewrite on_call_run;
     [|munfold; rewrite ?insert_insert_eq; apply lookup_insert_eq
      |munfold; exact Hc
      |munfold; msg_fields_in Hfree; mgo; exact Hfree]);
    mgo; rewrite ?insert_insert_eq, <- ?(assoc_L (++));
    reflexivity.
Qed.

(** ** The table after an erase, an insert, a timer reset *)

Lemma lookup_erased (R : Z → gmap Z match_entry) (b key b' k' : Z) :
  (<[b := delete key (R b)]> R) b' !! k'
  = if decide (b' = b ∧ k' = key) then None else R b' !! k'.
Proof.
  destruct (decide (b' = b)) as [->|Hb].
  - rewrite fn_lookup_insert.
    destruct (decide (k' = key)) as [->|Hk].
    + rewrite lookup_delete_eq. rewrite decide_True by done. reflexivity.
    + rewrite lookup_delete_ne by done.
      rewrite decide_False by tauto. reflexivity.
  - rewrite fn_lookup_insert_ne by done.
    rewrite decide_False by tauto. reflexivity.
Qed.

Lemma lookup_inserted (R : Z → gmap Z match_entry) (b key b' k' : Z)
    (e : match_entry) :
  (<[b := <[key := e]> (R b)]> R) b' !! k'
  = if decide (b' = b ∧ k' = key) then Some e else R b' !! k'.
Proof.
  destruct (decide (b' = b)) as [->|Hb].
  - rewrite fn_lookup_insert.
    destruct (decide (k' = key)) as [->|Hk].
    + rewrite lookup_insert_eq. rewrite decide_True by done. reflexivity.
    + rewrite lookup_insert_ne by done.
      rewrite decide_False by tauto. reflexivity.
  - rewrite fn_lookup_insert_ne by done.
    rewrite decide_False by tauto. reflexivity.
Qed.

Lemma call_ip_ready_frame (addr : rpc_address) (req : Z) (m : message_ex)
    (net : Z) (st st' : rpc_engine) :
  messages st' = messages st → _client_nets st' = _client_nets st →
  call_ip_ready addr req m net st → call_ip_ready addr req m net st'.
Proof.
  intros Hmsgs Hnets (? & ? & ? & ? & ?). unfold call_ip_ready.
  rewrite Hmsgs, Hnets. auto.
Qed.

(** ** Counting completions *)

Lemma completions_nil (c : Z) : completions [] c = 0%nat.
Proof. reflexivity. Qed.

Lemma completions_cons (ev : event) (tr : list event) (c : Z) :
  completions (ev :: tr) c
  = ((if is_call_enqueue c ev then 1 else 0) + completions tr c)%nat.
Proof.
  unfold completions. rewrite filter_cons.
  destruct (is_call_enqueue c ev); reflexivity.
Qed.

Lemma completions_app (tr1 tr2 : list event) (c : Z) :
  completions (tr1 ++ tr2) c = (completions tr1 c + completions tr2 c)%nat.
Proof. unfold completions. rewrite list.filter_app, length_app. reflexivity. Qed.

Lemma completions_other (ev : event) (tr : list event) (c : Z) :
  is_call_enqueue c ev = false →
  completions (tr ++ [ev]) c = completions tr c.
Proof.
  intros Hev. rewrite completions_app, completions_cons, Hev. cbn. lia.
Qed.

(** ** The rules of [returns], [triple] and [quiet] *)

Lemma returns_bind {S A B} (m : M S A) (f : A → M S B) (s : S)
    (Q : B → S → Prop) :
  returns m s (λ a s', returns (f a) s' Q) → returns (m ≫= f) s Q.
Proof.
  unfold returns. rewrite bind_run. destruct (m s) as [[a s']| | |]; auto.
Qed.

Lemma returns_mono {S A} (m : M S A) (s : S) (Q Q' : A → S → Prop) :
  (∀ a s', Q a s' → Q' a s') → returns m s Q → returns m s Q'.
Proof.
  unfold returns. intros HQ. destruct (m s) as [[a s']| | |]; auto.
Qed.

Lemma triple_bind {S A B} (P : S → Prop) (R : A → S → Prop)
    (Q : B → S → Prop) (m : M S A) (f : A → M S B) :
  triple P m R → (∀ a, triple (R a) (f a) Q) → triple P (m ≫= f) Q.
Proof.
  intros Hm Hf s HP. apply returns_bind.
  eapply returns_mono; [|apply Hm, HP]. intros a s' HR. apply Hf, HR.
Qed.

Lemma triple_ret {S A} (P : S → Prop) (a : A) (Q : A → S → Prop) :
  (∀ s, P s → Q a s) → triple P (mret a) Q.
Proof. intros HQ s HP. apply HQ, HP. Qed.

Lemma triple_weaken {S A} (P P' : S → Prop) (Q Q' : A → S → Prop)
    (m : M S A) :
  (∀ s, P' s → P s) → (∀ a s, Q a s → Q' a s) →
  triple P m Q → triple P' m Q'.
Proof.
  intros HP HQ Hm s Hs. eapply returns_mono; [apply HQ|]. apply Hm, HP, Hs.
Qed.

Lemma triple_dassert {S} (P : S → Prop) (cond : bool) (msg : string) :
  triple (λ s, cond = true → P s) (dassert cond msg) (λ _, P).
Proof.
  intros s HP. unfold dassert. destruct cond; [|exact I]. apply HP.
  reflexivity.
Qed.

Lemma same_matcher_refl (st : rpc_engine) : same_matcher st st.
Proof. split; reflexivity. Qed.

Lemma same_matcher_trans (st1 st2 st3 : rpc_engine) :
  same_matcher st1 st2 → same_matcher st2 st3 → same_matcher st1 st3.
Proof.
  intros [Hr1 Hc1] [Hr2 Hc2]. split; [congruence|].
  intros c. rewrite Hc2. apply Hc1.
Qed.

Lemma quiet_ret {A} (a : A) : quiet (mret a).
Proof. intros st. apply same_matcher_refl. Qed.

Lemma quiet_bind {A B} (m : M rpc_engine A) (f : A → M rpc_engine B) :
  quiet m → (∀ a, quiet (f a)) → quiet (m ≫= f).
Proof.
  intros Hm Hf st. apply returns_bind.
  eapply returns_mono; [|apply Hm]. intros a st' Hst'. cbn beta in *.
  eapply returns_mono; [|apply Hf]. intros b st'' Hst''. cbn beta in *.
  eapply same_matcher_trans; eassumption.
Qed.

Lemma quiet_gets {A} (f : rpc_engine → A) : quiet (gets f).
Proof. intros st. apply same_matcher_refl. Qed.

Lemma quiet_abort {A} (msg : string) : quiet (abort (A := A) msg).
Proof. intros st. exact I. Qed.

Lemma quiet_fault {A} : quiet (fault (A := A)).
Proof. intros st. exact I. Qed.

Lemma quiet_hang {A} : quiet (hang (A := A)).
Proof. intros st. exact I. Qed.

Lemma quiet_dassert (cond : bool) (msg : string) : quiet (dassert cond msg).
Proof. destruct cond; [apply quiet_ret|apply quiet_abort]. Qed.

Lemma quiet_dbg_dassert (cond : bool) (msg : string) :
  quiet (dbg_dassert cond msg).
Proof.
  unfold dbg_dassert. destruct debug_build;
    [apply quiet_dassert|apply quiet_ret].
Qed.

Lemma quiet_emit (ev : event) :
  (∀ c, is_call_enqueue c ev = false) → quiet (emit ev).
Proof.
  intros Hev st. split; [reflexivity|]. intros c. cbn.
  apply completions_other, Hev.
Qed.

Lemma quiet_get_msg (p : Z) : quiet (get_msg p).
Proof.
  intros st. unfold returns, get_msg.
  destruct (messages st !! p); [apply same_matcher_refl|exact I].
Qed.

Lemma quiet_get_call (c : Z) : quiet (get_call c).
Proof.
  intros st. unfold returns, get_call.
  destruct (calls st !! c); [apply same_matcher_refl|exact I].
Qed.

Lemma quiet_update_msg (p : Z) (f : message_ex → message_ex) :
  quiet (update_msg p f).
Proof.
  intros st. unfold returns, update_msg. munfold.
  destruct (messages st !! p); [|exact I].
  split; [reflexivity|intros c; reflexivity].
Qed.

Lemma quiet_update_call (c : Z) (f : rpc_response_task → rpc_response_task) :
  quiet (update_call c f).
Proof.
  intros st. unfold returns, update_call. munfold.
  destruct (calls st !! c); [|exact I].
  split; [reflexivity|intros c'; reflexivity].
Qed.

Lemma quiet_get_group (a : rpc_address) : quiet (get_group a).
Proof.
  intros st. unfold returns, get_group.
  destruct a; try exact I.
  destruct (groups st !! group); [apply same_matcher_refl|exact I].
Qed.

Lemma quiet_update_group (g : Z) (f : group_address → group_address) :
  quiet (update_group g f).
Proof. intros st. split; [reflexivity|intros c'; reflexivity]. Qed.

Lemma quiet_dsn_now_ms : quiet dsn_now_ms.
Proof. apply quiet_gets. Qed.

Lemma quiet_new_id : quiet new_id.
Proof. intros st. split; [reflexivity|intros c'; reflexivity]. Qed.

Lemma quiet_alloc_handle : quiet alloc_handle.
Proof. intros st. split; [reflexivity|intros c'; reflexivity]. Qed.

Lemma quiet_client_net (format channel : Z) (msg : string) :
  quiet (client_net format channel msg).
Proof.
  intros st. unfold returns, client_net.
  destruct (_client_nets st !! (format, channel));
    [apply same_matcher_refl|exact I].
Qed.

(** Deciding [quiet] for code built from the primitives. *)
Ltac quiet_step :=
  first
    [ apply quiet_ret
    | apply quiet_bind; [|intros ?]
    | apply quiet_gets
    | apply quiet_abort
    | apply quiet_fault
    | apply quiet_hang
    | apply quiet_dassert
    | apply quiet_dbg_dassert
    | apply quiet_emit; intros ?; reflexivity
    | apply quiet_get_msg
    | apply quiet_get_call
    | apply quiet_update_msg
    | apply quiet_update_call
    | apply quiet_get_group
    | apply quiet_update_group
    | apply quiet_dsn_now_ms
    | apply quiet_new_id
    | apply quiet_alloc_handle
    | apply quiet_client_net
    | match goal with
      | |- quiet (match ?x with _ => _ end) => destruct x
      | |- quiet (let '(_, _) := ?x in _) => destruct x
      end ].

Ltac quiet_auto := repeat quiet_step.

Lemma quiet_call_set_delay (c ms : Z) : quiet (call_set_delay c ms).
Proof. unfold call_set_delay. quiet_auto. Qed.

Lemma quiet_add_ref_release_ref (m : message_ex) :
  quiet (add_ref_release_ref m).
Proof. unfold add_ref_release_ref. quiet_auto. Qed.

Lemma quiet_pick_out_of_sending_queue (req : Z) :
  quiet (pick_out_of_sending_queue req).
Proof. unfold pick_out_of_sending_queue. quiet_auto. Qed.

Lemma quiet_server_address_side_effect (m : message_ex) (sp : task_spec)
    (guard : bool) (new_leader : rpc_address) :
  quiet (server_address_side_effect m sp guard new_leader).
Proof. unfold server_address_side_effect. quiet_auto. Qed.

Lemma quiet_call_ip_no_call (addr : rpc_address) (req : Z)
    (reset fwd : bool) :
  quiet (call_ip addr req None reset fwd).
Proof.
  unfold call_ip. quiet_auto;
    first [apply quiet_pick_out_of_sending_queue
          |apply quiet_add_ref_release_ref].
Qed.

(** ** How [consistent] moves with the table and the history *)

Lemma consistent_same_matcher (o : list Z) (st st' : rpc_engine) :
  same_matcher st st' → consistent o st → consistent o st'.
Proof.
  intros [Hr Hc] [H1 H2 H3 H4 H5 H6].
  split; unfold entries_distinct, not_pending in *; rewrite ?Hr;
    try setoid_rewrite Hr; try setoid_rewrite Hc; assumption.
Qed.

Lemma consistent_perm (o o' : list Z) (st : rpc_engine) :
  o ≡ₚ o' → consistent o st → consistent o' st.
Proof.
  intros Hperm [H1 H2 H3 H4 H5 H6]. split; try assumption.
  - intros c Hc. apply H4. rewrite Hperm. exact Hc.
  - intros c Hc. apply H5. rewrite Hperm. exact Hc.
  - rewrite <- Hperm. exact H6.
Qed.

Lemma consistent_weaken (c : Z) (o : list Z) (st : rpc_engine) :
  consistent (c :: o) st → consistent o st.
Proof.
  intros [H1 H2 H3 H4 H5 H6]. split; try assumption.
  - intros c' Hc'. apply H4. right. exact Hc'.
  - intros c' Hc'. apply H5. right. exact Hc'.
  - apply list.NoDup_cons in H6. apply H6.
Qed.

Lemma erased_entry (R : Z → gmap Z match_entry) (b key b' k' : Z)
    (e' : match_entry) :
  (<[b := delete key (R b)]> R) b' !! k' = Some e' →
  R b' !! k' = Some e' ∧ ¬ (b' = b ∧ k' = key).
Proof.
  rewrite lookup_erased. case_decide; [discriminate|]. auto.
Qed.

Lemma consistent_take (o : list Z) (st : rpc_engine) (b key : Z)
    (e : match_entry) :
  consistent o st → _requests st b !! key = Some e →
  consistent (resp_task e :: o)
    (set_requests (<[b := delete key (_requests st b)]> (_requests st)) st).
Proof.
  intros [H1 H2 H3 H4 H5 H6] He.
  split; unfold entries_distinct, not_pending in *; cbn [_requests trace
    set_requests].
  - intros b' k' e' [He' _]%erased_entry. eapply H1, He'.
  - intros b1 k1 e1 b2 k2 e2 [He1 _]%erased_entry [He2 _]%erased_entry.
    eapply H2; eassumption.
  - exact H3.
  - intros c [->|Hc]%elem_of_cons; [eapply H1, He|apply H4, Hc].
  - intros c [->|Hc]%elem_of_cons b' k' e' [He' Hne]%erased_entry.
    + intros Heq. apply Hne. eapply H2; eassumption.
    + eapply H5; eassumption.
  - apply list.NoDup_cons. split; [|exact H6].
    intros Hin. eapply H5; [exact Hin|exact He|reflexivity].
Qed.

Lemma consistent_enqueue (c : Z) (o : list Z) (st : rpc_engine)
    (err : error_code) (reply : option message_ex) (d : Z) :
  consistent (c :: o) st →
  consistent o (set_trace (trace st ++ [EvCallEnqueue c err reply d]) st).
Proof.
  intros [H1 H2 H3 H4 H5 H6].
  assert (Hcount : ∀ c',
    completions (trace st ++ [EvCallEnqueue c err reply d]) c'
    = (completions (trace st) c' + (if decide (c = c') then 1 else 0))%nat).
  { intros c'. rewrite completions_app, completions_cons, completions_nil.
    cbn [is_call_enqueue]. case_decide.
    - rewrite bool_decide_eq_true_2 by assumption. lia.
    - rewrite bool_decide_eq_false_2 by assumption. lia. }
  apply list.NoDup_cons in H6 as [Hfresh Hnodup].
  split; unfold entries_distinct, not_pending in *; cbn [_requests trace
    set_trace].
  - intros b k e He. rewrite Hcount. rewrite decide_False.
    + rewrite (H1 _ _ _ He). reflexivity.
    + intros ->. eapply H5; [left|exact He|reflexivity].
  - exact H2.
  - intros c'. rewrite Hcount. case_decide as Hc.
    + subst c'. rewrite (H4 c) by left. lia.
    + specialize (H3 c'). lia.
  - intros c' Hc'. rewrite Hcount. rewrite decide_False.
    + rewrite (H4 c') by (right; exact Hc'). reflexivity.
    + intros ->. contradiction.
  - intros c' Hc'. apply H5. right. exact Hc'.
  - exact Hnodup.
Qed.

Lemma inserted_entry (R : Z → gmap Z match_entry) (b key b' k' : Z)
    (e e' : match_entry) :
  (<[b := <[key := e]> (R b)]> R) b' !! k' = Some e' →
  (b' = b ∧ k' = key ∧ e' = e) ∨ R b' !! k' = Some e'.
Proof.
  rewrite lookup_inserted. case_decide as Hd.
  - intros [= <-]. left. tauto.
  - auto.
Qed.

Lemma consistent_insert (o : list Z) (st : rpc_engine) (b key : Z)
    (e : match_entry) :
  consistent (resp_task e :: o) st →
  consistent o
    (set_requests (<[b := <[key := e]> (_requests st b)]> (_requests st)) st).
Proof.
  intros [H1 H2 H3 H4 H5 H6].
  apply list.NoDup_cons in H6 as [Hfresh Hnodup].
  split; unfold entries_distinct, not_pending in *; cbn [_requests trace
    set_requests].
  - intros b' k' e' [(-> & -> & ->)|He']%inserted_entry.
    + apply H4. left.
    + eapply H1, He'.
  - intros b1 k1 e1 b2 k2 e2
      [(-> & -> & ->)|He1]%inserted_entry
      [(-> & -> & ->)|He2]%inserted_entry Heq.
    + auto.
    + exfalso. eapply H5; [left|exact He2|]. congruence.
    + exfalso. eapply H5; [left|exact He1|]. congruence.
    + eapply H2; eassumption.
  - exact H3.
  - intros c Hc. apply H4. right. exact Hc.
  - intros c Hc b' k' e' [(-> & -> & ->)|He']%inserted_entry.
    + intros <-. contradiction.
    + eapply H5; [right; exact Hc|exact He'].
  - exact Hnodup.
Qed.

Lemma retimed_entry (R : Z → gmap Z match_entry) (b key b' k' nt : Z)
    (e e' : match_entry) :
  R b !! key = Some e →
  (<[b := <[key := entry_set_timeout_task nt e]> (R b)]> R) b' !! k'
  = Some e' →
  ∃ e0, R b' !! k' = Some e0 ∧ resp_task e0 = resp_task e'.
Proof.
  intros He [(-> & -> & ->)|He']%inserted_entry; eauto.
Qed.

Lemma consistent_retime (o : list Z) (st : rpc_engine) (b key nt : Z)
    (e : match_entry) :
  consistent o st → _requests st b !! key = Some e →
  consistent o
    (set_requests
       (<[b := <[key := entry_set_timeout_task nt e]> (_requests st b)]>
          (_requests st)) st).
Proof.
  intros [H1 H2 H3 H4 H5 H6] He.
  split; unfold entries_distinct, not_pending in *; cbn [_requests trace
    set_requests]; try assumption.
  - intros b' k' e' (e0 & He0 & <-)%(retimed_entry _ _ _ _ _ _ _ _ He).
    eapply H1, He0.
  - intros b1 k1 e1 b2 k2 e2
      (e01 & He01 & <-)%(retimed_entry _ _ _ _ _ _ _ _ He)
      (e02 & He02 & <-)%(retimed_entry _ _ _ _ _ _ _ _ He).
    eapply H2; eassumption.
  - intros c Hc b' k' e' (e0 & He0 & <-)%(retimed_entry _ _ _ _ _ _ _ _ He).
    eapply H5; eassumption.
Qed.

(** ** Each block of the matcher keeps the table and the history consistent *)

Lemma returns_ok {S A} (m : M S A) (s s' : S) (a : A) (Q : A → S → Prop) :
  returns m s Q → m s = Ok (a, s') → Q a s'.
Proof. unfold returns. intros HQ Hm. rewrite Hm in HQ. exact HQ. Qed.

Lemma triple_quiet {A} (o : list Z) (m : M rpc_engine A) :
  quiet m → triple (consistent o) m (λ _, consistent o).
Proof.
  intros Hq st Hc. eapply returns_mono; [|apply Hq].
  intros a st' Hsame. exact (consistent_same_matcher o st st' Hsame Hc).
Qed.

Ltac quiet_more :=
  repeat first
    [ apply quiet_call_set_delay
    | apply quiet_add_ref_release_ref
    | apply quiet_pick_out_of_sending_queue
    | apply quiet_server_address_side_effect
    | apply quiet_call_ip_no_call
    | quiet_step ].

Ltac tq :=
  eapply triple_bind; [apply triple_quiet; quiet_more|intros ?].

Lemma triple_call_enqueue (c : Z) (o : list Z) (err : error_code)
    (reply : option message_ex) :
  triple (consistent (c :: o)) (call_enqueue c err reply)
    (λ _, consistent o).
Proof.
  intros st Hc. unfold returns, call_enqueue. munfold.
  destruct (calls st !! c); [|exact I].
  apply consistent_enqueue, Hc.
Qed.

Lemma triple_on_call (req c : Z) (o : list Z) :
  triple (consistent (c :: o)) (on_call req c) (λ _, consistent o).
Proof.
  intros st Hc. unfold returns, on_call. munfold.
  destruct (messages st !! req) as [m|]; [|exact I].
  set (b := id (header m) `mod` MATCHER_BUCKET_NR).
  assert (Hgoal : ∀ d ts,
    _requests st b !! id (header m) = None →
    consistent o
      (set_trace
         (trace st ++ [EvTimerEnqueue (next_handle st) (id (header m)) d])
         (set_requests
            (<[b := <[id (header m) :=
                        {| resp_task := c; timeout_task := next_handle st;
                           timeout_ts_ms := ts |}]> (_requests st b)]>
               (_requests st))
            (set_next_handle (next_handle st + 1) st)))).
  { intros d ts Hfree.
    eapply consistent_same_matcher;
      [|apply (consistent_insert o (set_next_handle (next_handle st + 1) st)
                 b (id (header m))
                 {| resp_task := c; timeout_task := next_handle st;
                    timeout_ts_ms := ts |})].
    - split; [reflexivity|]. intros c'. cbn [trace set_trace set_requests].
      apply completions_other. reflexivity.
    - eapply consistent_same_matcher; [|exact Hc].
      split; [reflexivity|intros c'; reflexivity]. }
  destruct (bool_decide _ && bool_decide _); munfold;
    (destruct (calls st !! c); [|exact I]);
    (destruct (_requests st b !! id (header m)); [exact I|]);
    apply Hgoal; reflexivity.
Qed.

Lemma triple_call_ip (addr : rpc_address) (req c : Z) (reset fwd : bool)
    (o : list Z) :
  triple (consistent (c :: o)) (call_ip addr req (Some c) reset fwd)
    (λ _, consistent o).
Proof.
  unfold call_ip. do 13 tq.
  destruct (negb _).
  - tq. tq. eapply triple_bind; [apply triple_call_enqueue|intros ?].
    apply triple_ret. auto.
  - eapply triple_bind; [apply triple_on_call|intros ?].
    apply triple_quiet. quiet_more.
Qed.

Lemma triple_on_recv_reply_take (key : Z) (o : list Z) :
  triple (consistent o) (on_recv_reply_take key)
    (λ found st', match found with
                  | Some e => consistent (resp_task e :: o) st'
                  | None => consistent o st'
                  end).
Proof.
  intros st Hc. unfold returns, on_recv_reply_take.
  destruct (_requests st _ !! key) as [e|] eqn:He; [|exact Hc].
  apply consistent_take; assumption.
Qed.

Lemma triple_on_recv_reply_found (cur : option Z) (net : Z)
    (reply : option message_ex) (delay_ms : Z) (e : match_entry)
    (o : list Z) :
  triple (consistent (resp_task e :: o))
    (on_recv_reply_found cur net reply delay_ms e) (λ _, consistent o).
Proof.
  unfold on_recv_reply_found. do 3 tq.
  destruct reply as [r|].
  - destruct (bool_decide (error r = ERR_FORWARD_TO_OTHERS)).
    + tq. tq. eapply triple_bind; [apply triple_call_ip|intros ?].
      apply triple_quiet. quiet_more.
    + tq. tq. eapply triple_bind; [apply triple_call_enqueue|intros ?].
      apply triple_quiet. quiet_more.
  - tq. tq. eapply triple_bind; [apply triple_call_enqueue|intros ?].
    apply triple_ret. auto.
Qed.

Lemma triple_on_recv_reply (cur : option Z) (net key : Z)
    (reply : option message_ex) (delay_ms : Z) (o : list Z) :
  triple (consistent o) (on_recv_reply cur net key reply delay_ms)
    (λ _, consistent o).
Proof.
  unfold on_recv_reply.
  eapply triple_bind; [apply triple_on_recv_reply_take|intros [e|]].
  - apply triple_on_recv_reply_found.
  - apply triple_quiet. quiet_more.
Qed.

Lemma triple_on_rpc_timeout_find (key : Z) (o : list Z) :
  triple (consistent o) (on_rpc_timeout_find key)
    (λ found st', match found with
                  | Some (call, _, false) => consistent (call :: o) st'
                  | _ => consistent o st'
                  end).
Proof.
  intros st Hc. unfold returns, on_rpc_timeout_find.
  destruct (_requests st _ !! key) as [e|] eqn:He; [|exact Hc].
  destruct (bool_decide (timeout_ts_ms e = 0)); [|exact Hc].
  apply consistent_take; assumption.
Qed.

Lemma quiet_on_rpc_timeout_prepare (call ts : Z) :
  quiet (on_rpc_timeout_prepare call ts).
Proof. unfold on_rpc_timeout_prepare. quiet_auto. Qed.

Lemma triple_on_rpc_timeout_recheck (key : Z) (resend : bool)
    (nt : option Z) (o : list Z) :
  triple (consistent o) (on_rpc_timeout_recheck key resend nt)
    (λ _, consistent o).
Proof.
  intros st Hc. unfold returns, on_rpc_timeout_recheck.
  destruct (_requests st _ !! key) as [e|] eqn:He; [|exact Hc].
  destruct resend; cbn [negb].
  - destruct nt as [nt|]; [|exact I].
    apply consistent_retime; assumption.
  - eapply consistent_weaken, consistent_take; eassumption.
Qed.

Lemma quiet_on_rpc_timeout_resend (key call ts now : Z) (nt : option Z) :
  quiet (on_rpc_timeout_resend key call ts now nt).
Proof.
  unfold on_rpc_timeout_resend. quiet_more.
Qed.

(** The whole of [on_rpc_timeout], run without interruption. *)
Lemma triple_on_rpc_timeout (key : Z) (o : list Z) :
  triple (consistent o) (on_rpc_timeout key) (λ _, consistent o).
Proof.
  unfold on_rpc_timeout.
  eapply triple_bind; [apply triple_on_rpc_timeout_find|].
  intros [[[call ts] [|]]|].
  - eapply triple_bind;
      [apply triple_quiet, quiet_on_rpc_timeout_prepare|].
    intros [[now resend] nt].
    eapply triple_bind; [apply triple_on_rpc_timeout_recheck|].
    intros [|]; [|apply triple_ret; auto].
    apply triple_quiet, quiet_on_rpc_timeout_resend.
  - eapply triple_bind; [apply triple_call_enqueue|intros ?].
    apply triple_ret. auto.
  - apply triple_ret. auto.
Qed.

(** ** Every step of the race keeps the system consistent *)

Lemma owners_middle (pre post : list handler) (hd : handler) :
  omap owner (pre ++ hd :: post)
  ≡ₚ omap owner [hd] ++ omap owner (pre ++ post).
Proof.
  rewrite !omap_app. cbn [omap list_omap].
  destruct (owner hd) as [c|]; cbn [app].
  - symmetry. apply Permutation_middle.
  - reflexivity.
Qed.

Lemma step_consistent (sys sys' : system) :
  step sys sys' → sys_consistent sys → sys_consistent sys'.
Proof.
  unfold sys_consistent.
  destruct 1 as
    [cur net key reply delay_ms e st st' pool Hrun
    |cur net key reply delay_ms r st st' pool Htake Hrun
    |cur net reply delay_ms e r st st' pre post Hrun
    |key call ts resend st st' pool Hrun
    |key st st' pool Hrun
    |key call ts accepted st st' pre post Hrun
    |key call ts now resend nt st st' pre post Hrun
    |key call ts now resend nt resend' st st' pre post Hrun
    |key call ts now nt st st' pre post Hrun
    |addr req call st st' pool Hnew Hidle Hfree Hrun
    |st st' pool Hreq Htrace];
    cbn [fst snd]; intros Hc.
  - apply (returns_ok _ _ _ _ _ (triple_on_recv_reply_take key _ st Hc) Hrun).
  - apply (returns_ok _ _ _ _ _
             (triple_on_recv_reply cur net key reply delay_ms _ st Hc) Hrun).
  - apply (consistent_perm _ _ _ (owners_middle pre post _)) in Hc.
    apply (returns_ok _ _ _ _ _
             (triple_on_recv_reply_found cur net reply delay_ms e _ st Hc)
             Hrun).
  - pose proof (returns_ok _ _ _ _ _
                  (triple_on_rpc_timeout_find key _ st Hc) Hrun) as Hc'.
    cbn beta iota in Hc'. destruct resend; exact Hc'.
  - apply (returns_ok _ _ _ _ _
             (triple_on_rpc_timeout_find key _ st Hc) Hrun).
  - apply (consistent_perm _ _ _ (owners_middle pre post _)) in Hc.
    apply (returns_ok _ _ _ _ _
             (triple_call_enqueue call _ ERR_TIMEOUT None st Hc) Hrun).
  - apply (consistent_perm _ _ _ (owners_middle pre post _)) in Hc.
    eapply consistent_perm; [symmetry; apply owners_middle|].
    apply (returns_ok _ _ _ _ _
             (triple_quiet _ _ (quiet_on_rpc_timeout_prepare call ts) st Hc)
             Hrun).
  - apply (consistent_perm _ _ _ (owners_middle pre post _)) in Hc.
    cbn [omap list_omap owner app] in Hc.
    assert (Hpool : omap owner
                      (pre ++ (if resend'
                               then [timeout_rechecked key call ts now nt]
                               else []) ++ post)
                    = omap owner (pre ++ post)).
    { destruct resend'; rewrite !omap_app; reflexivity. }
    rewrite Hpool.
    apply (returns_ok _ _ _ _ _
             (triple_on_rpc_timeout_recheck key resend nt _ st Hc) Hrun).
  - apply (consistent_perm _ _ _ (owners_middle pre post _)) in Hc.
    apply (returns_ok _ _ _ _ _
             (triple_quiet _ _
                (quiet_on_rpc_timeout_resend key call ts now nt) st Hc)
             Hrun).
  - assert (Hc' : consistent (call :: omap owner pool) st).
    { destruct Hc as [H1 H2 H3 H4 H5 H6]. split; try assumption.
      - intros c [->|Hin]%elem_of_cons; [exact Hnew|apply H4, Hin].
      - intros c [->|Hin]%elem_of_cons; [exact Hidle|apply H5, Hin].
      - apply list.NoDup_cons. split; assumption. }
    apply (returns_ok _ _ _ _ _
             (triple_call_ip addr req call false false _ st Hc') Hrun).
  - eapply consistent_same_matcher; [|exact Hc].
    split; [exact Hreq|]. intros c. rewrite Htrace. reflexivity.
Qed.

Lemma steps_consistent (sys sys' : system) :
  rtc step sys sys' → sys_consistent sys → sys_consistent sys'.
Proof.
  induction 1 as [|sys1 sys2 sys3 Hstep _ IH]; [auto|].
  intros Hc. apply IH. eapply step_consistent; eassumption.
Qed.

(** ** on_rpc_timeout never writes a deadline *)

Lemma triple_quiet_deadlines {A} (R0 : Z → gmap Z match_entry)
    (m : M rpc_engine A) :
  quiet m → triple (deadlines_from R0) m (λ _, deadlines_from R0).
Proof.
  intros Hq st Hd. eapply returns_mono; [|apply Hq].
  intros a st' [Hr _]. unfold deadlines_from. rewrite Hr. exact Hd.
Qed.

Lemma triple_call_enqueue_deadlines (R0 : Z → gmap Z match_entry) (c : Z)
    (err : error_code) (reply : option message_ex) :
  triple (deadlines_from R0) (call_enqueue c err reply)
    (λ _, deadlines_from R0).
Proof.
  intros st Hd. unfold returns, call_enqueue. munfold.
  destruct (calls st !! c); [exact Hd|exact I].
Qed.

Lemma on_rpc_timeout_keeps_deadlines (key : Z) (st st' : rpc_engine) :
  on_rpc_timeout key st = Ok (tt, st') →
  deadlines_from (_requests st) st'.
Proof.
  intros Hrun.
  assert (Htriple : triple (deadlines_from (_requests st))
                      (on_rpc_timeout key)
                      (λ _, deadlines_from (_requests st))).
  { unfold on_rpc_timeout. eapply triple_bind.
    - instantiate (1 := λ _, deadlines_from (_requests st)).
      intros s Hd. unfold returns, on_rpc_timeout_find.
      destruct (_requests s _ !! key) as [e|]; [|exact Hd].
      destruct (bool_decide _); [|exact Hd].
      intros b k e' [He' _]%erased_entry. apply Hd, He'.
    - intros [[[call ts] [|]]|].
      + eapply triple_bind;
          [apply triple_quiet_deadlines, quiet_on_rpc_timeout_prepare|].
        intros [[now resend] nt].
        eapply triple_bind.
        * instantiate (1 := λ _, deadlines_from (_requests st)).
          intros s Hd. unfold returns, on_rpc_timeout_recheck.
          destruct (_requests s _ !! key) as [e|] eqn:He; [|exact Hd].
          destruct resend; cbn [negb].
          -- destruct nt as [nt|]; [|exact I].
             intros b k e' [(-> & -> & ->)|He']%inserted_entry.
             ++ destruct (Hd _ _ _ He) as (e0 & He0 & Hts). eauto.
             ++ apply Hd, He'.
          -- intros b k e' [He' _]%erased_entry. apply Hd, He'.
        * intros [|]; [|apply triple_ret; auto].
          apply triple_quiet_deadlines, quiet_on_rpc_timeout_resend.
      + eapply triple_bind;
          [apply triple_call_enqueue_deadlines|intros ?].
        apply triple_ret. auto.
      + apply triple_ret. auto. }
  apply (returns_ok _ _ _ _ _ (Htriple st ltac:(intros b k e' He'; eauto))
           Hrun).
Qed.

(** ** The dispatcher: what its calls do, and its invariant *)

Lemma set_vhandler_ok (c : Z) (v : option handler_entry)
    (handlers : gmap string handler_entry) (d d' : rpc_server_dispatcher) :
  set_vhandler c v handlers d = Ok (tt, d') →
  0 <= c < Z.of_nat (length (_vhandlers d)) ∧
  d' = {| _handlers := handlers;
          _vhandlers := <[Z.to_nat c := v]> (_vhandlers d) |}.
Proof.
  unfold set_vhandler. case_bool_decide; [|discriminate].
  intros [= <-]. split; [assumption|reflexivity].
Qed.

(** What a registration that returns has done. *)
Lemma register_rpc_handler_ok (c : Z) (name : string) (handler : option Z)
    (d d1 : rpc_server_dispatcher) (r : bool) :
  register_rpc_handler c name handler d = Ok (r, d1) →
  let ctx := {| code := c; extra_name := name; h := handler |} in
  r = true ∧
  _handlers d !! task_code_to_string c = None ∧
  _handlers d !! name = None ∧
  0 <= c < Z.of_nat (length (_vhandlers d)) ∧
  d1 = {| _handlers := <[name := ctx]>
                         (<[task_code_to_string c := ctx]> (_handlers d));
          _vhandlers := <[Z.to_nat c := Some ctx]> (_vhandlers d) |}.
Proof.
  unfold register_rpc_handler. munfold.
  destruct (_handlers d !! task_code_to_string c) eqn:Hcode; [discriminate|].
  destruct (_handlers d !! name) eqn:Hname; [discriminate|].
  cbn [extra_name].
  destruct (set_vhandler c _ _ d) as [[[] d1']| | |] eqn:Hset;
    try discriminate.
  intros [= <- <-]. apply set_vhandler_ok in Hset as [Hrange ->].
  auto.
Qed.

Lemma unregister_rpc_handler_ok (c : Z) (d d1 : rpc_server_dispatcher)
    (r : bool) :
  unregister_rpc_handler c d = Ok (r, d1) →
  match _handlers d !! task_code_to_string c with
  | None => r = false ∧ d1 = d
  | Some ctx =>
      r = true ∧
      0 <= c < Z.of_nat (length (_vhandlers d)) ∧
      d1 = {| _handlers := delete (extra_name ctx)
                             (delete (task_code_to_string c) (_handlers d));
              _vhandlers := <[Z.to_nat c := None]> (_vhandlers d) |}
  end.
Proof.
  unfold unregister_rpc_handler. munfold.
  destruct (_handlers d !! task_code_to_string c) as [ctx|].
  - destruct (set_vhandler c _ _ d) as [[[] d1']| | |] eqn:Hset;
      try discriminate.
    intros [= <- <-]. apply set_vhandler_ok in Hset as [Hrange ->]. auto.
  - intros [= <- <-]. auto.
Qed.

(** ** The name index and the code slots stay consistent *)

Lemma dispatcher_new_consistent (task_code_max : Z) :
  dispatcher_consistent (rpc_server_dispatcher_new task_code_max).
Proof.
  split; cbn [_handlers _vhandlers rpc_server_dispatcher_new].
  1-4: intros n e He; rewrite lookup_empty in He; discriminate.
  intros i e [[=] _]%lookup_replicate.
Qed.

Lemma register_consistent (c : Z) (name : string) (handler : option Z)
    (d d1 : rpc_server_dispatcher) (r : bool) :
  Inj (=) (=) task_code_to_string →
  plain_name c name →
  dispatcher_consistent d →
  register_rpc_handler c name handler d = Ok (r, d1) →
  dispatcher_consistent d1.
Proof.
  intros Hinj Hplain [I1 I2 I3 I4 I5] Hreg.
  apply register_rpc_handler_ok in Hreg as (_ & Hcode & Hname & Hrange & ->).
  set (ctx := {| code := c; extra_name := name; h := handler |}).
  assert (Hlook : ∀ n e,
    <[name := ctx]> (<[task_code_to_string c := ctx]> (_handlers d)) !! n
    = Some e ↔
    (e = ctx ∧ (n = name ∨ n = task_code_to_string c))
    ∨ (_handlers d !! n = Some e ∧ n ≠ name ∧ n ≠ task_code_to_string c)).
  { intros n e. rewrite !lookup_insert_Some. split.
    - intros [[<- <-]|[Hn [[<- <-]|[Hn' He]]]]; [tauto|tauto|].
      right. repeat split; congruence.
    - intros [[-> [->| ->]]|(He & Hn1 & Hn2)].
      + tauto.
      + destruct (decide (name = task_code_to_string c)); [tauto|].
        right. split; [assumption|]. tauto.
      + right. split; [congruence|]. right. split; [congruence|assumption]. }
  assert (Hold : ∀ n e, _handlers d !! n = Some e →
                        n ≠ name ∧ n ≠ task_code_to_string c).
  { intros n e He. split; intros ->; congruence. }
  split; cbn [_handlers _vhandlers].
  - intros n e [[-> Hn]|(He & _)]%Hlook.
    + cbn [code extra_name ctx]. tauto.
    + eapply I1, He.
  - intros n e [[-> Hn]|(He & _)]%Hlook.
    + cbn [code extra_name ctx]. split; apply Hlook; tauto.
    + destruct (I2 _ _ He) as [H1 H2].
      split; apply Hlook; right; (split; [assumption|]); eapply Hold;
        eassumption.
  - intros n e [[-> Hn]|(He & _)]%Hlook.
    + cbn [code ctx]. split; [lia|].
      apply list_lookup_insert_eq. lia.
    + destruct (I3 _ _ He) as [Hpos Hslot]. split; [assumption|].
      destruct (I2 _ _ He) as [H1 _].
      rewrite list_lookup_insert_ne; [assumption|].
      intros Heq. assert (c = code e) by lia. subst c. congruence.
  - intros n e [[-> Hn]|(He & _)]%Hlook.
    + exact Hplain.
    + eapply I4, He.
  - intros i e [(Hi & [= <-] & _)|[Hi He]]%list_lookup_insert_Some.
    + cbn [code ctx]. split; [lia|]. apply Hlook. tauto.
    + destruct (I5 _ _ He) as [Hc He']. split; [assumption|].
      apply Hlook. right. split; [assumption|]. eapply Hold, He'.
Qed.

Lemma unregister_consistent (c : Z) (d d1 : rpc_server_dispatcher)
    (r : bool) :
  Inj (=) (=) task_code_to_string →
  dispatcher_consistent d →
  unregister_rpc_handler c d = Ok (r, d1) →
  dispatcher_consistent d1.
Proof.
  intros Hinj Hd Hun. pose proof Hd as [I1 I2 I3 I4 I5].
  apply unregister_rpc_handler_ok in Hun.
  destruct (_handlers d !! task_code_to_string c) as [ctx|] eqn:Hctx;
    [|destruct Hun as [_ ->]; exact Hd].
  destruct Hun as (_ & Hrange & ->).
  assert (Hcode : code ctx = c).
  { destruct (I1 _ _ Hctx) as [Heq|Heq].
    - symmetry. apply Hinj, Heq.
    - symmetry. apply (I4 _ _ Hctx), eq_sym, Heq. }
  assert (Hlook : ∀ n e,
    delete (extra_name ctx) (delete (task_code_to_string c) (_handlers d))
    !! n = Some e ↔
    _handlers d !! n = Some e ∧ n ≠ extra_name ctx
    ∧ n ≠ task_code_to_string c).
  { intros n e. rewrite !lookup_delete_Some. split.
    - intros (? & ? & ?). repeat split; congruence.
    - intros (? & ? & ?). repeat split; congruence. }
  assert (Hother : ∀ n e, _handlers d !! n = Some e →
                          n ≠ extra_name ctx → n ≠ task_code_to_string c →
                          e ≠ ctx ∧ code e ≠ c).
  { intros n e He Hn1 Hn2.
    assert (e ≠ ctx).
    { intros ->. destruct (I1 _ _ He) as [Heq|Heq]; congruence. }
    split; [assumption|]. intros Hce.
    destruct (I2 _ _ He) as [H1 _]. rewrite Hce in H1. congruence. }
  assert (Hkeep : ∀ n e, _handlers d !! n = Some e →
                         n ≠ extra_name ctx → n ≠ task_code_to_string c →
                         task_code_to_string (code e) ≠ extra_name ctx ∧
                         task_code_to_string (code e) ≠ task_code_to_string c
                         ∧ extra_name e ≠ extra_name ctx
                         ∧ extra_name e ≠ task_code_to_string c).
  { intros n e He Hn1 Hn2.
    destruct (Hother _ _ He Hn1 Hn2) as [Hne Hcne].
    destruct (I2 _ _ He) as [H1 H2].
    destruct (I2 _ _ Hctx) as [_ H2'].
    repeat split.
    - intros Heq. apply Hcne. rewrite <- Hcode.
      apply (I4 _ _ Hctx). symmetry. exact Heq.
    - intros Heq. apply Hcne, Hinj, Heq.
    - intros Heq. rewrite Heq in H2. congruence.
    - intros Heq. apply Hcne. symmetry. apply (I4 _ _ He), Heq. }
  split; cbn [_handlers _vhandlers].
  - intros n e (He & _)%Hlook. eapply I1, He.
  - intros n e (He & Hn1 & Hn2)%Hlook.
    destruct (I2 _ _ He) as [H1 H2].
    destruct (Hkeep _ _ He Hn1 Hn2) as (K1 & K2 & K3 & K4).
    split; apply Hlook; auto.
  - intros n e (He & Hn1 & Hn2)%Hlook.
    destruct (I3 _ _ He) as [Hpos Hslot]. split; [assumption|].
    destruct (Hother _ _ He Hn1 Hn2) as [_ Hcne].
    rewrite list_lookup_insert_ne; [assumption|]. lia.
  - intros n e (He & _)%Hlook. eapply I4, He.
  - intros i e [(_ & [=] & _)|[Hi He]]%list_lookup_insert_Some.
    destruct (I5 _ _ He) as [Hc He']. split; [assumption|].
    apply Hlook. split; [assumption|].
    assert (Hcne : code e ≠ c) by lia.
    destruct (I2 _ _ Hctx) as [_ H2'].
    split.
    + intros Heq. apply Hcne. rewrite <- Hcode.
      apply (I4 _ _ Hctx). symmetry. exact Heq.
    + intros Heq. apply Hcne, Hinj, Heq.
Qed.

Lemma run_dispatcher_calls_consistent (ops : list dispatcher_call)
    (d d' : rpc_server_dispatcher) :
  Inj (=) (=) task_code_to_string →
  Forall plain_call ops →
  dispatcher_consistent d →
  run_dispatcher_calls ops d = Ok (tt, d') →
  dispatcher_consistent d'.
Proof.
  intros Hinj Hplain. revert d.
  induction Hplain as [|op ops Hop _ IH]; intros d Hd Hrun.
  - cbn in Hrun. injection Hrun as <-. exact Hd.
  - cbn [run_dispatcher_calls] in Hrun. rewrite bind_run in Hrun.
    destruct (run_dispatcher_call op d) as [[r d1]| | |] eqn:Hop1;
      try discriminate.
    apply (IH d1); [|exact Hrun].
    destruct op as [c name handler|c]; cbn in Hop1, Hop.
    + eapply register_consistent; eassumption.
    + eapply unregister_consistent; eassumption.
Qed.

(** ** reply over a session *)

(** Over a session and not forwarded: the history of [reply]. *)
Lemma reply_over_session_exact (cur : option Z) (response : message_ex)
    (err : error_code) (st : rpc_engine) (s : Z) :
  io_session response = Some s →
  is_forwarded (header response) = false →
  let stamped := stamp_error err response in
  let hooked := bool_decide (local_rpc_code response ≠ TASK_CODE_INVALID) in
  let no_fail :=
    negb (hooked && bool_decide (is_Some cur))
    || on_rpc_reply (task_spec_get (local_rpc_code response)) stamped in
  reply cur response err st
  = Ok (tt,
        set_trace
          (trace st
             ++ match cur with
                | Some t => if hooked then [EvOnRpcReply t stamped] else []
                | None => []
                end
             ++ (if no_fail then [EvSessionSend s stamped]
                 else EvInjectDrop (session_net s) stamped true
                        :: (if bool_decide (ref_count response = 0)
                            then [EvDeleteMessage stamped] else [])))
          st).
Proof.
  intros Hs Hfwd stamped hooked no_fail. subst hooked no_fail.
  assert (Hcodes :
    bool_decide (local_rpc_code response ≠ TASK_CODE_INVALID)
    = negb (bool_decide (local_rpc_code response = TASK_CODE_INVALID))).
  { destruct (decide (local_rpc_code response = TASK_CODE_INVALID)).
    - rewrite bool_decide_eq_false_2 by tauto.
      rewrite bool_decide_eq_true_2 by assumption. reflexivity.
    - rewrite bool_decide_eq_true_2 by assumption.
      rewrite bool_decide_eq_false_2 by assumption. reflexivity. }
  rewrite Hcodes. unfold reply, add_ref_release_ref. rewrite Hs.
  rewrite (bool_decide_eq_false_2 (Some s = None)) by discriminate.
  cbn [andb]. fold stamped.
  change (is_forwarded (header stamped))
    with (is_forwarded (header response)).
  change (local_rpc_code stamped) with (local_rpc_code response).
  change (ref_count stamped) with (ref_count response).
  rewrite Hfwd. cbn [negb].
  destruct (bool_decide (local_rpc_code response = TASK_CODE_INVALID));
    (destruct cur as [t|];
     [rewrite (bool_decide_eq_true_2 (is_Some (Some t))) by eauto
     |rewrite (bool_decide_eq_false_2 (is_Some None))
        by (apply is_Some_None)]);
    cbn [andb negb orb]; munfold;
    try destruct (on_rpc_reply _ stamped); munfold;
    try destruct (bool_decide (ref_count response = 0)); munfold;
    rewrite <- ?(assoc_L (++)), ?app_nil_r; reflexivity.
Qed.

(** ** call_ip with a call, refused by the join point *)

Lemma call_ip_refused (addr : rpc_address) (req c : Z) (reset fwd : bool)
    (m : message_ex) (t : rpc_response_task) (net : Z) (st : rpc_engine) :
  call_ip_ready addr req m net st →
  let m' := call_ip_message addr reset fwd (next_request_id st) m in
  on_rpc_call (task_spec_get (local_rpc_code m)) m' = false →
  calls st !! c = Some t →
  call_ip addr req (Some c) reset fwd st
  = Ok (tt,
        set_trace
          (trace st ++ [EvOnRpcCall m' (Some c); EvInjectDrop net m' true;
                        EvCallEnqueue c ERR_TIMEOUT None
                          (client_timeout_ms (header m))])
          (set_calls
             (<[c := task_set_delay (client_timeout_ms (header m)) t]>
                (calls st))
             (set_messages (<[req := m']> (messages st))
                (if reset
                 then set_next_request_id (next_request_id st + 1) st
                 else st)))).
Proof.
  intros Hready m' Hhook Hc. subst m'. unfold call_ip_message in *.
  destruct reset, fwd, (is_forwarded (header m)) eqn:Hfwd;
    call_ip_prefix Hready; msg_fields_in Hhook; cbn [andb]; mgo;
    rewrite ?Hfwd in *;
    rewrite ?is_forwarded_unset_true, ?is_forwarded_unset_false in *; mgo;
    rewrite Hhook; mgo; rewrite Hc; mgo;
    rewrite ?insert_insert_eq, <- ?(assoc_L (++));
    reflexivity.
Qed.

(** ** on_call: deadline and first timer *)

(** C3.  [on_call(request, call)] on an id that is not in flight stores an
    entry for the call and schedules the timeout timer.  With a resend
    threshold R > 0 and timeout_ms > R the entry's deadline is
    now + timeout_ms and the timer fires after R milliseconds; otherwise
    the deadline is 0 and the timer fires after timeout_ms milliseconds. *)
Theorem on_call_deadline_and_timer (req call : Z) (m : message_ex)
    (t : rpc_response_task) (st : rpc_engine) :
  let key := id (header m) in
  let timeout_ms := client_timeout_ms (header m) in
  let R := rpc_request_resend_timeout_milliseconds
             (task_spec_get (local_rpc_code m)) in
  messages st !! req = Some m →
  calls st !! call = Some t →
  _requests st (key `mod` MATCHER_BUCKET_NR) !! key = None →
  0 <= clock st → clock st + timeout_ms < 2 ^ 64 →
  ∃ st' e,
    on_call req call st = Ok (tt, st') ∧
    _requests st' (key `mod` MATCHER_BUCKET_NR) !! key = Some e ∧
    resp_task e = call ∧
    if bool_decide (R > 0 ∧ timeout_ms > R)
    then timeout_ts_ms e = clock st + timeout_ms ∧
         trace st' = trace st ++ [EvTimerEnqueue (timeout_task e) key R]
    else timeout_ts_ms e = 0 ∧
         trace st' =
           trace st ++ [EvTimerEnqueue (timeout_task e) key timeout_ms].
Proof.
  intros key timeout_ms R Hm Hc Hfree Hclock Hsum.
  unfold on_call. munfold. rewrite Hm. fold key timeout_ms R.
  destruct (bool_decide (R > 0 ∧ timeout_ms > R)) eqn:Hres.
  - apply bool_decide_eq_true in Hres as [HR Ht].
    rewrite (bool_decide_eq_true_2 _ HR), (bool_decide_eq_true_2 _ Ht).
    munfold. rewrite Hc, Hfree.
    eexists _, _. split; [reflexivity|]. munfold.
    rewrite fn_lookup_insert, lookup_insert_eq.
    repeat split. cbn. apply wrap_u64_small. lia.
  - apply bool_decide_eq_false in Hres.
    assert (Hcond : bool_decide (R > 0) && bool_decide (timeout_ms > R)
                    = false).
    { apply andb_false_iff.
      destruct (decide (R > 0)); [right|left];
        apply bool_decide_eq_false; tauto. }
    rewrite Hcond. munfold. rewrite Hc, Hfree.
    eexists _, _. split; [reflexivity|]. munfold.
    rewrite fn_lookup_insert, lookup_insert_eq.
    repeat split.
Qed.


(** ** Server dispatcher: register, unregister, register *)

(** C9 (amended).  A registration of [c] under [name] that succeeded has
    filed the entry under the name of the code and under the extra name
    and in the slot of the code; unregistering [c] then returns true,
    leaves neither alias in the name index, which is the index from before
    the registration, and empties the code slot; a second registration of
    the same code and extra name returns true again and files the new
    entry in the same three places.  In a dispatcher built from a new one
    by calls that returned, where codes have distinct names and no extra
    name is the name of another code, unregistering a code whose slot
    holds no entry returns false and changes nothing. *)
Theorem register_unregister_register (c : Z) (name : string)
    (h1 h2 : option Z) (d d1 : rpc_server_dispatcher) :
  let ctx1 := {| code := c; extra_name := name; h := h1 |} in
  let ctx2 := {| code := c; extra_name := name; h := h2 |} in
  (register_rpc_handler c name h1 d = Ok (true, d1) →
   (_handlers d1 !! task_code_to_string c = Some ctx1 ∧
    _handlers d1 !! name = Some ctx1 ∧
    _vhandlers d1 !! Z.to_nat c = Some (Some ctx1)) ∧
   ∃ d2 d3,
     unregister_rpc_handler c d1 = Ok (true, d2) ∧
     _handlers d2 !! task_code_to_string c = None ∧
     _handlers d2 !! name = None ∧
     _handlers d2 = _handlers d ∧
     _vhandlers d2 !! Z.to_nat c = Some None ∧
     register_rpc_handler c name h2 d2 = Ok (true, d3) ∧
     _handlers d3 !! task_code_to_string c = Some ctx2 ∧
     _handlers d3 !! name = Some ctx2 ∧
     _vhandlers d3 !! Z.to_nat c = Some (Some ctx2)) ∧
  (∀ task_code_max ops d' c',
     Inj (=) (=) task_code_to_string →
     Forall plain_call ops →
     run_dispatcher_calls ops (rpc_server_dispatcher_new task_code_max)
     = Ok (tt, d') →
     (∀ e, _vhandlers d' !! Z.to_nat c' ≠ Some (Some e)) →
     unregister_rpc_handler c' d' = Ok (false, d')).
Proof.
  intros ctx1 ctx2. split.
  - intros Hreg.
    apply register_rpc_handler_ok in Hreg
      as (_ & Hcode & Hname & Hrange & ->).
    fold ctx1.
    assert (Hboth : ∀ ctx : handler_entry,
      <[name := ctx]> (<[task_code_to_string c := ctx]> (_handlers d))
      !! task_code_to_string c = Some ctx).
    { intros ctx. destruct (decide (name = task_code_to_string c)) as [->|Hne].
      - apply lookup_insert_eq.
      - rewrite lookup_insert_ne by assumption. apply lookup_insert_eq. }
    assert (Hback :
      delete name
        (delete (task_code_to_string c)
           (<[name := ctx1]>
              (<[task_code_to_string c := ctx1]> (_handlers d))))
      = _handlers d).
    { apply map_eq. intros n.
      destruct (decide (n = name)) as [->|Hn1].
      - rewrite lookup_delete_eq. symmetry. exact Hname.
      - rewrite lookup_delete_ne by congruence.
        destruct (decide (n = task_code_to_string c)) as [->|Hn2].
        + rewrite lookup_delete_eq. symmetry. exact Hcode.
        + rewrite lookup_delete_ne by congruence.
          rewrite !lookup_insert_ne by congruence. reflexivity. }
    cbn [_handlers _vhandlers]. split.
    { split; [apply Hboth|]. split; [apply lookup_insert_eq|].
      apply list_lookup_insert_eq. lia. }
    eexists _, _. split.
    { unfold unregister_rpc_handler. munfold. cbn [_handlers].
      rewrite Hboth. unfold set_vhandler. cbn [_vhandlers extra_name ctx1].
      rewrite length_insert, bool_decide_eq_true_2 by assumption.
      fold ctx1. rewrite Hback. reflexivity. }
    cbn [_handlers _vhandlers].
    split; [exact Hcode|]. split; [exact Hname|]. split; [reflexivity|].
    rewrite list_insert_insert_eq.
    split; [apply list_lookup_insert_eq; lia|].
    split.
    { unfold register_rpc_handler. munfold. cbn [_handlers].
      rewrite Hcode, Hname. unfold set_vhandler. cbn [_vhandlers].
      rewrite length_insert, bool_decide_eq_true_2 by assumption.
      reflexivity. }
    cbn [_handlers _vhandlers extra_name]. fold ctx2.
    split; [apply Hboth|]. split; [apply lookup_insert_eq|].
    rewrite list_insert_insert_eq. apply list_lookup_insert_eq. lia.
  - intros task_code_max ops d' c' Hinj Hplain Hrun Hslot.
    pose proof (run_dispatcher_calls_consistent ops _ d' Hinj Hplain
                  (dispatcher_new_consistent task_code_max) Hrun)
      as [I1 I2 I3 I4 I5].
    unfold unregister_rpc_handler. munfold.
    destruct (_handlers d' !! task_code_to_string c') as [e|] eqn:He;
      [|reflexivity].
    exfalso.
    assert (Hce : code e = c').
    { destruct (I1 _ _ He) as [Heq|Heq].
      - symmetry. apply Hinj, Heq.
      - symmetry. apply (I4 _ _ He), eq_sym, Heq. }
    destruct (I3 _ _ He) as [_ Hfiled]. rewrite Hce in Hfiled.
    exact (Hslot e Hfiled).
Qed.


(** ** reply *)

(** Over a session and not forwarded, [reply] returns: the stamped response
    is sent on the session, or handed to the drop injection when the hook
    denies. *)
Lemma reply_over_session (cur : option Z) (response : message_ex)
    (err : error_code) (st : rpc_engine) (s : Z) :
  io_session response = Some s →
  is_forwarded (header response) = false →
  let stamped := stamp_error err response in
  let hooked := bool_decide (local_rpc_code response ≠ TASK_CODE_INVALID)
                && bool_decide (is_Some cur) in
  let no_fail :=
    negb hooked
    || on_rpc_reply (task_spec_get (local_rpc_code response)) stamped in
  ∃ st', reply cur response err st = Ok (tt, st') ∧
    (no_fail = true → EvSessionSend s stamped ∈ trace st') ∧
    (no_fail = false →
     EvInjectDrop (session_net s) stamped true ∈ trace st').
Proof.
  intros Hs Hfwd stamped hooked no_fail. unfold reply. rewrite Hs.
  rewrite (bool_decide_eq_false_2 (Some s = None)) by discriminate.
  cbn [andb]. fold stamped.
  change (is_forwarded (header stamped))
    with (is_forwarded (header response)).
  change (local_rpc_code stamped) with (local_rpc_code response).
  rewrite Hfwd. subst hooked no_fail.
  unfold add_ref_release_ref. munfold.
  destruct (bool_decide (local_rpc_code response = TASK_CODE_INVALID))
    eqn:Hcode.
  - rewrite (bool_decide_eq_false_2
               (local_rpc_code response ≠ TASK_CODE_INVALID))
      by (apply bool_decide_eq_true in Hcode; tauto).
    munfold. eexists. split; [reflexivity|]. munfold.
    split; [intros _|discriminate]. set_solver.
  - rewrite (bool_decide_eq_true_2
               (local_rpc_code response ≠ TASK_CODE_INVALID))
      by (apply bool_decide_eq_false in Hcode; tauto).
    destruct cur as [t|].
    + rewrite (bool_decide_eq_true_2 (is_Some (Some t))) by eauto.
      munfold.
      destruct (on_rpc_reply _ stamped); munfold.
      * eexists. split; [reflexivity|]. munfold.
        split; [intros _|discriminate]. set_solver.
      * destruct (bool_decide (ref_count stamped = 0));
          (eexists; split; [reflexivity|]); munfold;
          (split; [discriminate|intros _]); set_solver.
    + rewrite (bool_decide_eq_false_2 (is_Some None))
        by (apply is_Some_None).
      munfold. eexists. split; [reflexivity|]. munfold.
      split; [intros _|discriminate]. set_solver.
Qed.

(** C6 (amended).  [reply(response, err)] on a response with an invalid
    target (no session, invalid to_address) only releases it: nothing is
    stamped, hooked or sent.  On a valid target every message the engine
    hands on (to the hook, a session, a network, the drop injection) is the
    response stamped with [err] in server.error_code and server.error_name;
    the on_rpc_reply hook sees it exactly when the response code is not
    TASK_CODE_INVALID and there is a current task; over a session and not
    forwarded, reply returns, and sends on that session unless the hook
    denies. *)
Theorem reply_stamps_valid_target (cur : option Z) (response : message_ex)
    (err : error_code) (st : rpc_engine) :
  let stamped := stamp_error err response in
  let hooked := bool_decide (local_rpc_code response ≠ TASK_CODE_INVALID)
                && bool_decide (is_Some cur) in
  let no_fail :=
    negb hooked
    || on_rpc_reply (task_spec_get (local_rpc_code response)) stamped in
  (server_error_code (header stamped) = err ∧
   server_error_name (header stamped)
   = strncpy error_name_size (error_code_to_string err)) ∧
  (io_session response = None → is_invalid (to_address response) = true →
   reply cur response err st = add_ref_release_ref response st) ∧
  (¬ (io_session response = None ∧ is_invalid (to_address response) = true) →
   ∀ st', reply cur response err st = Ok (tt, st') →
     ∃ evs, trace st' = trace st ++ evs ∧
       Forall (λ ev, event_message ev = Some stamped) evs ∧
       ∀ t, EvOnRpcReply t stamped ∈ evs ↔ cur = Some t ∧ hooked = true) ∧
  (∀ s, io_session response = Some s →
        is_forwarded (header response) = false →
     ∃ st', reply cur response err st = Ok (tt, st') ∧
       (no_fail = true → EvSessionSend s stamped ∈ trace st') ∧
       (no_fail = false →
        EvInjectDrop (session_net s) stamped true ∈ trace st')).
Proof.
  intros stamped hooked no_fail. split; [split; reflexivity|]. split; [|split].
  - intros Hs Hinv. unfold reply. rewrite Hs, Hinv. reflexivity.
  - intros Hvalid st' Hrun. unfold reply in Hrun.
    assert (Htarget : bool_decide (io_session response = None)
                      && is_invalid (to_address response) = false).
    { apply not_true_is_false. intros [H1 H2]%andb_true_iff.
      apply bool_decide_eq_true in H1. tauto. }
    rewrite Htarget in Hrun. fold stamped in Hrun.
    subst hooked no_fail.
    unfold dbg_dassert, add_ref_release_ref in Hrun. munfold in Hrun.
    change (local_rpc_code stamped) with (local_rpc_code response) in Hrun.
    repeat case_match; simplify_eq; cbn [trace set_trace];
      rewrite <- ?(assoc_L (++));
      (eexists; split; [reflexivity|]); cbn [app];
      (split; [repeat constructor|]).
    all: repeat match goal with
                | H : bool_decide _ = false |- _ =>
                    apply bool_decide_eq_false in H
                | H : bool_decide _ = true |- _ =>
                    apply bool_decide_eq_true in H
                end.
    all: intros t'; rewrite ?elem_of_cons, ?elem_of_nil, andb_true_iff,
           !bool_decide_eq_true.
    all: solve [naive_solver eauto using is_Some_None].
  - intros s Hs Hfwd. apply reply_over_session; assumption.
Qed.


(** ** call *)

(** C7 (amended).  [call(request, call)] sets the request header's
    from_address to the engine's primary address, sets trace_id to a draw
    of [next_u64] from the whole range 0 .. 2^64 - 1 (zero included), and
    then dispatches on the server address with [call_address]. *)
Theorem call_stamps_then_dispatches (req : Z) (c : option Z) (m : message_ex)
    (st : rpc_engine) :
  messages st !! req = Some m →
  let r := rand_source (rand_pos st) `mod` 2 ^ 64 in
  let m' := msg_set_header (hdr_set_trace_id r)
              (msg_set_header
                 (hdr_set_from_address (_local_primary_address st)) m) in
  let st1 := set_messages (<[req := m']> (messages st))
               (set_rand_pos (S (rand_pos st)) st) in
  0 <= r < 2 ^ 64 ∧
  from_address (header m') = _local_primary_address st ∧
  trace_id (header m') = r ∧
  server_address m' = server_address m ∧
  call req c st = call_address (server_address m) req c st1.
Proof.
  intros Hm r m' st1. split; [apply Z.mod_pos_bound; lia|].
  repeat (split; [reflexivity|]).
  unfold call. munfold. rewrite Hm. munfold.
  rewrite lookup_insert_eq. munfold. rewrite lookup_insert_eq.
  rewrite insert_insert_eq.
  replace (0 + rand_source (rand_pos st) `mod` (2 ^ 64 - 1 - 0 + 1)) with r
    by (subst r; f_equal).
  reflexivity.
Qed.


(** ** on_recv_reply on a request that is not addressed to a group *)

(** C10.  When [on_recv_reply] finds the entry and the reply is a
    FORWARD_TO_OTHERS redirect or carries is_forwarded, a request whose
    server_address is not a Group ends in a fatal assertion and the call is
    not completed: the run never returns.  The assertion is the
    "not implemented" one; only a debug build that sees a redirect to the
    request's own to_address stops one assertion earlier. *)
Theorem on_recv_reply_non_group_fatal (cur : option Z) (net key : Z)
    (r : message_ex) (delay_ms : Z) (e : match_entry)
    (t : rpc_response_task) (m : message_ex) (st : rpc_engine) :
  _requests st (key `mod` MATCHER_BUCKET_NR) !! key = Some e →
  calls st !! resp_task e = Some t →
  messages st !! request t = Some m →
  error r = ERR_FORWARD_TO_OTHERS ∨ is_forwarded (header r) = true →
  addr_type (server_address m) ≠ HOST_TYPE_GROUP →
  (∃ msg, on_recv_reply cur net key (Some r) delay_ms st = Abort msg) ∧
  (¬ (debug_build = true ∧ error r = ERR_FORWARD_TO_OTHERS
      ∧ unmarshall r = to_address m) →
   on_recv_reply cur net key (Some r) delay_ms st = Abort "not implemented").
Proof.
  intros He Ht Hm Hshape Htype.
  unfold on_recv_reply, on_recv_reply_take. munfold. rewrite He.
  unfold on_recv_reply_found, server_address_side_effect, dbg_dassert.
  destruct (bool_decide (Some (timeout_task e) ≠ cur)); mgo;
    rewrite Ht; mgo; rewrite Hm; mgo.
  all: destruct (bool_decide (error r = ERR_FORWARD_TO_OTHERS)) eqn:Herr.
  all: try (destruct Hshape as [Hshape|Hshape];
            [apply bool_decide_eq_false in Herr; contradiction|];
            rewrite Hshape).
  all: destruct (addr_type (server_address m)); try contradiction.
  all: try (split; [eexists|intros _]; reflexivity).
  all: apply bool_decide_eq_true in Herr.
  all: destruct debug_build; mgo;
    try (split; [eexists|intros _]; reflexivity).
  all: destruct (bool_decide (unmarshall r ≠ to_address m)) eqn:Hself; mgo;
    try (split; [eexists|intros _]; reflexivity).
  all: apply bool_decide_eq_false in Hself.
  all: split; [eexists; reflexivity|].
  all: intros Hnot; exfalso; apply Hnot; repeat split; try assumption.
  all: destruct (decide (unmarshall r = to_address m)); tauto.
Qed.


(** ** on_recv_reply on a FORWARD_TO_OTHERS redirect *)

(** C4 (amended).  When [on_recv_reply] finds the entry, the reply's error
    is FORWARD_TO_OTHERS and the request's server_address is a Group, the
    engine takes the new address from the reply body, makes it the group's
    leader when the code's mode is GRPC_TO_LEADER and the group updates its
    leader automatically, re-issues the same request to the new address
    through [call_ip] under a fresh request id and with the same pending
    call, and deletes the reply.  When the join point on_rpc_call accepts
    the request, and the fresh id is neither the old id nor in flight, the
    pending call is filed in a new matcher entry under the fresh id, the
    request is sent and the call is not completed.  When the join point
    refuses it, nothing is sent, no entry is filed and the call is
    completed with ERR_TIMEOUT.  (The other hypotheses are the assertions
    of [on_recv_reply] and [call_ip].) *)
Theorem on_recv_reply_forward_to_others (cur : option Z) (net key : Z)
    (r : message_ex) (delay_ms : Z) (e : match_entry)
    (t : rpc_response_task) (m : message_ex) (g : Z) (grp : group_address)
    (net' : Z) (st : rpc_engine) :
  let call := resp_task e in
  let req := request t in
  let addr := unmarshall r in
  let new_id := next_request_id st in
  let sp := task_spec_get (local_rpc_code m) in
  let m' := msg_set_header (hdr_set_id new_id) (msg_set_to_address addr m) in
  let b := key `mod` MATCHER_BUCKET_NR in
  let b' := new_id `mod` MATCHER_BUCKET_NR in
  let e' := {| resp_task := call; timeout_task := next_handle st;
               timeout_ts_ms := (on_call_timer m' (clock st)).2 |} in
  let cancel := if bool_decide (Some (timeout_task e) ≠ cur)
                then [EvTaskCancel (timeout_task e)] else [] in
  _requests st b !! key = Some e →
  calls st !! call = Some t →
  error r = ERR_FORWARD_TO_OTHERS →
  ref_count r = 0 →
  server_address m = addr_group g →
  groups st !! g = Some grp →
  (debug_build = true → addr ≠ to_address m) →
  call_ip_ready addr req m net' st →
  (on_rpc_call sp m' = true →
   new_id ≠ key ∧ _requests st b' !! new_id = None) →
  ∃ st',
    on_recv_reply cur net key (Some r) delay_ms st = Ok (true, st') ∧
    messages st' !! req = Some m' ∧
    groups st' !! g
    = Some (if bool_decide (grpc_mode sp = GRPC_TO_LEADER)
               && is_update_leader_automatically grp
            then set_leader addr grp else grp) ∧
    if on_rpc_call sp m' then
      (∀ b0 k, _requests st' b0 !! k
               = if decide (b0 = b' ∧ k = new_id) then Some e'
                 else if decide (b0 = b ∧ k = key) then None
                      else _requests st b0 !! k) ∧
      calls st' !! call = Some t ∧
      trace st'
      = trace st ++ cancel
          ++ [EvOnRpcCall m' (Some call);
              EvTimerEnqueue (next_handle st) new_id
                (on_call_timer m' (clock st)).1;
              EvNetSend net' m'; EvDeleteMessage r] ∧
      completions (trace st') call = completions (trace st) call
    else
      (∀ b0 k, _requests st' b0 !! k
               = if decide (b0 = b ∧ k = key) then None
                 else _requests st b0 !! k) ∧
      calls st' !! call
      = Some (task_set_delay (client_timeout_ms (header m)) t) ∧
      trace st'
      = trace st ++ cancel
          ++ [EvOnRpcCall m' (Some call); EvInjectDrop net' m' true;
              EvCallEnqueue call ERR_TIMEOUT None
                (client_timeout_ms (header m));
              EvDeleteMessage r] ∧
      completions (trace st') call = S (completions (trace st) call).
Proof.
  intros call req addr new_id sp m' b b' e' cancel He Ht Herr Href Hsrv Hgrp
    Hself Hready Hfresh.
  assert (Hm : messages st !! req = Some m) by apply Hready.
  unfold on_recv_reply, on_recv_reply_take. munfold. fold b. rewrite He.
  unfold on_recv_reply_found, server_address_side_effect, dbg_dassert.
  fold call.
  set (R1 := <[b := delete key (_requests st b)]> (_requests st)).
  subst cancel.
  destruct (on_rpc_call sp m') eqn:Hhook.
  - destruct (Hfresh eq_refl) as [Hnew Hfree].
    assert (Hfree1 : R1 b' !! new_id = None).
    { subst R1. rewrite lookup_erased. case_decide; [reflexivity|exact Hfree]. }
    destruct (bool_decide (Some (timeout_task e) ≠ cur)); mgo;
      rewrite Ht; mgo; fold req; rewrite Hm; mgo;
      rewrite (bool_decide_eq_true_2 _ Herr);
      rewrite Hsrv; cbn [addr_type]; fold sp;
      (destruct debug_build;
       [rewrite (bool_decide_eq_true_2 _ (Hself eq_refl))|]); mgo.
    all: destruct (grpc_mode sp) eqn:Hmode; mgo;
      unfold get_group; mgo; rewrite ?Hgrp; mgo;
      destruct (is_update_leader_automatically grp) eqn:Hauto; mgo.
    all: (erewrite call_ip_registered;
          [|eapply call_ip_ready_frame; [| |exact Hready]; reflexivity
           |exact Hhook
           |munfold; exact Ht
           |munfold; msg_fields_in Hfree1; exact Hfree1]).
    all: mgo; rewrite (bool_decide_eq_true_2 _ Href); mgo.
    all: eexists; split; [reflexivity|]; mgo.
    all: fold R1 new_id b'; rewrite ?lookup_alter_eq, ?Hgrp.
    all: cbn [bool_decide decide_rel andb].
    all: split; [reflexivity|].
    all: split;
      [first [reflexivity
             |rewrite bool_decide_eq_false_2 by discriminate; reflexivity
             |rewrite bool_decide_eq_true_2 by reflexivity; reflexivity]|].
    all: split;
      [intros b0 k; rewrite lookup_inserted; subst R1;
       rewrite lookup_erased; reflexivity|].
    all: split; [exact Ht|].
    all: rewrite <- ?(assoc_L (++)); cbn [app].
    all: split; [reflexivity|].
    all: rewrite !completions_app, !completions_cons; cbn; lia.
  - destruct (bool_decide (Some (timeout_task e) ≠ cur)); mgo;
      rewrite Ht; mgo; fold req; rewrite Hm; mgo;
      rewrite (bool_decide_eq_true_2 _ Herr);
      rewrite Hsrv; cbn [addr_type]; fold sp;
      (destruct debug_build;
       [rewrite (bool_decide_eq_true_2 _ (Hself eq_refl))|]); mgo.
    all: destruct (grpc_mode sp) eqn:Hmode; mgo;
      unfold get_group; mgo; rewrite ?Hgrp; mgo;
      destruct (is_update_leader_automatically grp) eqn:Hauto; mgo.
    all: (erewrite call_ip_refused;
          [|eapply call_ip_ready_frame; [| |exact Hready]; reflexivity
           |exact Hhook
           |munfold; exact Ht]).
    all: mgo; rewrite (bool_decide_eq_true_2 _ Href); mgo.
    all: eexists; split; [reflexivity|]; mgo.
    all: fold R1 new_id; rewrite ?lookup_alter_eq, ?Hgrp.
    all: cbn [bool_decide decide_rel andb].
    all: split; [reflexivity|].
    all: split;
      [first [reflexivity
             |rewrite bool_decide_eq_false_2 by discriminate; reflexivity
             |rewrite bool_decide_eq_true_2 by reflexivity; reflexivity]|].
    all: split;
      [intros b0 k; subst R1; rewrite lookup_erased; reflexivity|].
    all: split; [reflexivity|].
    all: rewrite <- ?(assoc_L (++)); cbn [app].
    all: split; [reflexivity|].
    all: rewrite !completions_app, !completions_cons; cbn;
      rewrite ?bool_decide_eq_true_2 by reflexivity; cbn; lia.
Qed.


(** ** forward *)

Lemma reply_effect (cur : option Z) (response : message_ex) (err : error_code)
    (st st' : rpc_engine) :
  reply cur response err st = Ok (tt, st') →
  messages st' = messages st ∧ _requests st' = _requests st ∧
  calls st' = calls st ∧
  ∃ evs, trace st' = trace st ++ evs ∧
    Forall (λ ev, is_outbound_call ev = false ∧
                  (event_message ev = Some response ∨
                   event_message ev = Some (stamp_error err response))) evs.
Proof.
  unfold reply, dbg_dassert, add_ref_release_ref. munfold.
  intros Hrun.
  repeat case_match; simplify_eq; cbn [trace set_trace messages _requests calls];
    rewrite <- ?(assoc_L (++));
    (split; [reflexivity|]); (split; [reflexivity|]);
    (split; [reflexivity|]).
  all: first [eexists; split; [reflexivity|]
             |exists []; split; [symmetry; apply app_nil_r|]].
  all: cbn [app];
    repeat (apply List.Forall_cons;
            [split; [reflexivity
                    |first [left; reflexivity|right; reflexivity]]|]);
    apply List.Forall_nil.
Qed.

(** In a debug build [reply] cannot answer a pure client except on the
    session of a request that was not forwarded: the target of the
    response has no named port. *)
Lemma reply_to_pure_client_fatal (cur : option Z) (response : message_ex)
    (err : error_code) (st : rpc_engine) :
  debug_build = true →
  port (to_address response) <= MAX_CLIENT_PORT →
  (is_Some (io_session response) ∧ is_forwarded (header response) = true)
  ∨ (io_session response = None ∧ is_invalid (to_address response) = false) →
  reply cur response err st
  = Abort "target address must have named port in this case".
Proof.
  intros Hdbg Hport Hcase. unfold reply, dbg_dassert. rewrite Hdbg.
  change (is_forwarded (header (stamp_error err response)))
    with (is_forwarded (header response)).
  change (to_address (stamp_error err response)) with (to_address response).
  rewrite (bool_decide_eq_false_2 (port (to_address response) > _)) by lia.
  destruct Hcase as [[[s Hs] Hfwd]|[Hs Hvalid]]; rewrite Hs.
  - rewrite (bool_decide_eq_false_2 (Some s = None)) by discriminate.
    rewrite Hfwd. cbn [andb negb].
    destruct (bool_decide (local_rpc_code _ = TASK_CODE_INVALID)),
      cur as [c|]; munfold; reflexivity.
  - rewrite Hvalid, andb_false_r.
    destruct (bool_decide (local_rpc_code _ = TASK_CODE_INVALID)),
      cur as [c|]; munfold; reflexivity.
Qed.

(** C8 (amended).  [forward(request, address)], under its three
    assertions.  From a pure client (from_address port <= MAX_CLIENT_PORT)
    it is [reply(resp, ERR_FORWARD_TO_OTHERS)] on the response created from
    the request with [address] as body: no call leaves the engine (every
    new event carries that response, none is a call), and the matcher, the
    calls and the messages are untouched.  A request that came over a
    session and is not itself forwarded gets the response, stamped with
    FORWARD_TO_OTHERS, on that session when the reply hook lets it pass (or
    is not run); when the hook refuses it the response is handed to the
    drop injection and deleted.  A request that was forwarded, or one
    without a session, is not answered in a debug build: the assertion on
    the port of the target stops the process.  Otherwise (port >
    MAX_CLIENT_PORT, and what [call_ip] asserts) the request is copied and
    the copy re-issued through [call_ip] with no pending call (no matcher
    entry appears), with the id of the request and with is_forwarded set:
    it is sent when the call hook accepts it, dropped and deleted when it
    refuses. *)
Theorem forward_fake_or_real (cur : option Z) (req : message_ex)
    (address : rpc_address) (st : rpc_engine) :
  is_request (header req) = true →
  is_forward_supported (header req) = true →
  address ≠ _local_primary_address st →
  let resp := marshall (create_response req) address in
  let stamped := stamp_error ERR_FORWARD_TO_OTHERS resp in
  let hooked := bool_decide (local_rpc_code resp ≠ TASK_CODE_INVALID) in
  let no_fail :=
    negb (hooked && bool_decide (is_Some cur))
    || on_rpc_reply (task_spec_get (local_rpc_code resp)) stamped in
  (port (from_address (header req)) <= MAX_CLIENT_PORT →
   body stamped = Some address ∧
   error stamped = ERR_FORWARD_TO_OTHERS ∧
   (∀ st', forward cur req address st = Ok (tt, st') →
      messages st' = messages st ∧ _requests st' = _requests st ∧
      calls st' = calls st ∧
      ∃ evs, trace st' = trace st ++ evs ∧
        Forall (λ ev, is_outbound_call ev = false ∧
                      (event_message ev = Some resp ∨
                       event_message ev = Some stamped)) evs) ∧
   (∀ s, io_session req = Some s → is_forwarded (header req) = false →
      forward cur req address st
      = Ok (tt,
            set_trace
              (trace st
                 ++ match cur with
                    | Some t =>
                        if hooked then [EvOnRpcReply t stamped] else []
                    | None => []
                    end
                 ++ (if no_fail then [EvSessionSend s stamped]
                     else [EvInjectDrop (session_net s) stamped true;
                           EvDeleteMessage stamped]))
              st)) ∧
   (debug_build = true →
    (is_Some (io_session req) ∧ is_forwarded (header req) = true)
    ∨ (io_session req = None
       ∧ is_invalid (from_address (header req)) = false) →
    forward cur req address st
    = Abort "target address must have named port in this case")) ∧
  (port (from_address (header req)) > MAX_CLIENT_PORT →
   ∀ net,
     0 <= MAX_CLIENT_PORT →
     (debug_build = true →
      addr_type address = HOST_TYPE_IPV4 ∧ port address > MAX_CLIENT_PORT) →
     _client_nets st
       !! (hdr_format req,
           rpc_call_channel (task_spec_get (local_rpc_code req)))
     = Some net →
     ∃ st' copied,
       forward cur req address st = Ok (tt, st') ∧
       messages st' !! next_handle st = Some copied ∧
       id (header copied) = id (header req) ∧
       is_forwarded (header copied) = true ∧
       to_address copied = address ∧
       _requests st' = _requests st ∧ calls st' = calls st ∧
       trace st'
       = trace st
           ++ EvOnRpcCall copied None
              :: (if on_rpc_call (task_spec_get (local_rpc_code req)) copied
                  then [EvNetSend net copied]
                  else [EvInjectDrop net copied true;
                        EvDeleteMessage copied])).
Proof.
  intros Hreq Hsup Hprimary resp stamped hooked no_fail.
  assert (Hprefix : ∀ k : M rpc_engine unit,
    (dassert (is_request (header req)) "only rpc request can be forwarded";;
     dassert (is_forward_supported (header req))
       "rpc msg does not support being forwared";;
     primary ← gets _local_primary_address;
     dassert (bool_decide (address ≠ primary))
       "cannot forward msg to the local node";; k) st = k st).
  { intros k. munfold. rewrite Hreq, Hsup.
    rewrite (bool_decide_eq_true_2 _ Hprimary). reflexivity. }
  split.
  - intros Hport.
    assert (Hfwd : forward cur req address st
                   = reply cur resp ERR_FORWARD_TO_OTHERS st).
    { unfold forward. rewrite Hprefix.
      rewrite (bool_decide_eq_true_2 _ Hport). reflexivity. }
    split; [reflexivity|]. split; [reflexivity|].
    split; [|split].
    + intros st' Hrun. rewrite Hfwd in Hrun.
      apply reply_effect in Hrun as (Hmsg & Hreqs & Hcalls & Hevs). auto.
    + intros s Hs Hnotfwd. rewrite Hfwd.
      rewrite (reply_over_session_exact cur resp ERR_FORWARD_TO_OTHERS st s
                 Hs Hnotfwd).
      reflexivity.
    + intros Hdbg Hcase. rewrite Hfwd.
      apply reply_to_pure_client_fatal; [exact Hdbg|exact Hport|exact Hcase].
  - intros Hport net Hmax Hdbg Hnet.
    unfold forward. rewrite Hprefix.
    rewrite bool_decide_eq_false_2 by lia.
    unfold copy_and_prepare_send. mgo.
    set (copied0 := {| header := header req; to_address := to_address req;
                       server_address := server_address req;
                       local_rpc_code := local_rpc_code req;
                       hdr_format := hdr_format req;
                       io_session := io_session req;
                       send_retry_count := send_retry_count req;
                       dl_alone := true; ref_count := 0; body := body req |}).
    set (st1 := set_messages (<[next_handle st := copied0]> (messages st))
                  (set_next_handle (next_handle st + 1) st)).
    assert (Hready : call_ip_ready address (next_handle st) copied0 net st1).
    { unfold call_ip_ready. split; [exact Hdbg|].
      split; [apply lookup_insert_eq|].
      split; [|split; [reflexivity|exact Hnet]].
      cbn. unfold is_invalid.
      destruct (from_address (header req)); cbn in *;
        first [lia | apply bool_decide_eq_false_2; discriminate]. }
    set (copied := call_ip_message address false true (next_request_id st1)
                     copied0).
    exists (set_trace
              (trace st1 ++ EvOnRpcCall copied None ::
                 (if on_rpc_call (task_spec_get (local_rpc_code copied0)) copied
                  then [EvNetSend net copied]
                  else [EvInjectDrop net copied true;
                        EvDeleteMessage copied]))
              (set_messages (<[next_handle st := copied]> (messages st1))
                 st1)), copied.
    split.
    { destruct (on_rpc_call _ copied) eqn:Hhook.
      - rewrite (call_ip_sent _ _ _ _ _ _ _ Hready Hhook). reflexivity.
      - rewrite (call_ip_dropped _ _ _ _ _ _ _ Hready Hhook).
        assert (Href : ref_count copied = 0).
        { subst copied. unfold call_ip_message. cbn.
          destruct (is_forwarded (header req)); reflexivity. }
        fold copied. rewrite (bool_decide_eq_true_2 _ Href). reflexivity. }
    split; [apply lookup_insert_eq|].
    assert (Hflag : is_forwarded (header copied) = true).
    { subst copied. unfold call_ip_message. cbn.
      destruct (is_forwarded (header req)) eqn:Hf; cbn; [exact Hf|reflexivity]. }
    assert (Hid : id (header copied) = id (header req)).
    { subst copied. unfold call_ip_message. cbn.
      destruct (is_forwarded (header req)); reflexivity. }
    assert (Hto : to_address copied = address).
    { subst copied. unfold call_ip_message. cbn.
      destruct (is_forwarded (header req)); reflexivity. }
    repeat (split; [assumption || reflexivity|]).
    reflexivity.
Qed.


(** ** The URI retry shim *)

Lemma backoff_gap_min (n : Z) :
  0 <= n <= 28 → backoff_gap n = Z.min (Z.shiftl 8 n) 1000.
Proof.
  intros Hn.
  assert (Hk : ∃ k : nat, n = Z.of_nat k ∧ (k <= 28)%nat).
  { exists (Z.to_nat n). lia. }
  destruct Hk as (k & -> & Hk).
  do 29 (destruct k as [|k]; [vm_compute; reflexivity|]). lia.
Qed.

(** Past 28 retries the [int] shift no longer holds 8 * 2^n; in two's
    complement the gap is 0 from then on. *)
Lemma backoff_gap_overflow (n : Z) : 29 <= n → backoff_gap n = 0.
Proof.
  intros Hn. unfold backoff_gap, wrap_i32, wrap_u64.
  rewrite Z.shiftl_mul_pow2 by lia.
  replace (8 * 2 ^ n) with (2 ^ (n - 29) * 2 ^ 32)
    by (replace n with (n - 29 + 29) at 2 by lia;
        rewrite Z.pow_add_r by lia; lia).
  rewrite Z.add_comm, Z_mod_plus_full.
  reflexivity.
Qed.

Lemma retry_trigger_spec (m : message_ex) (err : error_code) :
  retry_trigger m err = true ↔
  gpid (header m) ≠ 0 ∧ err ≠ ERR_OK ∧ err ≠ ERR_HANDLER_NOT_FOUND
  ∧ err ≠ ERR_APP_NOT_EXIST ∧ err ≠ ERR_OPERATION_DISABLED.
Proof.
  unfold retry_trigger. rewrite !andb_true_iff, !bool_decide_eq_true. tauto.
Qed.

(** X27.  The shim [new_callback] of [call_uri], run on a request
    that has been retried at most 28 times (where [8 << send_retry_count]
    fits [int]) and with the clock away from the end of [uint64_t].  Unless
    the error is non-OK, not HANDLER_NOT_FOUND, APP_NOT_EXIST or
    OPERATION_DISABLED and the gpid is non-zero, the shim only passes the
    result on to the original callback; it does the same when the URI has
    no resolver any more.  When it triggers on a URI with a resolver it
    reports the access failure and computes
    gap = min(8 << send_retry_count, 1000); if now + gap < deadline it
    retries: send_retry_count grows by one, client.timeout_ms becomes
    deadline - now - gap, the original callback is restored and the call is
    re-issued after gap ms, and no callback is invoked; otherwise the
    original callback is invoked with ERR_TIMEOUT. *)
Theorem uri_retry_shim (deadline_ms : Z) (old_callback : callback)
    (cur : option Z) (err : error_code) (req : Z) (resp : option message_ex)
    (m : message_ex) (st : rpc_engine) :
  messages st !! req = Some m →
  let shim := cb_uri_retry deadline_ms old_callback in
  let now := clock st in
  let gap := Z.min (Z.shiftl 8 (send_retry_count m)) 1000 in
  let triggered :=
    gpid (header m) ≠ 0 ∧ err ≠ ERR_OK ∧ err ≠ ERR_HANDLER_NOT_FOUND
    ∧ err ≠ ERR_APP_NOT_EXIST ∧ err ≠ ERR_OPERATION_DISABLED in
  (¬ triggered →
   run_callback shim cur err req resp st
   = run_callback old_callback cur err req resp st) ∧
  (∀ u,
     triggered →
     server_address m = addr_uri u → uri_resolvers st !! u = None →
     run_callback shim cur err req resp st
     = run_callback old_callback cur err req resp st) ∧
  (∀ u r,
     triggered →
     server_address m = addr_uri u → uri_resolvers st !! u = Some r →
     0 <= send_retry_count m <= 28 → 0 <= now → now + 1000 < 2 ^ 64 →
     let failure := EvAccessFailure r (gpid_partition_index (gpid (header m)))
                      err in
     (now + gap < deadline_ms →
      ∀ c t,
        cur = Some c → calls st !! c = Some t →
        state t = TASK_STATE_RUNNING →
        deadline_ms - now - gap < 2 ^ 31 →
        ∃ st',
          run_callback shim cur err req resp st = Ok (tt, st') ∧
          messages st' !! req
          = Some (msg_set_header
                    (hdr_set_client_timeout_ms (deadline_ms - now - gap))
                    (msg_set_send_retry_count (send_retry_count m + 1) m)) ∧
          calls st' !! c
          = Some (task_set_state TASK_STATE_READY
                    (task_set_handler old_callback t)) ∧
          trace st'
          = trace st ++ [failure; EvDelayedCall (server_address m) c gap]) ∧
     (¬ now + gap < deadline_ms →
      run_callback shim cur err req resp st
      = run_callback old_callback cur ERR_TIMEOUT req resp
          (set_trace (trace st ++ [failure]) st))).
Proof.
  intros Hm shim now gap triggered. split; [|split].
  - intros Hnot. subst shim. cbn [run_callback]. mgo. rewrite Hm. mgo.
    destruct (retry_trigger m err) eqn:Htrig; [|reflexivity].
    apply retry_trigger_spec in Htrig. contradiction.
  - intros u Htrig Hsrv Hres. apply retry_trigger_spec in Htrig.
    subst shim. cbn [run_callback]. unfold get_resolver.
    mgo. rewrite Hm. mgo. rewrite Htrig, Hsrv. mgo. rewrite Hres.
    reflexivity.
  - intros u r Htrig Hsrv Hres Hcount Hnow Hclock failure.
    apply retry_trigger_spec in Htrig.
    assert (Hgap : backoff_gap (send_retry_count m) = gap)
      by (apply backoff_gap_min; exact Hcount).
    assert (Hgap_range : 0 <= gap <= 1000).
    { subst gap. split; [|apply Z.le_min_r].
      apply Z.min_glb; [|lia]. apply Z.shiftl_nonneg. lia. }
    assert (Hsum : wrap_u64 (now + gap) = now + gap)
      by (apply wrap_u64_small; lia).
    split.
    + intros Htime c t Hcur Hc Hstate Hfit.
      subst shim. cbn [run_callback]. unfold get_resolver, set_retry,
        current_response_task. mgo. rewrite Hm. mgo. rewrite Htrig, Hsrv.
      mgo. rewrite Hres. mgo. rewrite Hgap. fold now. rewrite Hsum.
      rewrite (bool_decide_eq_true_2 _ Htime). mgo. rewrite Hm. mgo.
      rewrite Hcur. mgo. rewrite Hc. mgo. rewrite Hc. mgo.
      rewrite Hstate.
      rewrite (bool_decide_eq_true_2 (TASK_STATE_RUNNING = TASK_STATE_RUNNING))
        by reflexivity.
      mgo. eexists. split; [reflexivity|]. mgo.
      rewrite ?insert_insert_eq, <- ?(assoc_L (++)).
      rewrite wrap_u64_small, wrap_i32_small by lia.
      replace (wrap_u32 (send_retry_count m + 1)) with (send_retry_count m + 1)
        by (unfold wrap_u32; rewrite Z.mod_small; lia).
      repeat split.
    + intros Htime. subst shim. cbn [run_callback]. unfold get_resolver.
      mgo. rewrite Hm. mgo. rewrite Htrig, Hsrv. mgo. rewrite Hres. mgo.
      rewrite Hgap. fold now. rewrite Hsum.
      rewrite (bool_decide_eq_false_2 _ Htime). reflexivity.
Qed.

(** ** Reply and timeout racing on one id *)

(** C1.  Under any interleaving of reply handlers and timeout handlers,
    cut at their critical sections, with user calls and the environment
    running in between, a response task is handed to [call->enqueue] at
    most once, from a table where every task sits in one entry.  The
    handler that does not find the entry discards its work: [on_recv_reply]
    deletes the reply and returns false, [on_rpc_timeout] returns without
    any effect, also when it loses the entry between its two critical
    sections. *)
Theorem completed_at_most_once :
  (∀ st0 sys,
     trace st0 = [] → entries_distinct st0 → rtc step (st0, []) sys →
     ∀ c, (completions (trace sys.1) c <= 1)%nat) ∧
  (∀ cur net key reply delay_ms st,
     _requests st (key `mod` MATCHER_BUCKET_NR) !! key = None →
     (∀ r, reply = Some r → ref_count r = 0) →
     on_recv_reply cur net key reply delay_ms st
     = Ok (false,
           match reply with
           | Some r => set_trace (trace st ++ [EvDeleteMessage r]) st
           | None => st
           end)) ∧
  (∀ key st,
     _requests st (key `mod` MATCHER_BUCKET_NR) !! key = None →
     on_rpc_timeout key st = Ok (tt, st)) ∧
  (∀ key resend nt st,
     _requests st (key `mod` MATCHER_BUCKET_NR) !! key = None →
     on_rpc_timeout_recheck key resend nt st = Ok (false, st)).
Proof.
  split; [|split; [|split]].
  - intros st0 sys Htrace Hdistinct Hsteps.
    assert (Hinit : sys_consistent (st0, [])).
    { unfold sys_consistent. cbn [fst snd omap list_omap].
      split; try rewrite Htrace; try assumption.
      - intros. apply completions_nil.
      - intros c. rewrite completions_nil. lia.
      - intros c Hc. inversion Hc.
      - intros c Hc. inversion Hc.
      - constructor. }
    apply (steps_consistent _ _ Hsteps) in Hinit.
    apply Hinit.
  - intros cur net key reply delay_ms st Habsent Href.
    unfold on_recv_reply, on_recv_reply_take. munfold. rewrite Habsent.
    destruct reply as [r|]; [|reflexivity].
    rewrite (bool_decide_eq_true_2 _ (Href r eq_refl)). reflexivity.
  - intros key st Habsent. unfold on_rpc_timeout, on_rpc_timeout_find.
    munfold. rewrite Habsent. reflexivity.
  - intros key resend nt st Habsent. unfold on_rpc_timeout_recheck.
    rewrite Habsent. reflexivity.
Qed.


(** * Further properties of the client matcher *)


(** A reply that is neither a redirect nor forwarded, for an entry that is
    in the table. *)
Lemma on_recv_reply_plain (cur : option Z) (net key : Z) (r : message_ex)
    (delay_ms : Z) (e : match_entry) (t : rpc_response_task)
    (m : message_ex) (st : rpc_engine) :
  let b := key `mod` MATCHER_BUCKET_NR in
  _requests st b !! key = Some e →
  calls st !! resp_task e = Some t →
  messages st !! request t = Some m →
  error r ≠ ERR_FORWARD_TO_OTHERS →
  is_forwarded (header r) = false →
  on_recv_reply cur net key (Some r) delay_ms st
  = Ok (true,
        set_trace
          (trace st
             ++ (if bool_decide (Some (timeout_task e) ≠ cur)
                 then [EvTaskCancel (timeout_task e)] else [])
             ++ [EvCallEnqueue (resp_task e) (error r) (Some r) delay_ms]
             ++ (if response_enqueue_accepts (resp_task e) (error r)
                 then [] else [EvInjectDrop net r false]))
          (set_calls (<[resp_task e := task_set_delay delay_ms t]> (calls st))
             (set_requests
                (<[b := delete key (_requests st b)]> (_requests st)) st))).
Proof.
  intros b He Ht Hm Herr Hfwd.
  unfold on_recv_reply, on_recv_reply_take. munfold. fold b. rewrite He.
  unfold on_recv_reply_found.
  rewrite (bool_decide_eq_false_2 _ Herr), Hfwd.
  destruct (bool_decide (Some (timeout_task e) ≠ cur)); munfold;
    rewrite Ht; munfold; rewrite Hm; munfold; rewrite Ht; mgo;
    destruct (response_enqueue_accepts (resp_task e) (error r)); mgo;
    rewrite <- ?(assoc_L (++)), ?app_nil_r; reflexivity.
Qed.

(** X1. A call sent by [call_ip] and answered by a reply that is neither a
    redirect nor forwarded: the entry [on_call] filed under the request id
    is found, the timer is cancelled unless it is the running task, the
    call is completed once with the reply's error and the given delay, and
    the table is what it was before the call. *)
Theorem call_then_reply (addr : rpc_address) (req c : Z) (m : message_ex)
    (t : rpc_response_task) (net : Z) (st : rpc_engine) (cur : option Z)
    (rnet : Z) (r : message_ex) (delay_ms : Z) :
  let m' := msg_set_to_address addr m in
  let key := id (header m) in
  let b := key `mod` MATCHER_BUCKET_NR in
  call_ip_ready addr req m net st →
  on_rpc_call (task_spec_get (local_rpc_code m)) m' = true →
  calls st !! c = Some t →
  request t = req →
  _requests st b !! key = None →
  error r ≠ ERR_FORWARD_TO_OTHERS →
  is_forwarded (header r) = false →
  ∃ st1 st2,
    call_ip addr req (Some c) false false st = Ok (tt, st1) ∧
    _requests st1 b !! key
    = Some {| resp_task := c; timeout_task := next_handle st;
              timeout_ts_ms := (on_call_timer m' (clock st)).2 |} ∧
    on_recv_reply cur rnet key (Some r) delay_ms st1 = Ok (true, st2) ∧
    (∀ b', _requests st2 b' = _requests st b') ∧
    trace st2
    = trace st1
        ++ (if bool_decide (Some (next_handle st) ≠ cur)
            then [EvTaskCancel (next_handle st)] else [])
        ++ [EvCallEnqueue c (error r) (Some r) delay_ms]
        ++ (if response_enqueue_accepts c (error r) then []
            else [EvInjectDrop rnet r false]) ∧
    completions (trace st2) c = S (completions (trace st) c).
Proof.
  intros m' key b Hready Hhook Hc Hreq Hfree Herr Hfwd.
  pose proof (call_ip_registered addr req c false false m t net st Hready)
    as Hcall.
  cbn zeta in Hcall. unfold call_ip_message in Hcall. cbn [andb] in Hcall.
  fold m' in Hcall. change (id (header m')) with key in Hcall.
  fold b in Hcall. specialize (Hcall Hhook Hc Hfree).
  set (e := {| resp_task := c; timeout_task := next_handle st;
               timeout_ts_ms := (on_call_timer m' (clock st)).2 |}) in *.
  eexists _, _. split; [exact Hcall|]. split.
  { cbn [_requests set_requests set_trace]. rewrite fn_lookup_insert.
    apply lookup_insert_eq. }
  split.
  { apply (on_recv_reply_plain cur rnet key r delay_ms e t m');
      cbn [_requests calls messages set_requests set_trace set_next_handle
           set_messages resp_task e]; try assumption.
    - fold b. rewrite fn_lookup_insert. apply lookup_insert_eq.
    - rewrite Hreq. apply lookup_insert_eq. }
  cbn [_requests trace set_requests set_trace set_calls resp_task
       timeout_task e].
  split; [|split; [reflexivity|]].
  - intros b'. fold b.
    destruct (decide (b' = b)) as [->|Hb].
    + rewrite !fn_lookup_insert. rewrite delete_insert_eq.
      apply delete_id. exact Hfree.
    + rewrite !fn_lookup_insert_ne by done. reflexivity.
  - rewrite !completions_app, !completions_cons, !completions_nil.
    cbn [is_call_enqueue].
    rewrite (bool_decide_eq_true_2 (c = c)) by reflexivity.
    destruct (bool_decide _), (response_enqueue_accepts _ _);
      rewrite ?completions_cons, ?completions_nil; cbn; lia.
Qed.

(** The timer of an entry without a deadline: the entry is erased and the
    call gets ERR_TIMEOUT. *)
Lemma on_rpc_timeout_expired (key : Z) (e : match_entry)
    (t : rpc_response_task) (st : rpc_engine) :
  let b := key `mod` MATCHER_BUCKET_NR in
  _requests st b !! key = Some e →
  timeout_ts_ms e = 0 →
  calls st !! resp_task e = Some t →
  on_rpc_timeout key st
  = Ok (tt,
        set_trace
          (trace st
             ++ [EvCallEnqueue (resp_task e) ERR_TIMEOUT None
                   (delay_milliseconds t)])
          (set_requests
             (<[b := delete key (_requests st b)]> (_requests st)) st)).
Proof.
  intros b He Hts Ht. unfold on_rpc_timeout, on_rpc_timeout_find. munfold.
  fold b. rewrite He, Hts. rewrite bool_decide_eq_true_2 by reflexivity.
  munfold. rewrite Ht. reflexivity.
Qed.

(** A reply for a key that is not in the table. *)
Lemma on_recv_reply_absent (cur : option Z) (net key : Z) (r : message_ex)
    (delay_ms : Z) (st : rpc_engine) :
  _requests st (key `mod` MATCHER_BUCKET_NR) !! key = None →
  ref_count r = 0 →
  on_recv_reply cur net key (Some r) delay_ms st
  = Ok (false, set_trace (trace st ++ [EvDeleteMessage r]) st).
Proof.
  intros Hnone Href. unfold on_recv_reply, on_recv_reply_take. munfold.
  rewrite Hnone, Href. rewrite bool_decide_eq_true_2 by reflexivity.
  reflexivity.
Qed.

Lemma on_call_timer_no_resend (m : message_ex) (now : Z) :
  ¬ (rpc_request_resend_timeout_milliseconds
       (task_spec_get (local_rpc_code m)) > 0 ∧
     client_timeout_ms (header m)
     > rpc_request_resend_timeout_milliseconds
         (task_spec_get (local_rpc_code m))) →
  on_call_timer m now = (client_timeout_ms (header m), 0).
Proof.
  intros Hno. unfold on_call_timer.
  destruct (bool_decide _ && bool_decide _) eqn:Hb; [|reflexivity].
  apply andb_true_iff in Hb as [H1 H2].
  apply bool_decide_eq_true in H1, H2. tauto.
Qed.

(** X2. A call without a resend deadline whose timer fires before the reply:
    the timer completes the call with ERR_TIMEOUT and erases the entry;
    the reply that arrives afterwards is refused ([false]) and deleted, and
    the call stays completed once. *)
Theorem timeout_then_late_reply (addr : rpc_address) (req c : Z)
    (m : message_ex) (t : rpc_response_task) (net : Z) (st : rpc_engine)
    (now : Z) (cur : option Z) (rnet : Z) (r : message_ex) (delay_ms : Z) :
  let m' := msg_set_to_address addr m in
  let key := id (header m) in
  let b := key `mod` MATCHER_BUCKET_NR in
  let sp := task_spec_get (local_rpc_code m) in
  call_ip_ready addr req m net st →
  on_rpc_call sp m' = true →
  calls st !! c = Some t →
  request t = req →
  _requests st b !! key = None →
  ¬ (rpc_request_resend_timeout_milliseconds sp > 0 ∧
     client_timeout_ms (header m)
     > rpc_request_resend_timeout_milliseconds sp) →
  ref_count r = 0 →
  ∃ st1 st2 st3,
    call_ip addr req (Some c) false false st = Ok (tt, st1) ∧
    trace st1
    = trace st ++ [EvOnRpcCall m' (Some c);
                   EvTimerEnqueue (next_handle st) key
                     (client_timeout_ms (header m));
                   EvNetSend net m'] ∧
    on_rpc_timeout key (set_clock now st1) = Ok (tt, st2) ∧
    trace st2
    = trace st1 ++ [EvCallEnqueue c ERR_TIMEOUT None (delay_milliseconds t)] ∧
    on_recv_reply cur rnet key (Some r) delay_ms st2 = Ok (false, st3) ∧
    trace st3 = trace st2 ++ [EvDeleteMessage r] ∧
    (∀ b', _requests st3 b' = _requests st b') ∧
    completions (trace st3) c = S (completions (trace st) c).
Proof.
  intros m' key b sp Hready Hhook Hc Hreq Hfree Hno Href.
  pose proof (call_ip_registered addr req c false false m t net st Hready)
    as Hcall.
  cbn zeta in Hcall. unfold call_ip_message in Hcall. cbn [andb] in Hcall.
  fold m' in Hcall. change (id (header m')) with key in Hcall.
  fold b in Hcall. specialize (Hcall Hhook Hc Hfree).
  rewrite (on_call_timer_no_resend m' (clock st) Hno) in Hcall.
  cbn [fst snd] in Hcall.
  change (client_timeout_ms (header m')) with (client_timeout_ms (header m))
    in Hcall.
  set (e := {| resp_task := c; timeout_task := next_handle st;
               timeout_ts_ms := 0 |}) in *.
  eexists _, _, _. split; [exact Hcall|]. split; [reflexivity|].
  split.
  { apply (on_rpc_timeout_expired key e t);
      cbn [_requests calls set_requests set_trace set_clock set_next_handle
           set_messages resp_task timeout_ts_ms e]; try reflexivity.
    - fold b. rewrite fn_lookup_insert. apply lookup_insert_eq.
    - exact Hc. }
  split; [reflexivity|]. split.
  { apply on_recv_reply_absent; [|exact Href].
    cbn [_requests set_requests set_trace]. fold b.
    rewrite fn_lookup_insert. apply lookup_delete_eq. }
  split; [reflexivity|].
  cbn [_requests trace set_requests set_trace set_clock resp_task e].
  split.
  - intros b'. fold b.
    destruct (decide (b' = b)) as [->|Hb].
    + rewrite !fn_lookup_insert. rewrite delete_insert_eq.
      apply delete_id. exact Hfree.
    + rewrite !fn_lookup_insert_ne by done. reflexivity.
  - rewrite !completions_app, !completions_cons, !completions_nil.
    cbn [is_call_enqueue].
    rewrite (bool_decide_eq_true_2 (c = c)) by reflexivity. cbn. lia.
Qed.

(** X3. A null reply for an entry of the table completes the call with
    ERR_NETWORK_FAILURE and erases the entry, whatever the type of the
    server address; a group is touched only when the request went to a
    group in GRPC_TO_LEADER mode with automatic leader update, where the
    leader moves on to the next member. *)
Theorem on_recv_reply_network_failure (cur : option Z) (net key delay_ms : Z)
    (e : match_entry) (t : rpc_response_task) (m : message_ex)
    (st : rpc_engine) :
  let b := key `mod` MATCHER_BUCKET_NR in
  let sp := task_spec_get (local_rpc_code m) in
  _requests st b !! key = Some e →
  calls st !! resp_task e = Some t →
  messages st !! request t = Some m →
  (∀ g, server_address m = addr_group g → is_Some (groups st !! g)) →
  ∃ st',
    on_recv_reply cur net key None delay_ms st = Ok (true, st') ∧
    _requests st' b !! key = None ∧
    trace st'
    = trace st
        ++ (if bool_decide (Some (timeout_task e) ≠ cur)
            then [EvTaskCancel (timeout_task e)] else [])
        ++ [EvCallEnqueue (resp_task e) ERR_NETWORK_FAILURE None delay_ms] ∧
    (addr_type (server_address m) ≠ HOST_TYPE_GROUP →
     groups st' = groups st) ∧
    (∀ g grp, server_address m = addr_group g →
       groups st !! g = Some grp →
       groups st' !! g
       = Some (if bool_decide (grpc_mode sp = GRPC_TO_LEADER)
                  && is_update_leader_automatically grp
               then leader_forward grp else grp)).
Proof.
  intros b sp He Ht Hm Hgroup.
  unfold on_recv_reply, on_recv_reply_take. munfold. fold b. rewrite He.
  unfold on_recv_reply_found.
  assert (Herased :
    (<[b := delete key (_requests st b)]> (_requests st)) b !! key = None).
  { rewrite fn_lookup_insert. apply lookup_delete_eq. }
  destruct (server_address m) as [|ip p|u|g] eqn:Hsrv.
  1-3: destruct (bool_decide (Some (timeout_task e) ≠ cur)); munfold;
    rewrite Ht; munfold; rewrite Hm; munfold; rewrite Hsrv;
    cbn [addr_type];
    rewrite (bool_decide_eq_false_2 (_ = HOST_TYPE_GROUP)) by discriminate;
    mgo; rewrite Ht; mgo;
    (eexists; split; [reflexivity|]); cbn [_requests trace groups set_trace
      set_calls set_requests];
    rewrite <- ?(assoc_L (++)), ?app_nil_r;
    (split; [exact Herased|]); (split; [reflexivity|]);
    (split; [reflexivity|]); intros ? ? [=].
  destruct (Hgroup g eq_refl) as [grp Hgrp].
  destruct (bool_decide (Some (timeout_task e) ≠ cur)); munfold;
    rewrite Ht; munfold; rewrite Hm; munfold; rewrite Hsrv;
    cbn [addr_type];
    rewrite (bool_decide_eq_true_2 (HOST_TYPE_GROUP = HOST_TYPE_GROUP))
      by reflexivity;
    fold sp; destruct (grpc_mode sp) eqn:Hmode;
    rewrite ?(bool_decide_eq_true_2 (GRPC_TO_LEADER = GRPC_TO_LEADER))
      by reflexivity;
    rewrite ?(bool_decide_eq_false_2 (_ = GRPC_TO_LEADER)) by discriminate;
    cbn [andb]; unfold get_group; munfold; rewrite ?Hgrp; munfold;
    destruct (is_update_leader_automatically grp) eqn:Hauto; mgo;
    rewrite Ht; mgo;
    (eexists; split; [reflexivity|]); cbn [_requests trace groups set_trace
      set_calls set_requests set_groups];
    rewrite <- ?(assoc_L (++)), ?app_nil_r;
    (split; [exact Herased|]); (split; [reflexivity|]);
    (split; [intros Hty; exfalso; apply Hty; reflexivity|]);
    intros g' grp' [= <-] Hg'; rewrite ?andb_false_r; cbn [andb];
    rewrite ?lookup_alter_eq, Hg' in *; simplify_eq; cbn; rewrite ?Hauto; reflexivity.
Qed.

Lemma on_call_in_flight (req call : Z) (m : message_ex)
    (t : rpc_response_task) (e : match_entry) (st : rpc_engine) :
  messages st !! req = Some m →
  calls st !! call = Some t →
  _requests st (id (header m) `mod` MATCHER_BUCKET_NR) !! id (header m)
  = Some e →
  on_call req call st = Abort "the message is already on the fly!!!".
Proof.
  intros Hm Hc Hthere. unfold on_call. munfold. rewrite Hm.
  destruct (bool_decide _ && bool_decide _); munfold;
    rewrite Hc; munfold; rewrite Hthere; reflexivity.
Qed.

(** X4. [call_ip] with a pending call, for a request the join point
    on_rpc_call accepts and whose id already has an entry in the matcher,
    stops the process: [on_call] asserts that the insertion succeeded.
    (Without a call, or when the join point refuses, [on_call] is not
    reached.) *)
Theorem call_ip_id_in_flight (addr : rpc_address) (req c : Z)
    (fwd : bool) (m : message_ex) (t : rpc_response_task) (e : match_entry)
    (net : Z) (st : rpc_engine) :
  let m' := call_ip_message addr false fwd (next_request_id st) m in
  let key := id (header m) in
  call_ip_ready addr req m net st →
  on_rpc_call (task_spec_get (local_rpc_code m)) m' = true →
  calls st !! c = Some t →
  _requests st (key `mod` MATCHER_BUCKET_NR) !! key = Some e →
  call_ip addr req (Some c) false fwd st
  = Abort "the message is already on the fly!!!".
Proof.
  intros m' key Hready Hhook Hc Hthere. subst m' key.
  unfold call_ip_message in *.
  destruct fwd, (is_forwarded (header m)) eqn:Hfwd;
    call_ip_prefix Hready; msg_fields_in Hhook;
    cbn [andb]; mgo;
    rewrite ?Hfwd in *;
    rewrite ?is_forwarded_unset_true, ?is_forwarded_unset_false in *; mgo;
    rewrite Hhook; mgo;
    (erewrite on_call_in_flight;
     [reflexivity
     |munfold; rewrite ?insert_insert_eq; apply lookup_insert_eq
     |munfold; exact Hc
     |munfold; mgo; exact Hthere]).
Qed.



(** X7. [on_rpc_timeout] changes no entry other than the one of its key;
    [on_recv_reply], for a reply that is not a redirect, leaves the table
    without its key and unchanged elsewhere. *)
Theorem handlers_touch_own_key (key : Z) (st st' : rpc_engine) :
  (on_rpc_timeout key st = Ok (tt, st') →
   ∀ b k, ¬ (b = key `mod` MATCHER_BUCKET_NR ∧ k = key) →
          _requests st' b !! k = _requests st b !! k) ∧
  (∀ cur net reply delay_ms res,
     on_recv_reply cur net key reply delay_ms st = Ok (res, st') →
     (∀ r, reply = Some r → error r ≠ ERR_FORWARD_TO_OTHERS) →
     ∀ b k, _requests st' b !! k
            = if decide (b = key `mod` MATCHER_BUCKET_NR ∧ k = key)
              then None else _requests st b !! k).
Proof.
  split.
  - intros Hrun.
    set (P := λ s : rpc_engine,
           ∀ b k, ¬ (b = key `mod` MATCHER_BUCKET_NR ∧ k = key) →
                  _requests s b !! k = _requests st b !! k).
    assert (Hquiet : ∀ A (m : M rpc_engine A),
              quiet m → triple P m (λ _, P)).
    { intros A m Hq s HP. eapply returns_mono; [|apply Hq].
      intros a s' [Hr _]. unfold P. rewrite Hr. exact HP. }
    assert (Htriple : triple P (on_rpc_timeout key) (λ _, P)).
    { unfold on_rpc_timeout. eapply triple_bind.
      - instantiate (1 := λ _, P).
        intros s HP. unfold returns, on_rpc_timeout_find.
        destruct (_requests s _ !! key) as [e|]; [|exact HP].
        destruct (bool_decide _); [|exact HP].
        intros b k Hbk. cbn [_requests set_requests].
        rewrite lookup_erased, decide_False by exact Hbk. apply HP, Hbk.
      - intros [[[call ts] [|]]|].
        + eapply triple_bind;
            [apply Hquiet, quiet_on_rpc_timeout_prepare|].
          intros [[now resend] nt].
          eapply triple_bind.
          * instantiate (1 := λ _, P).
            intros s HP. unfold returns, on_rpc_timeout_recheck.
            destruct (_requests s _ !! key) as [e|] eqn:He; [|exact HP].
            destruct resend; cbn [negb].
            -- destruct nt as [nt|]; [|exact I].
               intros b k Hbk. cbn [_requests set_requests].
               rewrite lookup_inserted, decide_False by exact Hbk.
               apply HP, Hbk.
            -- intros b k Hbk. cbn [_requests set_requests].
               rewrite lookup_erased, decide_False by exact Hbk.
               apply HP, Hbk.
          * intros [|]; [|apply triple_ret; auto].
            apply Hquiet, quiet_on_rpc_timeout_resend.
        + eapply (triple_bind P (λ _, P));
            [|intros ?; apply triple_ret; auto].
          intros s HP. unfold returns, call_enqueue. munfold.
          destruct (calls s !! call); [exact HP|exact I].
        + apply triple_ret. auto. }
    apply (returns_ok _ _ _ _ _ (Htriple st ltac:(intros b k _; reflexivity))
             Hrun).
  - intros cur net reply delay_ms res Hrun Hplain.
    set (P := λ s : rpc_engine,
           ∀ b k, _requests s b !! k
                  = if decide (b = key `mod` MATCHER_BUCKET_NR ∧ k = key)
                    then None else _requests st b !! k).
    assert (Hquiet : ∀ A (m : M rpc_engine A),
              quiet m → triple P m (λ _, P)).
    { intros A m Hq s HP. eapply returns_mono; [|apply Hq].
      intros a s' [Hr _]. unfold P. rewrite Hr. exact HP. }
    assert (Henqueue : ∀ c err rep,
              triple P (call_enqueue c err rep) (λ _, P)).
    { intros c err rep s HP. unfold returns, call_enqueue. munfold.
      destruct (calls s !! c); [exact HP|exact I]. }
    unfold on_recv_reply, on_recv_reply_take in Hrun. munfold in Hrun.
    destruct (_requests st _ !! key) as [e|] eqn:He.
    + match type of Hrun with
      | on_recv_reply_found _ _ _ _ _ ?s = _ => set (st0 := s) in *
      end.
      assert (HP0 : P st0).
      { intros b k. subst st0. cbn [_requests set_requests].
        apply lookup_erased. }
      assert (Htriple : triple P
                (on_recv_reply_found cur net reply delay_ms e) (λ _, P)).
      { unfold on_recv_reply_found.
        eapply (triple_bind P (λ _, P)); [apply Hquiet; quiet_more|intros ?].
        eapply (triple_bind P (λ _, P)); [apply Hquiet; quiet_more|intros t].
        eapply (triple_bind P (λ _, P)); [apply Hquiet; quiet_more|intros m].
        destruct reply as [r|].
        - rewrite (bool_decide_eq_false_2 _ (Hplain r eq_refl)).
          eapply (triple_bind P (λ _, P)); [apply Hquiet; quiet_more|intros ?].
          eapply (triple_bind P (λ _, P)); [apply Hquiet; quiet_more|intros ?].
          eapply (triple_bind P (λ _, P)); [apply Henqueue|intros ?].
          eapply (triple_bind P (λ _, P)); [apply Hquiet; quiet_more|intros ?].
          apply triple_ret. auto.
        - eapply (triple_bind P (λ _, P)); [apply Hquiet; quiet_more|intros ?].
          eapply (triple_bind P (λ _, P)); [apply Hquiet; quiet_more|intros ?].
          eapply (triple_bind P (λ _, P)); [apply Henqueue|intros ?].
          apply triple_ret. auto. }
      apply (returns_ok _ _ _ _ _ (Htriple st0 HP0) Hrun).
    + intros b k. destruct (decide _) as [[-> ->]|Hbk].
      * destruct reply as [r|]; munfold in Hrun;
          repeat case_match; simplify_eq; exact He.
      * destruct reply as [r|]; munfold in Hrun;
          repeat case_match; simplify_eq; reflexivity.
Qed.

(** ** rpc_client_matcher::~rpc_client_matcher *)

Lemma buckets_empty_from_ok (n : nat) (i : Z) (st : rpc_engine) :
  (∀ j, i <= j < i + Z.of_nat n → _requests st j = ∅) →
  buckets_empty_from i n st = Ok (tt, st).
Proof.
  revert i. induction n as [|n IH]; intros i Hempty; [reflexivity|].
  cbn [buckets_empty_from]. munfold.
  rewrite (Hempty i) by lia. rewrite map_size_empty.
  rewrite bool_decide_eq_true_2 by reflexivity.
  apply IH. intros j Hj. apply Hempty. lia.
Qed.

Lemma buckets_empty_from_abort (n : nat) (i j : Z) (st : rpc_engine) :
  i <= j < i + Z.of_nat n →
  _requests st j ≠ ∅ →
  buckets_empty_from i n st
  = Abort "all rpc entries must be removed before the matcher ends".
Proof.
  revert i. induction n as [|n IH]; intros i Hj Hfull; [lia|].
  cbn [buckets_empty_from]. munfold.
  destruct (bool_decide (size (_requests st i) = 0%nat)) eqn:Hsize;
    [|reflexivity].
  apply bool_decide_eq_true, map_size_empty_iff in Hsize.
  apply IH; [|exact Hfull].
  destruct (decide (j = i)) as [->|]; [contradiction|lia].
Qed.

(** X8. The destructor of the matcher returns when every bucket is empty and
    stops the process as soon as one entry is left. *)
Theorem rpc_client_matcher_destroy_needs_empty_table (st : rpc_engine) :
  0 < MATCHER_BUCKET_NR →
  ((∀ i, 0 <= i < MATCHER_BUCKET_NR → _requests st i = ∅) →
   rpc_client_matcher_destroy st = Ok (tt, st)) ∧
  (∀ key e,
     _requests st (key `mod` MATCHER_BUCKET_NR) !! key = Some e →
     rpc_client_matcher_destroy st
     = Abort "all rpc entries must be removed before the matcher ends").
Proof.
  intros Hpos. unfold rpc_client_matcher_destroy. split.
  - intros Hempty. apply buckets_empty_from_ok.
    intros j Hj. apply Hempty. lia.
  - intros key e He.
    apply (buckets_empty_from_abort _ _ (key `mod` MATCHER_BUCKET_NR)).
    + pose proof (Z.mod_pos_bound key MATCHER_BUCKET_NR Hpos). lia.
    + intros Hempty. rewrite Hempty, lookup_empty in He. discriminate.
Qed.

(** ** call_uri and the result of a resolution *)

(** X9. [call_uri] without a resolver for the uri completes the call with
    ERR_SERVICE_NOT_FOUND (or frees an unreferenced one-way request); with
    a resolver it asks for the partition of the request and wraps the
    handler of the call in the retry shim, whose deadline is now plus the
    client timeout.  Neither case sends a message or files an entry. *)
Theorem call_uri_resolver_or_not_found (addr : rpc_address) (req u : Z)
    (call : option Z) (m : message_ex) (st : rpc_engine) :
  (debug_build = true → addr_type addr = HOST_TYPE_URI) →
  messages st !! req = Some m →
  server_address m = addr_uri u →
  (∀ c, call = Some c → is_Some (calls st !! c)) →
  ∃ st',
    call_uri addr req call st = Ok (tt, st') ∧
    _requests st' = _requests st ∧ messages st' = messages st ∧
    match uri_resolvers st !! u with
    | None =>
        calls st' = calls st ∧
        trace st'
        = trace st
            ++ match call with
               | Some c =>
                   [EvCallEnqueue c ERR_SERVICE_NOT_FOUND None
                      (default 0 (delay_milliseconds <$> calls st !! c))]
               | None =>
                   if bool_decide (ref_count m = 0)
                   then [EvDeleteMessage m] else []
               end
    | Some r =>
        trace st'
        = trace st ++ [EvResolve r (client_partition_hash (header m)) req
                         call (client_timeout_ms (header m))] ∧
        ∀ c t, call = Some c → calls st !! c = Some t →
          calls st' !! c
          = Some (task_set_handler
                    (cb_uri_retry
                       (wrap_u64 (clock st + client_timeout_ms (header m)))
                       (current_handler t)) t)
    end.
Proof.
  intros Hdbg Hm Hsrv Hcall. unfold call_uri, dbg_dassert.
  assert (Hassert :
    (if debug_build
     then dassert (S := rpc_engine)
            (bool_decide (addr_type addr = HOST_TYPE_URI))
            "only URI is now supported"
     else mret tt) st = Ok (tt, st)).
  { destruct debug_build; [|reflexivity].
    rewrite (bool_decide_eq_true_2 _ (Hdbg eq_refl)). reflexivity. }
  rewrite (bind_ok _ _ _ _ _ Hassert). munfold. rewrite Hm.
  unfold get_resolver. rewrite Hsrv.
  destruct (uri_resolvers st !! u) as [r|].
  - destruct call as [c|].
    + destruct (Hcall c eq_refl) as [t Ht]. munfold. rewrite Ht. mgo.
      rewrite Ht. mgo.
      eexists. split; [reflexivity|].
      cbn [_requests messages trace calls set_trace set_calls].
      split; [reflexivity|]. split; [reflexivity|].
      split; [reflexivity|].
      intros c' t' [= <-] Ht'. rewrite Ht in Ht'. simplify_eq.
      apply lookup_insert_eq.
    + munfold. eexists. split; [reflexivity|].
      cbn [_requests messages trace set_trace].
      split; [reflexivity|]. split; [reflexivity|].
      split; [reflexivity|]. intros ? ? [=].
  - destruct call as [c|].
    + destruct (Hcall c eq_refl) as [t Ht]. munfold. rewrite Ht. mgo.
      eexists. split; [reflexivity|].
      cbn [_requests messages trace calls set_trace].
      repeat (split; [reflexivity|]). reflexivity.
    + munfold. destruct (bool_decide (ref_count m = 0)); munfold;
        (eexists; split; [reflexivity|]);
        cbn [_requests messages trace calls set_trace];
        rewrite ?app_nil_r;
        repeat (split; [reflexivity|]); reflexivity.
Qed.

(** X10. A resolution that failed completes the call with the resolver's
    error (or frees an unreferenced one-way request) and sends nothing; a
    resolution whose partition differs from the non-zero partition of the
    request stops the process. *)
Theorem on_resolve_result_failure (req : Z) (call : option Z)
    (result : resolve_result) (m : message_ex) (st : rpc_engine) :
  messages st !! req = Some m →
  (∀ c, call = Some c → is_Some (calls st !! c)) →
  (resolve_err result ≠ ERR_OK →
   ∃ st',
     on_resolve_result req call result st = Ok (tt, st') ∧
     _requests st' = _requests st ∧ messages st' = messages st ∧
     trace st'
     = trace st
         ++ match call with
            | Some c =>
                [EvCallEnqueue c (resolve_err result) None
                   (default 0 (delay_milliseconds <$> calls st !! c))]
            | None =>
                if bool_decide (ref_count m = 0)
                then [EvDeleteMessage m] else []
            end) ∧
  (resolve_err result = ERR_OK →
   gpid (header m) ≠ resolve_pid result → gpid (header m) ≠ 0 →
   on_resolve_result req call result st = Abort "inconsistent gpid").
Proof.
  intros Hm Hcall. split.
  - intros Herr. unfold on_resolve_result.
    rewrite (bool_decide_eq_false_2 _ Herr).
    destruct call as [c|].
    + destruct (Hcall c eq_refl) as [t Ht]. munfold. rewrite Ht. mgo.
      eexists. repeat (split; [reflexivity|]). reflexivity.
    + munfold. rewrite Hm.
      destruct (bool_decide (ref_count m = 0)); munfold;
        (eexists; split; [reflexivity|]);
        cbn [_requests messages trace set_trace]; rewrite ?app_nil_r;
        repeat (split; [reflexivity|]); reflexivity.
  - intros Herr Hpid Hzero. unfold on_resolve_result.
    rewrite (bool_decide_eq_true_2 _ Herr). munfold. rewrite Hm.
    rewrite (bool_decide_eq_true_2 _ Hpid).
    rewrite (bool_decide_eq_false_2 _ Hzero). reflexivity.
Qed.


(** ** reply: the transport it uses *)

(** X12. The transport [reply] uses: the session of the response when it has
    one and was not forwarded; for a forwarded response the client network
    of its header format and channel; without a session, and with a valid
    target, the server network of the port in its from_address.  A missing
    network stops the process; a port that has no table of server networks
    at all is a fault (the source indexes an empty vector).  A response
    without a session and with an invalid target uses no network: it is
    only released. *)
Theorem reply_network_choice (cur : option Z) (response : message_ex)
    (err : error_code) (st : rpc_engine) :
  let stamped := stamp_error err response in
  let hooked := bool_decide (local_rpc_code response ≠ TASK_CODE_INVALID) in
  let no_fail :=
    negb (hooked && bool_decide (is_Some cur))
    || on_rpc_reply (task_spec_get (local_rpc_code response)) stamped in
  let rpc_channel :=
    if hooked then rpc_call_channel (task_spec_get (local_rpc_code response))
    else RPC_CHANNEL_TCP in
  let hook_events :=
    match cur with
    | Some t => if hooked then [EvOnRpcReply t stamped] else []
    | None => []
    end in
  let outcome (net : Z) :=
    if no_fail then [EvNetSend net stamped]
    else EvInjectDrop net stamped true
           :: (if bool_decide (ref_count response = 0)
               then [EvDeleteMessage stamped] else []) in
  let named_port :=
    debug_build = true → port (to_address response) > MAX_CLIENT_PORT in
  (∀ s, io_session response = Some s →
        is_forwarded (header response) = false →
     reply cur response err st
     = Ok (tt,
           set_trace
             (trace st ++ hook_events
                ++ (if no_fail then [EvSessionSend s stamped]
                    else EvInjectDrop (session_net s) stamped true
                           :: (if bool_decide (ref_count response = 0)
                               then [EvDeleteMessage stamped] else [])))
             st)) ∧
  (∀ s, io_session response = Some s →
        is_forwarded (header response) = true →
        named_port →
     match _client_nets st !! (hdr_format response, rpc_channel) with
     | Some net =>
         reply cur response err st
         = Ok (tt, set_trace (trace st ++ hook_events ++ outcome net) st)
     | None =>
         reply cur response err st
         = Abort "client network not present for rpc channel"
     end) ∧
  (io_session response = None →
   is_invalid (to_address response) = false →
   named_port →
   match _server_nets st !! port (from_address (header response)) with
   | Some nets =>
       match nets !! rpc_channel with
       | Some net =>
           reply cur response err st
           = Ok (tt, set_trace (trace st ++ hook_events ++ outcome net) st)
       | None =>
           reply cur response err st
           = Abort "server network not present for rpc channel"
       end
   | None => reply cur response err st = Fault
   end) ∧
  (io_session response = None →
   is_invalid (to_address response) = true →
   reply cur response err st
   = Ok (tt,
         set_trace
           (trace st
              ++ (if bool_decide (ref_count response = 0)
                  then [EvDeleteMessage response] else []))
           st)).
Proof.
  intros stamped hooked no_fail rpc_channel hook_events outcome named_port.
  subst hooked no_fail rpc_channel hook_events outcome named_port. cbn zeta.
  assert (Hcodes :
    bool_decide (local_rpc_code response ≠ TASK_CODE_INVALID)
    = negb (bool_decide (local_rpc_code response = TASK_CODE_INVALID))).
  { destruct (decide (local_rpc_code response = TASK_CODE_INVALID)).
    - rewrite bool_decide_eq_false_2 by tauto.
      rewrite bool_decide_eq_true_2 by assumption. reflexivity.
    - rewrite bool_decide_eq_true_2 by assumption.
      rewrite bool_decide_eq_false_2 by assumption. reflexivity. }
  split.
  { intros s Hs Hfwd.
    apply (reply_over_session_exact cur response err st s Hs Hfwd). }
  rewrite Hcodes. split; [|split].
  - intros s Hs Hfwd Hport. unfold reply, dbg_dassert, add_ref_release_ref.
    rewrite Hs.
    rewrite (bool_decide_eq_false_2 (Some s = None)) by discriminate.
    cbn [andb]. fold stamped.
    change (is_forwarded (header stamped))
      with (is_forwarded (header response)).
    change (local_rpc_code stamped) with (local_rpc_code response).
    change (hdr_format stamped) with (hdr_format response).
    change (ref_count stamped) with (ref_count response).
    change (to_address stamped) with (to_address response).
    rewrite Hfwd. cbn [negb].
    destruct debug_build;
      [rewrite (bool_decide_eq_true_2 _ (Hport eq_refl))|];
      destruct (bool_decide (local_rpc_code response = TASK_CODE_INVALID));
      (destruct cur as [t|];
       [rewrite (bool_decide_eq_true_2 (is_Some (Some t))) by eauto
       |rewrite (bool_decide_eq_false_2 (is_Some None))
          by (apply is_Some_None)]);
      cbn [andb negb orb]; munfold;
      (destruct (_client_nets st !! _); [|reflexivity]);
      try destruct (on_rpc_reply _ stamped); munfold;
      try destruct (bool_decide (ref_count response = 0)); munfold;
      rewrite <- ?(assoc_L (++)), ?app_nil_r; reflexivity.
  - intros Hs Hvalid Hport.
    unfold reply, dbg_dassert, add_ref_release_ref. rewrite Hs, Hvalid.
    rewrite andb_false_r. fold stamped.
    change (local_rpc_code stamped) with (local_rpc_code response).
    change (from_address (header stamped))
      with (from_address (header response)).
    change (ref_count stamped) with (ref_count response).
    change (to_address stamped) with (to_address response).
    destruct (_server_nets st !! port (from_address (header response)))
      as [nets|] eqn:Hnets.
    + destruct debug_build;
        [rewrite (bool_decide_eq_true_2 _ (Hport eq_refl))|];
        destruct (bool_decide (local_rpc_code response = TASK_CODE_INVALID));
        (destruct cur as [t|];
         [rewrite (bool_decide_eq_true_2 (is_Some (Some t))) by eauto
         |rewrite (bool_decide_eq_false_2 (is_Some None))
            by (apply is_Some_None)]);
        cbn [andb negb orb]; munfold; rewrite Hnets;
        (destruct (nets !! _); [|reflexivity]);
        try destruct (on_rpc_reply _ stamped); munfold;
        try destruct (bool_decide (ref_count response = 0)); munfold;
        rewrite <- ?(assoc_L (++)), ?app_nil_r; reflexivity.
    + destruct debug_build;
        [rewrite (bool_decide_eq_true_2 _ (Hport eq_refl))|];
        destruct (bool_decide (local_rpc_code response = TASK_CODE_INVALID));
        destruct cur as [t|]; munfold; rewrite Hnets; reflexivity.
  - intros Hs Hinvalid. unfold reply, add_ref_release_ref.
    rewrite Hs, Hinvalid.
    rewrite (bool_decide_eq_true_2 (None = None)) by reflexivity.
    cbn [andb]. munfold.
    destruct (bool_decide (ref_count response = 0)); munfold;
      rewrite ?app_nil_r; [reflexivity|].
    destruct st; reflexivity.
Qed.

(** X13. A [reply] that returns has sent the response once when the hook let
    it through and not at all otherwise, in which case the drop was
    accounted; a response without a session and with an invalid target is
    only released. *)
Theorem reply_sends_at_most_once (cur : option Z) (response : message_ex)
    (err : error_code) (st st' : rpc_engine) :
  let stamped := stamp_error err response in
  let no_fail :=
    negb (bool_decide (local_rpc_code response ≠ TASK_CODE_INVALID)
          && bool_decide (is_Some cur))
    || on_rpc_reply (task_spec_get (local_rpc_code response)) stamped in
  reply cur response err st = Ok (tt, st') →
  ∃ evs,
    trace st' = trace st ++ evs ∧
    (io_session response = None →
     is_invalid (to_address response) = true →
     evs = if bool_decide (ref_count response = 0)
           then [EvDeleteMessage response] else []) ∧
    (¬ (io_session response = None ∧
        is_invalid (to_address response) = true) →
     length (filter (λ ev, is_send ev) evs)
     = (if no_fail then 1 else 0)%nat ∧
     (no_fail = false → ∃ net, EvInjectDrop net stamped true ∈ evs)).
Proof.
  intros stamped no_fail.
  assert (Hcodes :
    bool_decide (local_rpc_code response ≠ TASK_CODE_INVALID)
    = negb (bool_decide (local_rpc_code response = TASK_CODE_INVALID))).
  { destruct (decide (local_rpc_code response = TASK_CODE_INVALID)).
    - rewrite bool_decide_eq_false_2 by tauto.
      rewrite bool_decide_eq_true_2 by assumption. reflexivity.
    - rewrite bool_decide_eq_true_2 by assumption.
      rewrite bool_decide_eq_false_2 by assumption. reflexivity. }
  assert (Hnf : no_fail
    = negb (negb (bool_decide (local_rpc_code response = TASK_CODE_INVALID))
            && bool_decide (is_Some cur))
      || on_rpc_reply (task_spec_get (local_rpc_code response)) stamped)
    by (subst no_fail; rewrite Hcodes; reflexivity).
  clearbody no_fail. clear Hcodes.
  unfold reply, dbg_dassert, add_ref_release_ref. munfold.
  fold stamped.
  change (local_rpc_code stamped) with (local_rpc_code response).
  change (ref_count stamped) with (ref_count response).
  intros Hrun.
  repeat case_match; simplify_eq; cbn [trace set_trace];
    rewrite <- ?(assoc_L (++));
    first [eexists; split; [reflexivity|]
          |exists []; split; [symmetry; apply app_nil_r|]].
  all: rewrite ?(bool_decide_eq_false_2 (is_Some None))
         by (apply is_Some_None).
  all: repeat match goal with
              | |- context [bool_decide (is_Some (Some ?t))] =>
                  rewrite (bool_decide_eq_true_2 (is_Some (Some t))) by eauto
              end.
  all: rewrite ?(bool_decide_eq_false_2 (is_Some None)) in Hnf
         by (apply is_Some_None).
  all: repeat match type of Hnf with
              | context [bool_decide (is_Some (Some ?t))] =>
                  rewrite (bool_decide_eq_true_2 (is_Some (Some t))) in Hnf
                    by eauto
              end.
  all: repeat match goal with
              | H : on_rpc_reply _ _ = _ |- _ => rewrite H in Hnf
              end.
  all: cbn [negb andb orb] in Hnf; try discriminate Hnf.
  all: cbn [app filter]; rewrite ?filter_cons, ?filter_nil;
    cbn [is_send]; rewrite ?decide_True by exact I;
    rewrite ?decide_False by (intros []); cbn [length].
  all: repeat match goal with
              | H : _ && _ = true |- _ => apply andb_true_iff in H as [? ?]
              | H : _ && _ = false |- _ =>
                  apply andb_false_iff in H as [?|?]
              | H : bool_decide _ = false |- _ =>
                  apply bool_decide_eq_false in H
              | H : bool_decide _ = true |- _ =>
                  apply bool_decide_eq_true in H
              end.
  all: split;
    [intros Hs Hinv; try reflexivity; try congruence
    |intros Hvalid].
  all: try (exfalso; apply Hvalid; split; assumption).
  all: try (split; [reflexivity|intros Hfail; try discriminate Hfail]).
  all: try (eexists; apply list_elem_of_In; cbn;
            repeat first [left; reflexivity|right]).
Qed.

(** ** rpc_server_dispatcher: registration and lookup *)

(** [on_request] is its lookup followed by the test of the handler. *)
Lemma on_request_of_lookup (msg : message_ex) (d : rpc_server_dispatcher) :
  on_request msg d
  = match on_request_lookup msg d with
    | Ok ((c, Some f), d') => Ok (Some (c, f), d')
    | Ok ((c, None), d') => Ok (None, d')
    | Abort s => Abort s
    | Fault => Fault
    | Hang => Hang
    end.
Proof.
  unfold on_request. rewrite bind_run.
  destruct (on_request_lookup msg d) as [[[c [f|]] d']| | |]; reflexivity.
Qed.

Lemma on_request_found_lookup (msg : message_ex) (d d' : rpc_server_dispatcher)
    (c f : Z) :
  on_request msg d = Ok (Some (c, f), d') →
  on_request_lookup msg d = Ok ((c, Some f), d').
Proof.
  rewrite on_request_of_lookup.
  destruct (on_request_lookup msg d) as [[[c0 [f0|]] d0]| | |];
    intros ?; simplify_eq; reflexivity.
Qed.

(** After a registration that returned, the code slot answers. *)
Lemma registered_handler_lookup (c : Z) (name : string) (handler : option Z)
    (d d1 : rpc_server_dispatcher) (msg : message_ex) :
  register_rpc_handler c name handler d = Ok (true, d1) →
  local_rpc_code msg = c → c ≠ TASK_CODE_INVALID →
  on_request_lookup msg d1 = Ok ((c, handler), d1).
Proof.
  intros Hreg. apply register_rpc_handler_ok in Hreg
    as (_ & Hcode & Hname & Hrange & ->).
  unfold on_request_lookup. cbn [_handlers _vhandlers].
  rewrite length_insert. intros -> Hvalid.
  rewrite (bool_decide_eq_true_2 (TASK_CODE_INVALID ≠ _)) by congruence.
  rewrite bool_decide_eq_true_2 by assumption.
  rewrite list_lookup_insert_eq by lia. reflexivity.
Qed.



(** X16. Once a code is registered, registering it again, or another code
    under one of its two names, or a code whose own name is the extra name,
    stops the process. *)
Theorem register_twice_is_fatal (c c' : Z) (name name' : string)
    (handler handler' : option Z) (d d1 : rpc_server_dispatcher) :
  register_rpc_handler c name handler d = Ok (true, d1) →
  c' = c ∨ name' = name ∨ name' = task_code_to_string c
  ∨ task_code_to_string c' = name →
  register_rpc_handler c' name' handler' d1
  = Abort "rpc registration confliction".
Proof.
  intros Hreg Hclash. apply register_rpc_handler_ok in Hreg
    as (_ & Hcode & Hname & Hrange & ->).
  set (ctx := {| code := c; extra_name := name; h := handler |}).
  assert (Hc : <[name := ctx]>
                 (<[task_code_to_string c := ctx]> (_handlers d))
               !! task_code_to_string c = Some ctx).
  { destruct (decide (name = task_code_to_string c)) as [->|Hne].
    - apply lookup_insert_eq.
    - rewrite lookup_insert_ne by assumption. apply lookup_insert_eq. }
  assert (Hn : <[name := ctx]>
                 (<[task_code_to_string c := ctx]> (_handlers d))
               !! name = Some ctx) by apply lookup_insert_eq.
  unfold register_rpc_handler. munfold. cbn [_handlers].
  destruct Hclash as [->|[->|[->| ->]]]; rewrite ?Hc, ?Hn;
    try reflexivity.
  all: repeat case_match; try reflexivity; congruence.
Qed.

(** ** The two lookups of the dispatcher *)

(** X17. When codes have distinct names and no extra name is the name of
    another code, the two lookups of [on_request] agree after any sequence
    of registrations and unregistrations that returned: a handler found by
    name is found by the code it resolves to, and a handler found by code is
    found by the name of that code. *)
Theorem dispatcher_lookups_agree (task_code_max : Z)
    (ops : list dispatcher_call) (d : rpc_server_dispatcher)
    (msg : message_ex) (c handler : Z) :
  Inj (=) (=) task_code_to_string →
  Forall plain_call ops →
  run_dispatcher_calls ops (rpc_server_dispatcher_new task_code_max)
  = Ok (tt, d) →
  c ≠ TASK_CODE_INVALID →
  (local_rpc_code msg = TASK_CODE_INVALID →
   on_request msg d = Ok (Some (c, handler), d) →
   on_request (msg_set_local_rpc_code c msg) d
   = Ok (Some (c, handler), d)) ∧
  (local_rpc_code msg = c →
   on_request msg d = Ok (Some (c, handler), d) →
   ∀ msg', local_rpc_code msg' = TASK_CODE_INVALID →
           rpc_name (header msg') = task_code_to_string c →
           on_request msg' d = Ok (Some (c, handler), d)).
Proof.
  intros Hinj Hplain Hrun Hvalid.
  pose proof (run_dispatcher_calls_consistent ops _ d Hinj Hplain
                (dispatcher_new_consistent task_code_max) Hrun)
    as [I1 I2 I3 I4 I5].
  rewrite !on_request_of_lookup. split.
  - intros Hcode. unfold on_request_lookup. rewrite Hcode.
    rewrite (bool_decide_eq_false_2 (TASK_CODE_INVALID ≠ _)) by tauto.
    cbn [local_rpc_code msg_set_local_rpc_code].
    rewrite (bool_decide_eq_true_2 (TASK_CODE_INVALID ≠ c)) by congruence.
    destruct (_handlers d !! rpc_name (header msg)) as [e|] eqn:He;
      [|discriminate].
    destruct (h e) as [f|] eqn:Hf; [|discriminate].
    intros [= <- <-]. destruct (I3 _ _ He) as [Hpos Hslot].
    rewrite bool_decide_eq_true_2.
    + rewrite Hslot, Hf. reflexivity.
    + split; [assumption|]. apply lookup_lt_Some in Hslot. lia.
  - intros Hcode Hfound msg' Hcode' Hname'.
    rewrite on_request_of_lookup. revert Hfound.
    unfold on_request_lookup. rewrite Hcode, Hcode', Hname'.
    rewrite (bool_decide_eq_true_2 (TASK_CODE_INVALID ≠ c)) by congruence.
    rewrite (bool_decide_eq_false_2 (TASK_CODE_INVALID ≠ _)) by tauto.
    case_bool_decide as Hrange; [|discriminate].
    destruct (_vhandlers d !! Z.to_nat c) as [[e|]|] eqn:He;
      try discriminate.
    destruct (h e) as [f|] eqn:Hf; [|discriminate].
    intros [= <-].
    destruct (I5 _ _ He) as [Hce He'].
    assert (Hc : code e = c) by lia. rewrite <- Hc at 1. rewrite He'.
    rewrite Hc, Hf. reflexivity.
Qed.

(** ** rpc_engine::on_recv_request *)

Context `{nenv : node_environment}.

(** X18. A request that carries a code registered with a function that is
    not empty, reaching a serving engine: when no intercepted task is
    generated for it and the enqueue hook accepts the task, it becomes one
    request task around the registered handler, announced to
    on_task_create and enqueued, with the delay of the transport unless
    the hook set one. *)
Theorem on_recv_request_reaches_handler (cur : option Z) (net : Z)
    (msg msg1 : message_ex) (delay_ms c handler : Z) (name : string)
    (s0 s : rpc_service) (tsk' : rpc_request_task) :
  let tsk := {| task_request := msg_set_local_rpc_code c msg1;
                task_handler := handler;
                task_delay_milliseconds := 0; task_ref_count := 0 |} in
  engine_register_rpc_handler c name (Some handler) s0 = Ok (true, s) →
  _is_serving s = true →
  rpc_code msg = (c, msg1) →
  c ≠ TASK_CODE_INVALID →
  local_rpc_code msg1 = c →
  (gpid_app_id (gpid (header msg1)) > 0 →
   generate_intercepted_request_task msg1 = None) →
  on_rpc_request_enqueue tsk = (true, tsk') →
  on_recv_request cur net msg delay_ms s
  = Ok (tt,
        set_node_log
          (node_log s
             ++ [NvTaskCreate cur tsk;
                 NvRequestEnqueue
                   (if bool_decide (task_delay_milliseconds tsk' = 0)
                    then request_task_set_delay delay_ms tsk' else tsk')])
          s).
Proof.
  intros tsk Hreg Hserving Hcode Hvalid Hlocal Hrepl Hhook.
  unfold engine_register_rpc_handler, lift_dispatcher in Hreg.
  destruct (register_rpc_handler c name (Some handler) (_rpc_dispatcher s0))
    as [[r d1]| | |] eqn:Hreg1; try discriminate.
  injection Hreg as -> <-.
  pose proof (registered_handler_lookup c name (Some handler) _ d1 msg1
                Hreg1 Hlocal Hvalid) as Hfound.
  unfold on_recv_request. munfold.
  cbn [_is_serving set_rpc_dispatcher] in Hserving |- *.
  rewrite Hserving. cbn [negb]. rewrite Hcode.
  rewrite (bool_decide_eq_true_2 _ Hvalid).
  assert (Hnone :
    (if bool_decide (gpid_app_id (gpid (header msg1)) > 0)
     then generate_intercepted_request_task msg1 else None) = None).
  { case_bool_decide; [auto|reflexivity]. }
  rewrite Hnone. unfold dispatch_request, lift_dispatcher, node_emit.
  munfold. cbn [_rpc_dispatcher set_rpc_dispatcher]. rewrite Hfound.
  fold tsk. rewrite Hhook.
  cbn [node_log set_node_log set_rpc_dispatcher engine _rpc_dispatcher
       _is_running _is_serving].
  rewrite <- (assoc_L (++)). reflexivity.
Qed.

(** X19. An engine that is not serving deletes an incoming request, and stops
    the process if somebody references it.  A serving engine that finds no
    code for the request, or no handler or an empty one for its code,
    answers ERR_HANDLER_NOT_FOUND and frees the request, which carries the
    code the lookup left in it; for an unreferenced request that came over
    a session and was not forwarded the response goes out on that session,
    unless the reply hook refuses it: then it is dropped and deleted. *)
Theorem on_recv_request_unserved (cur : option Z) (net : Z)
    (msg msg1 : message_ex) (delay_ms c c' sess : Z) (s : rpc_service) :
  let msg2 := if bool_decide (c = TASK_CODE_INVALID) then msg1
              else msg_set_local_rpc_code c' msg1 in
  let response := create_response msg2 in
  let stamped := stamp_error ERR_HANDLER_NOT_FOUND response in
  let hooked := bool_decide (local_rpc_code response ≠ TASK_CODE_INVALID) in
  let no_fail :=
    negb (hooked && bool_decide (is_Some cur))
    || on_rpc_reply (task_spec_get (local_rpc_code response)) stamped in
  (_is_serving s = false →
   on_recv_request cur net msg delay_ms s
   = if bool_decide (ref_count msg = 0)
     then Ok (tt, set_engine
                    (set_trace (trace (engine s) ++ [EvDeleteMessage msg])
                       (engine s)) s)
     else Abort "request should not be referenced by anybody so far") ∧
  (_is_serving s = true →
   rpc_code msg = (c, msg1) →
   (c ≠ TASK_CODE_INVALID →
    (gpid_app_id (gpid (header msg1)) > 0 →
     generate_intercepted_request_task msg1 = None) ∧
    on_request_lookup msg1 (_rpc_dispatcher s)
    = Ok ((c', None), _rpc_dispatcher s)) →
   ref_count msg1 = 0 →
   io_session msg1 = Some sess →
   is_forwarded (header msg1) = false →
   on_recv_request cur net msg delay_ms s
   = Ok (tt,
         set_engine
           (set_trace
              (trace (engine s)
                 ++ match cur with
                    | Some t =>
                        if hooked then [EvOnRpcReply t stamped] else []
                    | None => []
                    end
                 ++ (if no_fail then [EvSessionSend sess stamped]
                     else [EvInjectDrop (session_net sess) stamped true;
                           EvDeleteMessage stamped])
                 ++ [EvDeleteMessage msg2])
              (engine s)) s)).
Proof.
  intros msg2 response stamped hooked no_fail. split.
  - intros Hserving. unfold on_recv_request. munfold. rewrite Hserving.
    cbn [negb]. unfold lift_engine. munfold.
    destruct (bool_decide (ref_count msg = 0)); reflexivity.
  - intros Hserving Hcode Hnone Href Hsess Hfwd.
    assert (Hreply : ∀ (m2 : message_ex) (s1 : rpc_service),
      ref_count m2 = 0 → io_session m2 = Some sess →
      is_forwarded (header m2) = false →
      let response := create_response m2 in
      let stamped := stamp_error ERR_HANDLER_NOT_FOUND response in
      let hooked :=
        bool_decide (local_rpc_code response ≠ TASK_CODE_INVALID) in
      let no_fail :=
        negb (hooked && bool_decide (is_Some cur))
        || on_rpc_reply (task_spec_get (local_rpc_code response)) stamped in
      reply_handler_not_found cur m2 s1
      = Ok (tt,
            set_engine
              (set_trace
                 (trace (engine s1)
                    ++ match cur with
                       | Some t =>
                           if hooked then [EvOnRpcReply t stamped] else []
                       | None => []
                       end
                    ++ (if no_fail then [EvSessionSend sess stamped]
                        else [EvInjectDrop (session_net sess) stamped true;
                              EvDeleteMessage stamped])
                    ++ [EvDeleteMessage m2])
                 (engine s1)) s1)).
    { clear. intros m2 s1 Href2 Hsess2 Hfwd2 response stamped hooked no_fail.
      unfold reply_handler_not_found, lift_engine. munfold.
      rewrite Href2. rewrite bool_decide_eq_true_2 by reflexivity.
      fold response.
      rewrite (reply_over_session_exact cur response ERR_HANDLER_NOT_FOUND
                 (engine s1) sess Hsess2 Hfwd2).
      fold stamped hooked no_fail. munfold.
      cbn [engine set_engine trace set_trace ref_count create_response
           response].
      rewrite (bool_decide_eq_true_2 (0 = 0)) by reflexivity.
      destruct s1 as [e1 d1 run1 serving1 log1]. cbn [engine set_engine].
      destruct cur, hooked, no_fail; cbn [app];
        rewrite <- ?(assoc_L (++)); reflexivity. }
    unfold on_recv_request. munfold. rewrite Hserving. cbn [negb].
    rewrite Hcode. subst no_fail hooked stamped response msg2.
    destruct (decide (c = TASK_CODE_INVALID)) as [Hc|Hc].
    + rewrite (bool_decide_eq_false_2 (c ≠ _)) by tauto.
      rewrite (bool_decide_eq_true_2 _ Hc).
      apply Hreply; assumption.
    + rewrite (bool_decide_eq_true_2 (c ≠ _)) by assumption.
      rewrite (bool_decide_eq_false_2 _ Hc).
      destruct (Hnone Hc) as [Hrepl Hlookup].
      assert (Hnone' :
        (if bool_decide (gpid_app_id (gpid (header msg1)) > 0)
         then generate_intercepted_request_task msg1 else None) = None).
      { destruct (bool_decide (gpid_app_id (gpid (header msg1)) > 0))
          eqn:Hg; [|reflexivity].
        apply Hrepl. apply bool_decide_eq_true in Hg. exact Hg. }
      rewrite Hnone'. unfold dispatch_request, lift_dispatcher. munfold.
      rewrite Hlookup.
      rewrite Hreply by assumption.
      destruct s as [e d run serving log]. reflexivity.
Qed.

(** X20. When the enqueue hook refuses the task, the request is accounted as
    dropped on the network it came from and the task, if nobody holds it,
    is released; it is never enqueued and nothing is sent. *)
Theorem on_recv_request_injector_denies (cur : option Z) (net : Z)
    (msg msg1 : message_ex) (delay_ms c c' handler : Z) (s : rpc_service)
    (tsk' : rpc_request_task) :
  let msg2 := msg_set_local_rpc_code c' msg1 in
  let tsk := {| task_request := msg2; task_handler := handler;
                task_delay_milliseconds := 0; task_ref_count := 0 |} in
  _is_serving s = true →
  rpc_code msg = (c, msg1) →
  c ≠ TASK_CODE_INVALID →
  (gpid_app_id (gpid (header msg1)) > 0 →
   generate_intercepted_request_task msg1 = None) →
  on_request msg1 (_rpc_dispatcher s)
  = Ok (Some (c', handler), _rpc_dispatcher s) →
  on_rpc_request_enqueue tsk = (false, tsk') →
  on_recv_request cur net msg delay_ms s
  = Ok (tt,
        set_node_log
          (node_log s
             ++ NvTaskCreate cur tsk
                :: (if bool_decide (task_ref_count tsk' = 0)
                    then [NvRequestRelease tsk'] else []))
          (set_engine
             (set_trace (trace (engine s) ++ [EvInjectDrop net msg2 false])
                (engine s)) s)).
Proof.
  intros msg2 tsk Hserving Hcode Hvalid Hrepl Hfound Hhook.
  unfold on_recv_request. munfold. rewrite Hserving. cbn [negb].
  rewrite Hcode. rewrite (bool_decide_eq_true_2 _ Hvalid).
  assert (Hnone :
    (if bool_decide (gpid_app_id (gpid (header msg1)) > 0)
     then generate_intercepted_request_task msg1 else None) = None).
  { case_bool_decide; [auto|reflexivity]. }
  rewrite Hnone. unfold dispatch_request, lift_dispatcher, node_emit.
  munfold. rewrite (on_request_found_lookup _ _ _ _ _ Hfound).
  fold msg2 tsk. rewrite Hhook.
  unfold lift_engine. munfold.
  destruct s as [e d run serving log].
  cbn [engine _rpc_dispatcher _is_running _is_serving node_log set_engine
       set_rpc_dispatcher set_node_log].
  destruct (bool_decide (task_ref_count tsk' = 0)); munfold;
    cbn [engine _rpc_dispatcher _is_running _is_serving node_log set_engine
         set_rpc_dispatcher set_node_log];
    rewrite <- ?(assoc_L (++)), ?app_nil_r; reflexivity.
Qed.

(** ** Startup *)

Lemma wrap_aspects_run (aspects : list string) (net : Z) (s : rpc_service) :
  next_handle (engine s) = net + 1 →
  ∃ s',
    wrap_aspects aspects net s = Ok (net + Z.of_nat (length aspects), s') ∧
    engine s'
    = set_next_handle (net + Z.of_nat (length aspects) + 1) (engine s) ∧
    _rpc_dispatcher s' = _rpc_dispatcher s ∧
    _is_running s' = _is_running s ∧ _is_serving s' = _is_serving s ∧
    ∃ evs, node_log s' = node_log s ++ evs.
Proof.
  revert net s. induction aspects as [|a rest IH]; intros net s Hnext.
  - exists s. cbn [wrap_aspects length]. rewrite Z.add_0_r.
    split; [reflexivity|]. split.
    { rewrite <- Hnext. destruct s as [[] ? ? ? ?]; reflexivity. }
    repeat (split; [reflexivity|]). exists []. symmetry. apply app_nil_r.
  - cbn [wrap_aspects]. unfold new_network, lift_engine, node_emit.
    munfold. cbn [engine set_engine set_node_log]. rewrite Hnext.
    edestruct (IH (net + 1)) as (s' & Hrun & Heng & Hd & Hr & Hs & evs & Hlog);
      [|rewrite Hrun].
    { cbn [engine set_engine set_node_log next_handle set_next_handle].
      reflexivity. }
    exists s'. cbn [length].
    replace (net + Z.of_nat (S (length rest)))
      with (net + 1 + Z.of_nat (length rest)) by lia.
    split; [reflexivity|]. split.
    { rewrite Heng. cbn [engine]. reflexivity. }
    split; [exact Hd|]. split; [exact Hr|]. split; [exact Hs|].
    rewrite Hlog. cbn [node_log set_node_log]. rewrite <- ?(assoc_L (++)).
    eauto.
Qed.

Lemma create_network_run (netcs : network_server_config) (client_only : bool)
    (client_hdr_format : Z) (s : rpc_service) :
  let net := next_handle (engine s) + Z.of_nat (length network_aspects) in
  if bool_decide (network_start net (channel netcs) (cs_port netcs)
                    client_only = ERR_OK)
  then
    ∃ s',
      create_network netcs client_only client_hdr_format s
      = Ok (Some net, s') ∧
      engine s' = set_next_handle (net + 1) (engine s) ∧
      _rpc_dispatcher s' = _rpc_dispatcher s ∧
      _is_running s' = _is_running s ∧ _is_serving s' = _is_serving s ∧
      ∃ evs, node_log s'
             = node_log s ++ evs
                 ++ [NvNetworkStart net (channel netcs) (cs_port netcs)
                       client_only]
  else
    create_network netcs client_only client_hdr_format s
    = Abort "create network failed".
Proof.
  intros net. unfold create_network, new_network, lift_engine, node_emit.
  munfold. cbn [engine set_engine set_node_log].
  match goal with
  | |- context [wrap_aspects network_aspects ?n ?s0] =>
      destruct (wrap_aspects_run network_aspects n s0)
        as (s1 & Hrun & Heng & Hd & Hr & Hs & evs & Hlog);
        [reflexivity|rewrite Hrun]
  end.
  cbn [engine set_engine set_node_log _rpc_dispatcher _is_running
       _is_serving node_log] in Heng, Hd, Hr, Hs, Hlog.
  fold net. case_bool_decide as Hok; [|reflexivity].
  eexists. split; [reflexivity|].
  cbn [engine set_node_log _rpc_dispatcher _is_running _is_serving node_log].
  split; [rewrite Heng; reflexivity|].
  split; [exact Hd|]. split; [exact Hr|]. split; [exact Hs|].
  exists ([NvNetworkCreate (next_handle (engine s)) (factory_name netcs) None;
           NvResetParserAttr (next_handle (engine s)) client_hdr_format
             (message_buffer_block_size netcs)] ++ evs).
  rewrite Hlog. rewrite <- ?(assoc_L (++)). reflexivity.
Qed.

Lemma create_network_returns (netcs : network_server_config)
    (client_only : bool) (client_hdr_format : Z) (s s' : rpc_service)
    (r : option Z) :
  create_network netcs client_only client_hdr_format s = Ok (r, s') →
  ∃ net,
    r = Some net ∧
    network_start net (channel netcs) (cs_port netcs) client_only = ERR_OK ∧
    _client_nets (engine s') = _client_nets (engine s) ∧
    _server_nets (engine s') = _server_nets (engine s) ∧
    _is_running s' = _is_running s ∧
    NvNetworkStart net (channel netcs) (cs_port netcs) client_only
    ∈ node_log s'.
Proof.
  intros Hrun.
  pose proof (create_network_run netcs client_only client_hdr_format s)
    as Hspec. cbn zeta in Hspec.
  case_bool_decide as Hok; [|congruence].
  destruct Hspec as (s1 & Hrun1 & Heng & _ & Hr & _ & evs & Hlog).
  rewrite Hrun in Hrun1. injection Hrun1 as -> ->.
  eexists. split; [reflexivity|]. split; [exact Hok|].
  rewrite Heng. repeat (split; [reflexivity || assumption|]).
  rewrite Hlog. set_solver.
Qed.

Lemma for_each_none {S A} (l : list A) (body : A → M S (option error_code))
    (P : S → Prop) (s s' : S) (r : option error_code) :
  (∀ x s1 r1 s2, x ∈ l → P s1 → body x s1 = Ok (r1, s2) → r1 = None ∧ P s2) →
  P s →
  for_each l body s = Ok (r, s') → r = None ∧ P s'.
Proof.
  revert s. induction l as [|x l IH]; intros s Hbody HP Hrun.
  - injection Hrun as <- <-. auto.
  - cbn [for_each] in Hrun. rewrite bind_run in Hrun.
    destruct (body x s) as [[r1 s1]| | |] eqn:Hx; try discriminate.
    destruct (Hbody x s r1 s1 ltac:(left) HP Hx) as [-> HP1].
    apply (IH s1); [|exact HP1|exact Hrun].
    intros y s2 r2 s3 Hy. apply Hbody. right. exact Hy.
Qed.

Lemma start_client_channel_returns (aspec : service_app_spec) (i j : Z)
    (s s' : rpc_service) (r : option error_code) :
  start_client_channel aspec i j s = Ok (r, s') →
  r = None ∧
  _is_running s' = _is_running s ∧
  _server_nets (engine s') = _server_nets (engine s) ∧
  match network_client_confs aspec !! j with
  | None => _client_nets (engine s') = _client_nets (engine s)
  | Some conf =>
      ∃ net,
        _client_nets (engine s') = <[(i, j) := net]> (_client_nets (engine s))
        ∧ network_start net j (aspec_id aspec) true = ERR_OK
        ∧ NvNetworkStart net j (aspec_id aspec) true ∈ node_log s'
  end.
Proof.
  unfold start_client_channel.
  destruct (network_client_confs aspec !! j) as [conf|].
  - rewrite bind_run.
    destruct (create_network _ true i s) as [[r1 s1]| | |] eqn:Hnet;
      try discriminate.
    apply create_network_returns in Hnet
      as (net & -> & Hok & Hc & Hsv & Hr & Hlog).
    unfold lift_engine. munfold. intros [= <- <-].
    cbn [engine set_engine _is_running _client_nets _server_nets
         set_client_nets node_log].
    split; [reflexivity|]. split; [exact Hr|]. split; [exact Hsv|].
    exists net. rewrite Hc. auto.
  - intros [= <- <-]. auto.
Qed.

Lemma start_server_returns (sp : network_server_config)
    (s s' : rpc_service) (r : option error_code) :
  start_server sp s = Ok (r, s') →
  r = None ∧
  _is_running s' = _is_running s ∧
  _client_nets (engine s') = _client_nets (engine s).
Proof.
  unfold start_server, lift_engine. munfold.
  match goal with
  | |- context [create_network sp false NET_HDR_DSN ?s0] =>
      destruct (create_network sp false NET_HDR_DSN s0)
        as [[r1 s1]| | |] eqn:Hnet; try discriminate
  end.
  apply create_network_returns in Hnet
    as (net & -> & Hok & Hc & Hsv & Hr & Hlog).
  intros [= <- <-].
  cbn [engine set_engine _is_running _client_nets set_server_nets] in *.
  split; [reflexivity|]. split; [exact Hr|]. rewrite Hc.
  destruct (_server_nets (engine s) !! cs_port sp); reflexivity.
Qed.

Lemma start_returns (aspec : service_app_spec) (s s' : rpc_service)
    (err : error_code) :
  start aspec s = Ok (err, s') →
  (err = ERR_SERVICE_ALREADY_RUNNING ∧ _is_running s = true ∧ s' = s)
  ∨ (err = ERR_OK ∧ _is_running s = false ∧ _is_running s' = true).
Proof.
  unfold start. munfold.
  destruct (_is_running s) eqn:Hrunning.
  { intros [= <- <-]. auto. }
  destruct (for_each _ _ s) as [[r1 s1]| | |] eqn:Hclients;
    try discriminate.
  apply (for_each_none _ _ (λ _, True)) in Hclients as [-> _];
    [|intros i s2 r2 s3 _ _ Hinner;
      apply (for_each_none _ _ (λ _, True)) in Hinner as [-> _];
      [auto| |exact I];
      intros j s4 r4 s5 _ _ Hbody;
      apply start_client_channel_returns in Hbody as [-> _]; auto
     |exact I].
  destruct (for_each _ _ s1) as [[r2 s2]| | |] eqn:Hservers;
    try discriminate.
  apply (for_each_none _ _ (λ _, True)) in Hservers as [-> _];
    [|intros sp s3 r3 s4 _ _ Hbody;
      apply start_server_returns in Hbody as [-> _]; auto
     |exact I].
  unfold lift_engine. munfold.
  destruct (_client_nets (engine s2) !! (NET_HDR_DSN, 0)); [|discriminate].
  intros [= <- <-]. right. auto.
Qed.

(** X21. [start] never returns ERR_NETWORK_INIT_FAILED: a network that fails
    to start stops the process inside [create_network], so a [start] that
    returns gives ERR_OK or ERR_SERVICE_ALREADY_RUNNING. *)
Theorem start_network_failure_is_fatal (aspec : service_app_spec)
    (s s' : rpc_service) (err : error_code) :
  (start aspec s = Ok (err, s') →
   err = ERR_OK ∨ err = ERR_SERVICE_ALREADY_RUNNING) ∧
  (∀ netcs client_only client_hdr_format,
     network_start
       (next_handle (engine s) + Z.of_nat (length network_aspects))
       (channel netcs) (cs_port netcs) client_only ≠ ERR_OK →
     create_network netcs client_only client_hdr_format s
     = Abort "create network failed").
Proof.
  split.
  - intros Hrun. apply start_returns in Hrun. tauto.
  - intros netcs client_only client_hdr_format Hfail.
    pose proof (create_network_run netcs client_only client_hdr_format s)
      as Hspec. cbn zeta in Hspec.
    rewrite (bool_decide_eq_false_2 _ Hfail) in Hspec. exact Hspec.
Qed.

(** X22. After a [start] that returned ERR_OK, every further [start] returns
    ERR_SERVICE_ALREADY_RUNNING and changes nothing. *)
Theorem start_once (aspec aspec' : service_app_spec) (s s' : rpc_service) :
  start aspec s = Ok (ERR_OK, s') →
  start aspec' s' = Ok (ERR_SERVICE_ALREADY_RUNNING, s').
Proof.
  intros Hrun. pose proof (start_returns _ _ _ _ Hrun) as Hres.
  destruct Hres as [([=] & _)|(_ & _ & Hafter)].
  unfold start. munfold. rewrite Hafter. reflexivity.
Qed.

Lemma for_each_inv {S A} (l : list A) (body : A → M S (option error_code))
    (I : list A → S → Prop) (s s' : S) (r : option error_code) :
  (∀ pre x s1 r1 s2, I pre s1 → body x s1 = Ok (r1, s2) →
                     r1 = None ∧ I (pre ++ [x]) s2) →
  I [] s →
  for_each l body s = Ok (r, s') → r = None ∧ I l s'.
Proof.
  intros Hbody.
  assert (Hgen : ∀ pre s, I pre s → for_each l body s = Ok (r, s') →
                          r = None ∧ I (pre ++ l) s').
  { induction l as [|x l IH]; intros pre s0 HI Hrun.
    - injection Hrun as <- <-. rewrite app_nil_r. auto.
    - cbn [for_each] in Hrun. rewrite bind_run in Hrun.
      destruct (body x s0) as [[r1 s1]| | |] eqn:Hx; try discriminate.
      destruct (Hbody pre x s0 r1 s1 HI Hx) as [-> HI1].
      replace (pre ++ x :: l) with ((pre ++ [x]) ++ l)
        by (rewrite <- (assoc_L (++)); reflexivity).
      apply (IH _ s1); assumption. }
  intros HI Hrun. apply (Hgen [] s); assumption.
Qed.

(** The two loops of [start] over formats and channels: the client table
    gets a started network at every pair of a format, a channel and a
    configuration for the channel, and keeps its other entries. *)
Lemma start_clients_table (aspec : service_app_spec) (fmts chans : list Z)
    (s s' : rpc_service) (r : option error_code) :
  for_each fmts (λ i, for_each chans (start_client_channel aspec i)) s
  = Ok (r, s') →
  r = None ∧
  _is_running s' = _is_running s ∧
  ∀ i j,
    if decide (i ∈ fmts ∧ j ∈ chans ∧ is_Some (network_client_confs aspec !! j))
    then ∃ net, _client_nets (engine s') !! (i, j) = Some net ∧
                network_start net j (aspec_id aspec) true = ERR_OK
    else _client_nets (engine s') !! (i, j)
         = _client_nets (engine s) !! (i, j).
Proof.
  set (conf j := is_Some (network_client_confs aspec !! j)).
  set (good (s1 : rpc_service) (i j : Z) :=
         ∃ net, _client_nets (engine s1) !! (i, j) = Some net ∧
                network_start net j (aspec_id aspec) true = ERR_OK).
  assert (Hinner : ∀ i s0 s1 r1,
    for_each chans (start_client_channel aspec i) s0 = Ok (r1, s1) →
    r1 = None ∧ _is_running s1 = _is_running s0 ∧
    ∀ i' j, if decide (i' = i ∧ j ∈ chans ∧ conf j) then good s1 i' j
            else _client_nets (engine s1) !! (i', j)
                 = _client_nets (engine s0) !! (i', j)).
  { intros i s0 s1 r1 Hrun.
    apply (for_each_inv _ _
             (λ pre s2, _is_running s2 = _is_running s0 ∧
                ∀ i' j, if decide (i' = i ∧ j ∈ pre ∧ conf j)
                        then good s2 i' j
                        else _client_nets (engine s2) !! (i', j)
                             = _client_nets (engine s0) !! (i', j)))
      in Hrun; [exact Hrun| |].
    - intros pre j s2 r2 s3 [Hr HI] Hbody.
      apply start_client_channel_returns in Hbody as (-> & Hr' & _ & Hnets).
      split; [reflexivity|]. split; [congruence|].
      intros i' j'. specialize (HI i' j').
      destruct (network_client_confs aspec !! j) as [c|] eqn:Hc.
      + destruct Hnets as (net & Hnets & Hok & _).
        destruct (decide (i' = i ∧ j' = j)) as [[-> ->]|Hne].
        * rewrite decide_True
            by (split; [reflexivity|]; split; [set_solver|];
                unfold conf; rewrite Hc; eauto).
          exists net. rewrite Hnets, lookup_insert_eq. auto.
        * assert (Hkey : (i, j) ≠ (i', j')) by (intros [= -> ->]; tauto).
          destruct (decide (i' = i ∧ j' ∈ pre ∧ conf j')) as [Hin|Hout].
          -- rewrite decide_True by set_solver.
             destruct HI as (n & Hn & Hok'). exists n.
             rewrite Hnets, lookup_insert_ne by exact Hkey. auto.
          -- rewrite decide_False by set_solver.
             rewrite Hnets, lookup_insert_ne by exact Hkey. exact HI.
      + destruct (decide (i' = i ∧ j' ∈ pre ∧ conf j')) as [Hin|Hout].
        * rewrite decide_True by set_solver.
          destruct HI as (n & Hn & Hok'). exists n. rewrite Hnets. auto.
        * rewrite decide_False.
          -- rewrite Hnets. exact HI.
          -- intros (-> & [Hj| ->%list_elem_of_singleton]%elem_of_app & Hcj).
             ++ tauto.
             ++ unfold conf in Hcj. rewrite Hc in Hcj.
                destruct Hcj as [? [=]].
    - split; [reflexivity|]. intros i' j.
      rewrite decide_False by set_solver. reflexivity. }
  intros Hrun.
  apply (for_each_inv _ _
           (λ pre s2, _is_running s2 = _is_running s ∧
              ∀ i j, if decide (i ∈ pre ∧ j ∈ chans ∧ conf j)
                     then good s2 i j
                     else _client_nets (engine s2) !! (i, j)
                          = _client_nets (engine s) !! (i, j)))
    in Hrun; [exact Hrun| |].
  - intros pre i s2 r2 s3 [Hr HI] Hbody.
    apply Hinner in Hbody as (-> & Hr' & Hstep).
    split; [reflexivity|]. split; [congruence|].
    intros i' j. specialize (HI i' j). specialize (Hstep i' j).
    destruct (decide (i' = i ∧ j ∈ chans ∧ conf j)) as [Hnow|Hnot].
    + rewrite decide_True by set_solver. exact Hstep.
    + destruct (decide (i' ∈ pre ∧ j ∈ chans ∧ conf j)) as [Hin|Hout].
      * rewrite decide_True by set_solver.
        destruct HI as (n & Hn & Hok'). exists n. rewrite Hstep. auto.
      * rewrite decide_False.
        -- rewrite Hstep. exact HI.
        -- intros ([Hi| ->%list_elem_of_singleton]%elem_of_app & Hj & Hcj);
             tauto.
  - split; [reflexivity|]. intros i j.
    rewrite decide_False by set_solver. reflexivity.
Qed.

Lemma start_servers_frame (confs : list network_server_config)
    (s s' : rpc_service) (r : option error_code) :
  for_each confs start_server s = Ok (r, s') →
  r = None ∧ _is_running s' = _is_running s ∧
  _client_nets (engine s') = _client_nets (engine s).
Proof.
  intros Hrun.
  apply (for_each_inv _ _
           (λ _ s2, _is_running s2 = _is_running s ∧
                    _client_nets (engine s2) = _client_nets (engine s)))
    in Hrun; [exact Hrun| |auto].
  intros pre sp s1 r1 s2 [Hr Hc] Hbody.
  apply start_server_returns in Hbody as (-> & Hr' & Hc').
  split; [reflexivity|]. split; congruence.
Qed.

(** X23. After a [start] that returned ERR_OK the engine runs; it has a
    started client network for every header format above NET_HDR_INVALID
    and every configured channel, the other entries of the client table are
    untouched, and the primary address is the address of the NET_HDR_DSN
    network of channel 0 with the first port of the application, or its id
    when it has no port. *)
Theorem start_client_table_and_primary (aspec : service_app_spec)
    (s s' : rpc_service) :
  start aspec s = Ok (ERR_OK, s') →
  _is_running s' = true ∧
  (∀ i j,
     if decide (NET_HDR_INVALID < i <= network_header_format_max_value ∧
                0 <= j <= rpc_channel_max_value ∧
                is_Some (network_client_confs aspec !! j))
     then ∃ net, _client_nets (engine s') !! (i, j) = Some net ∧
                 network_start net j (aspec_id aspec) true = ERR_OK
     else _client_nets (engine s') !! (i, j)
          = _client_nets (engine s) !! (i, j)) ∧
  ∃ net,
    _client_nets (engine s') !! (NET_HDR_DSN, 0) = Some net ∧
    _local_primary_address (engine s')
    = set_port (match ports aspec with
                | p :: _ => p
                | [] => aspec_id aspec
                end) (network_address net).
Proof.
  unfold start. munfold.
  destruct (_is_running s) eqn:Hrunning; [discriminate|].
  destruct (for_each _ _ s) as [[r1 s1]| | |] eqn:Hclients;
    try discriminate.
  apply start_clients_table in Hclients as (-> & Hr1 & Htable).
  destruct (for_each _ _ s1) as [[r2 s2]| | |] eqn:Hservers;
    try discriminate.
  apply start_servers_frame in Hservers as (-> & Hr2 & Hnets).
  unfold lift_engine. munfold.
  destruct (_client_nets (engine s2) !! (NET_HDR_DSN, 0)) as [net|] eqn:Hnet;
    [|discriminate].
  intros [= <-].
  cbn [_is_running set_is_running engine set_engine _client_nets
       set_local_primary_address _local_primary_address].
  split; [reflexivity|]. split; [|eauto].
  intros i j. rewrite Hnets. specialize (Htable i j).
  destruct (decide (NET_HDR_INVALID < i <= network_header_format_max_value
                    ∧ 0 <= j <= rpc_channel_max_value
                    ∧ is_Some (network_client_confs aspec !! j)))
    as [(Hi & Hj & Hc)|Hout].
  - rewrite decide_True in Htable; [exact Htable|].
    rewrite !elem_of_seqZ. split; [lia|]. split; [lia|exact Hc].
  - rewrite decide_False in Htable; [exact Htable|].
    rewrite !elem_of_seqZ. intros (Hi & Hj & Hc). apply Hout.
    split; [lia|]. split; [lia|exact Hc].
Qed.

(** ** task_worker: the core a worker is pinned to *)

Lemma land_odd_pred (q : Z) : Z.land (2 * q + 1) (2 * q) = 2 * q.
Proof.
  apply Z.bits_inj'. intros n Hn. rewrite Z.land_spec.
  destruct (Z.eq_dec n 0) as [->|Hne].
  - rewrite Z.testbit_odd_0, Z.testbit_even_0. reflexivity.
  - replace n with (Z.succ (n - 1)) by lia.
    rewrite Z.testbit_odd_succ, Z.testbit_even_succ by lia.
    apply andb_diag.
Qed.

Lemma land_even_pred (q : Z) :
  Z.land (2 * q) (2 * q - 1) = 2 * Z.land q (q - 1).
Proof.
  replace (2 * q - 1) with (2 * (q - 1) + 1) by lia.
  apply Z.bits_inj'. intros n Hn. rewrite Z.land_spec.
  destruct (Z.eq_dec n 0) as [->|Hne].
  - rewrite !Z.testbit_even_0. reflexivity.
  - replace n with (Z.succ (n - 1)) by lia.
    rewrite Z.testbit_odd_succ, !Z.testbit_even_succ by lia.
    rewrite Z.land_spec. reflexivity.
Qed.

Lemma popcount_double (x : Z) :
  task_worker.popcount (2 * x) = task_worker.popcount x.
Proof. destruct x; reflexivity. Qed.

Lemma land_pow2 (k x : Z) :
  0 <= k → Z.land (2 ^ k) x = if Z.testbit x k then 2 ^ k else 0.
Proof.
  intros Hk. apply Z.bits_inj'. intros n Hn. rewrite Z.land_spec.
  rewrite Z.pow2_bits_eqb by exact Hk.
  destruct (Z.eqb_spec k n) as [->|Hne].
  - destruct (Z.testbit x n); [|rewrite Z.bits_0; reflexivity].
    rewrite Z.pow2_bits_true by exact Hn. reflexivity.
  - destruct (Z.testbit x k); [|rewrite Z.bits_0; reflexivity].
    rewrite Z.pow2_bits_false by lia. reflexivity.
Qed.

(** Clearing the lowest set bit: [c & (c - 1)]. *)
Lemma lowest_bit (c : Z) :
  0 < c →
  ∃ k, 0 <= k ∧
    c - Z.land c (c - 1) = 2 ^ k ∧
    Z.testbit c k = true ∧
    Z.testbit (c - 1) k = false ∧
    0 <= Z.land c (c - 1) ∧
    task_worker.popcount (Z.land c (c - 1))
    = pred (task_worker.popcount c).
Proof.
  destruct c as [|p|p]; [lia| |lia]. intros _.
  induction p as [p IH|p IH|].
  - exists 0. rewrite Pos2Z.inj_xI.
    replace (2 * Z.pos p + 1 - 1) with (2 * Z.pos p) by lia.
    rewrite land_odd_pred. split; [lia|]. split; [lia|].
    split; [apply Z.testbit_odd_0|]. split; [apply Z.testbit_even_0|].
    split; [lia|]. reflexivity.
  - destruct IH as (k & Hk & Hlow & Hbit & Hpred & Hnn & Hpop).
    exists (Z.succ k). rewrite Pos2Z.inj_xO.
    rewrite land_even_pred. split; [lia|]. split.
    { rewrite Z.pow_succ_r by exact Hk. lia. }
    split.
    { rewrite Z.testbit_even_succ by exact Hk. exact Hbit. }
    split.
    { replace (2 * Z.pos p - 1) with (2 * (Z.pos p - 1) + 1) by lia.
      rewrite Z.testbit_odd_succ by exact Hk. exact Hpred. }
    split; [lia|].
    rewrite popcount_double, Hpop. reflexivity.
  - exists 0. repeat split; try reflexivity; lia.
Qed.

Lemma popcount_pos_positive (p : positive) :
  (0 < task_worker.popcount_pos p)%nat.
Proof. induction p; cbn; lia. Qed.

Lemma popcount_zero (c : Z) :
  0 <= c → task_worker.popcount c = 0%nat → c = 0.
Proof.
  destruct c as [|p|p]; [reflexivity| |lia].
  intros _ Hp. cbn in Hp. pose proof (popcount_pos_positive p). lia.
Qed.

Lemma next_mask_step (mask c : Z) :
  0 < c < 2 ^ 64 →
  task_worker.next_mask mask c
  = if bool_decide (0 = Z.land c (c - 1)) then mask else Z.land c (c - 1).
Proof.
  intros Hc. unfold task_worker.next_mask.
  rewrite wrap_u64_small by lia. reflexivity.
Qed.

Lemma next_mask_inv (mask c : Z) :
  0 < mask < 2 ^ 64 →
  0 < c < 2 ^ 64 → Z.land c mask = c →
  0 < task_worker.next_mask mask c < 2 ^ 64 ∧
  Z.land (task_worker.next_mask mask c) mask = task_worker.next_mask mask c.
Proof.
  intros Hmask Hc Hsub. rewrite next_mask_step by exact Hc.
  destruct (lowest_bit c ltac:(lia)) as (k & Hk & Hlow & _ & _ & Hnn & _).
  assert (0 < 2 ^ k) by (apply Z.pow_pos_nonneg; lia).
  case_bool_decide as Hzero.
  - split; [exact Hmask|apply Z.land_diag].
  - split; [lia|].
    rewrite <- Z.land_assoc, (Z.land_comm (c - 1) mask), Z.land_assoc, Hsub.
    reflexivity.
Qed.

Lemma skip_cores_inv (mask : Z) (n : nat) (c : Z) :
  0 < mask < 2 ^ 64 →
  0 < c < 2 ^ 64 → Z.land c mask = c →
  0 < task_worker.skip_cores mask n c < 2 ^ 64 ∧
  Z.land (task_worker.skip_cores mask n c) mask
  = task_worker.skip_cores mask n c.
Proof.
  intros Hmask. revert c. induction n as [|n IH]; intros c Hc Hsub.
  - auto.
  - cbn [task_worker.skip_cores].
    destruct (next_mask_inv mask c Hmask Hc Hsub) as [Hc' Hsub'].
    apply IH; assumption.
Qed.

Lemma own_bit (c : Z) :
  0 < c < 2 ^ 64 →
  ∃ k, 0 <= k < 64 ∧
    wrap_u64 (c - Z.land c (wrap_u64 (c - 1))) = 2 ^ k ∧
    Z.testbit c k = true ∧ Z.testbit (c - 1) k = false.
Proof.
  intros Hc. rewrite (wrap_u64_small (c - 1)) by lia.
  destruct (lowest_bit c ltac:(lia)) as (k & Hk & Hlow & Hbit & Hpred & Hnn & _).
  assert (0 < 2 ^ k) by (apply Z.pow_pos_nonneg; lia).
  exists k. rewrite Hlow. rewrite wrap_u64_small by lia.
  split; [|auto]. split; [exact Hk|].
  apply (Z.pow_lt_mono_r_iff 2); lia.
Qed.

(** X24. A worker of a pool that does not share cores is pinned to exactly
    one core, and that core is in the affinity mask of the pool; with an
    empty mask it is pinned to no core. *)
Theorem run_internal_affinity_single_core
    (spec : task_worker.threadpool_spec) (index : Z) :
  let mask := task_worker.worker_affinity_mask spec in
  task_worker.worker_share_core spec = false →
  (0 < mask < 2 ^ 64 →
   ∃ k, 0 <= k < 64 ∧
     task_worker.run_internal_affinity spec index = Some (2 ^ k) ∧
     Z.testbit mask k = true) ∧
  (mask = 0 → task_worker.run_internal_affinity spec index = Some 0).
Proof.
  intros mask Hshare. unfold task_worker.run_internal_affinity.
  rewrite Hshare. fold mask. split.
  - intros Hmask. unfold task_worker.own_core_mask.
    destruct (skip_cores_inv mask (Z.to_nat index) mask Hmask Hmask
                (Z.land_diag mask)) as [Hc Hsub].
    set (c := task_worker.skip_cores mask (Z.to_nat index) mask) in *.
    destruct (own_bit c Hc) as (k & Hk & Hres & Hbit & _).
    exists k. split; [exact Hk|]. split; [rewrite Hres; reflexivity|].
    rewrite <- Hsub, Z.land_spec in Hbit.
    apply andb_true_iff in Hbit. tauto.
  - intros ->. unfold task_worker.own_core_mask.
    assert (Hskip : ∀ n, task_worker.skip_cores 0 n 0 = 0).
    { induction n as [|n IH]; [reflexivity|].
      cbn [task_worker.skip_cores].
      replace (task_worker.next_mask 0 0) with 0 by reflexivity.
      exact IH. }
    rewrite Hskip. reflexivity.
Qed.

Lemma skip_cores_add (mask : Z) (a b : nat) (c : Z) :
  task_worker.skip_cores mask (a + b) c
  = task_worker.skip_cores mask b (task_worker.skip_cores mask a c).
Proof.
  revert c. induction a as [|a IH]; intros c; [reflexivity|].
  cbn [Nat.add task_worker.skip_cores]. apply IH.
Qed.

(** As long as bits are left, the loop only clears bits. *)
Lemma skip_cores_clears (mask : Z) (n : nat) (c : Z) :
  0 < c < 2 ^ 64 →
  (n < task_worker.popcount c)%nat →
  let c' := task_worker.skip_cores mask n c in
  0 < c' < 2 ^ 64 ∧ Z.land c' c = c' ∧
  task_worker.popcount c' = (task_worker.popcount c - n)%nat.
Proof.
  revert c. induction n as [|n IH]; intros c Hc Hn; cbn zeta.
  - cbn [task_worker.skip_cores]. split; [exact Hc|].
    split; [apply Z.land_diag|lia].
  - cbn [task_worker.skip_cores]. rewrite next_mask_step by exact Hc.
    destruct (lowest_bit c ltac:(lia))
      as (k & Hk & Hlow & _ & _ & Hnn & Hpop).
    assert (0 < 2 ^ k) by (apply Z.pow_pos_nonneg; lia).
    rewrite bool_decide_eq_false_2.
    2:{ intros Hzero. rewrite <- Hzero in Hpop. cbn in Hpop. lia. }
    assert (Hc1 : 0 < Z.land c (c - 1) < 2 ^ 64).
    { split; [|lia].
      destruct (Z.eq_dec (Z.land c (c - 1)) 0) as [Hz|]; [|lia].
      rewrite Hz in Hpop. cbn in Hpop. lia. }
    destruct (IH _ Hc1 ltac:(lia)) as (Hr & Hsub & Hp).
    split; [exact Hr|]. split.
    + assert (Hx : Z.land (Z.land c (c - 1)) c = Z.land c (c - 1)).
      { rewrite (Z.land_comm c (c - 1)), <- Z.land_assoc, Z.land_diag.
        reflexivity. }
      rewrite <- Hsub at 1. rewrite <- Z.land_assoc, Hx. exact Hsub.
    + rewrite Hp, Hpop. lia.
Qed.

Lemma skip_cores_period (mask : Z) (c : Z) (m : nat) :
  0 < c < 2 ^ 64 →
  task_worker.popcount c = S m →
  task_worker.skip_cores mask (S m) c = mask.
Proof.
  revert c. induction m as [|m IH]; intros c Hc Hp.
  - cbn [task_worker.skip_cores]. rewrite next_mask_step by exact Hc.
    destruct (lowest_bit c ltac:(lia)) as (k & _ & _ & _ & _ & Hnn & Hpop).
    rewrite Hp in Hpop. apply popcount_zero in Hpop; [|exact Hnn].
    rewrite Hpop. reflexivity.
  - change (task_worker.skip_cores mask (S (S m)) c)
      with (task_worker.skip_cores mask (S m) (task_worker.next_mask mask c)).
    rewrite next_mask_step by exact Hc.
    destruct (lowest_bit c ltac:(lia))
      as (k & Hk & Hlow & _ & _ & Hnn & Hpop).
    assert (0 < 2 ^ k) by (apply Z.pow_pos_nonneg; lia).
    rewrite Hp in Hpop. cbn [pred] in Hpop.
    rewrite bool_decide_eq_false_2.
    2:{ intros Hzero. rewrite <- Hzero in Hpop. discriminate. }
    apply (IH (Z.land c (c - 1))); [|exact Hpop].
    split; [|lia].
    destruct (Z.eq_dec (Z.land c (c - 1)) 0) as [Hz|]; [|lia].
    rewrite Hz in Hpop. discriminate.
Qed.

(** X25. Workers take the cores of the affinity mask in turn: the first
    workers, as many as the mask has cores, get pairwise different cores,
    and worker [i + cores] gets the core of worker [i]. *)
Theorem own_core_mask_round_robin (mask : Z) :
  0 < mask < 2 ^ 64 →
  let cores := Z.of_nat (task_worker.popcount mask) in
  (∀ i, 0 <= i →
        task_worker.own_core_mask mask (i + cores)
        = task_worker.own_core_mask mask i) ∧
  (∀ i j, 0 <= i < j → j < cores →
          task_worker.own_core_mask mask i
          ≠ task_worker.own_core_mask mask j).
Proof.
  intros Hmask cores. subst cores.
  destruct (task_worker.popcount mask) as [|m] eqn:Hp.
  { destruct mask; try lia. cbn in Hp.
    pose proof (popcount_pos_positive p). lia. }
  split.
  - intros i Hi. unfold task_worker.own_core_mask.
    replace (Z.to_nat (i + Z.of_nat (S m))) with (S m + Z.to_nat i)%nat
      by lia.
    rewrite skip_cores_add, (skip_cores_period mask mask m Hmask Hp).
    reflexivity.
  - intros i j Hij Hj. unfold task_worker.own_core_mask.
    set (ci := task_worker.skip_cores mask (Z.to_nat i) mask).
    destruct (skip_cores_clears mask (Z.to_nat i) mask Hmask ltac:(lia))
      as (Hci & _ & Hpi). fold ci in Hci, Hpi.
    replace (Z.to_nat j)
      with (Z.to_nat i + S (Z.to_nat j - Z.to_nat i - 1))%nat by lia.
    rewrite skip_cores_add. fold ci. cbn [task_worker.skip_cores].
    rewrite (next_mask_step mask ci Hci).
    destruct (lowest_bit ci ltac:(lia))
      as (k & Hk & Hlow & Hbit & Hpred & Hnn & Hpop).
    assert (Hc1 : 0 < Z.land ci (ci - 1) < 2 ^ 64).
    { assert (0 < 2 ^ k) by (apply Z.pow_pos_nonneg; lia).
      split; [|lia].
      destruct (Z.eq_dec (Z.land ci (ci - 1)) 0) as [Hz|]; [|lia].
      rewrite Hz in Hpop. cbn in Hpop. lia. }
    rewrite bool_decide_eq_false_2 by lia.
    destruct (skip_cores_clears mask (Z.to_nat j - Z.to_nat i - 1)
                (Z.land ci (ci - 1)) Hc1 ltac:(lia)) as (Hcj & Hsub & _).
    set (cj := task_worker.skip_cores mask (Z.to_nat j - Z.to_nat i - 1)
                 (Z.land ci (ci - 1))) in *.
    destruct (own_bit ci Hci) as (ki & Hki & Hri & Hbi & Hpredi).
    destruct (own_bit cj Hcj) as (kj & Hkj & Hrj & Hbj & _).
    rewrite Hri, Hrj. intros Heq.
    assert (ki = kj) by (apply (Z.pow_inj_r 2); lia). subst kj.
    rewrite <- Hsub, Z.land_spec, Z.land_spec, Hpredi in Hbj.
    rewrite andb_false_r, andb_false_r in Hbj. discriminate.
Qed.

(** ** task_worker: start and stop *)

Lemma worker_call_keeps_threads (op : task_worker.worker_call)
    (w : task_worker.task_worker) :
  task_worker.created w
  = task_worker.joined w
      ++ match task_worker._thread w with Some t => [t] | None => [] end →
  (task_worker._is_running w = true ↔ is_Some (task_worker._thread w)) →
  ∃ w',
    task_worker.run_worker_call op w = Ok (tt, w') ∧
    task_worker.created w'
    = task_worker.joined w'
        ++ match task_worker._thread w' with Some t => [t] | None => [] end ∧
    (task_worker._is_running w' = true ↔ is_Some (task_worker._thread w')) ∧
    task_worker._is_running w'
    = match op with
      | task_worker.call_start => true
      | task_worker.call_stop => false
      end.
Proof.
  intros Hthreads Hrun.
  destruct op; cbn [task_worker.run_worker_call];
    unfold task_worker.start, task_worker.stop;
    destruct (task_worker._is_running w) eqn:Hr; cbn [negb].
  - exists w. split; [reflexivity|]. split; [exact Hthreads|].
    split; [rewrite Hr; exact Hrun|exact Hr].
  - assert (Hnone : task_worker._thread w = None).
    { destruct (task_worker._thread w) eqn:Ht; [|reflexivity].
      assert (false = true) by (apply Hrun; eauto). discriminate. }
    eexists. split; [reflexivity|].
    cbn [task_worker.created task_worker.joined task_worker._thread
         task_worker._is_running].
    rewrite Hthreads, Hnone, app_nil_r. split; [reflexivity|].
    split; [|reflexivity]. split; eauto.
  - destruct (task_worker._thread w) as [t|] eqn:Ht.
    + eexists. split; [reflexivity|].
      cbn [task_worker.created task_worker.joined task_worker._thread
           task_worker._is_running].
      rewrite Hthreads, app_nil_r. split; [reflexivity|].
      split; [|reflexivity]. split; [discriminate|intros [? [=]]].
    + destruct Hrun as [Hrun _]. destruct (Hrun eq_refl) as [? [=]].
  - exists w. split; [reflexivity|]. split; [exact Hthreads|].
    split; [rewrite Hr; exact Hrun|exact Hr].
Qed.

(** X26. Whatever sequence of [start] and [stop] is applied to a new worker,
    [stop] never joins a null thread; the worker runs exactly when it has a
    thread, no thread is created twice, and every thread created has been
    joined except the current one. *)
Theorem worker_calls_never_fault (index next_thread : Z)
    (ops : list task_worker.worker_call) :
  ∃ w,
    task_worker.run_worker_calls ops
      (task_worker.task_worker_new index next_thread) = Ok (tt, w) ∧
    task_worker.created w
    = task_worker.joined w
        ++ match task_worker._thread w with Some t => [t] | None => [] end ∧
    (task_worker._is_running w = true ↔ is_Some (task_worker._thread w)) ∧
    NoDup (task_worker.created w).
Proof.
  assert (Hgen : ∀ w0,
    task_worker.created w0
    = task_worker.joined w0
        ++ match task_worker._thread w0 with Some t => [t] | None => [] end →
    (task_worker._is_running w0 = true ↔ is_Some (task_worker._thread w0)) →
    ∃ w,
      task_worker.run_worker_calls ops w0 = Ok (tt, w) ∧
      task_worker.created w
      = task_worker.joined w
          ++ match task_worker._thread w with Some t => [t] | None => [] end ∧
      (task_worker._is_running w = true ↔ is_Some (task_worker._thread w))).
  { induction ops as [|op ops IH]; intros w0 Hthreads Hrun.
    - exists w0. auto.
    - destruct (worker_call_keeps_threads op w0 Hthreads Hrun)
        as (w1 & Hop & Hthreads1 & Hrun1 & _).
      destruct (IH w1 Hthreads1 Hrun1) as (w & Hrest & Hw).
      exists w. split; [|exact Hw].
      cbn [task_worker.run_worker_calls]. rewrite bind_run, Hop.
      exact Hrest. }
  assert (Hfresh : ∀ ops' w0 w,
    task_worker.run_worker_calls ops' w0 = Ok (tt, w) →
    NoDup (task_worker.created w0) →
    (∀ t, t ∈ task_worker.created w0 → t < task_worker.next_thread w0) →
    NoDup (task_worker.created w) ∧
    (∀ t, t ∈ task_worker.created w → t < task_worker.next_thread w)).
  { induction ops' as [|op ops' IH]; intros w0 w Hrun Hnd Hlt.
    - injection Hrun as <-. auto.
    - cbn [task_worker.run_worker_calls] in Hrun. rewrite bind_run in Hrun.
      destruct (task_worker.run_worker_call op w0) as [[[] w1]| | |] eqn:Hop;
        try discriminate.
      apply (IH w1 w Hrun).
      + destruct op; cbn [task_worker.run_worker_call] in Hop;
          unfold task_worker.start, task_worker.stop in Hop;
          repeat case_match; simplify_eq; try assumption.
        cbn [task_worker.created]. apply list.NoDup_app. split; [exact Hnd|].
        split; [|apply list.NoDup_singleton].
        intros t Ht ->%list_elem_of_singleton. apply Hlt in Ht. lia.
      + destruct op; cbn [task_worker.run_worker_call] in Hop;
          unfold task_worker.start, task_worker.stop in Hop;
          repeat case_match; simplify_eq; try assumption.
        cbn [task_worker.created task_worker.next_thread].
        intros t [Ht| ->%list_elem_of_singleton]%elem_of_app;
          [apply Hlt in Ht|]; lia. }
  destruct (Hgen (task_worker.task_worker_new index next_thread))
    as (w & Hrun & Hthreads & Hflag).
  - reflexivity.
  - cbn. split; [discriminate|intros [? [=]]].
  - exists w. split; [exact Hrun|]. split; [exact Hthreads|].
    split; [exact Hflag|].
    apply (Hfresh ops _ w Hrun).
    + apply base.NoDup_nil_2.
    + intros t Ht. cbn in Ht. inversion Ht.
Qed.

End Properties.

(** * The theorems at the concrete engine *)

Lemma on_call_deadline_and_timer_witness :
  ∃ st' e,
    on_call (env := demo_env) 1 100 demo_engine = Ok (tt, st') ∧
    _requests st' 7 !! 7 = Some e ∧
    resp_task e = 100 ∧
    timeout_ts_ms e = 6000 ∧
    trace st' = [EvTimerEnqueue (timeout_task e) 7 200].
Proof.
  destruct (on_call_deadline_and_timer (env := demo_env) 1 100 demo_request
              demo_task demo_engine)
    as (st' & e & Hrun & Hentry & Hcall & Hrest).
  - reflexivity.
  - reflexivity.
  - reflexivity.
  - vm_compute. discriminate.
  - reflexivity.
  - exists st', e. repeat split; try assumption; apply Hrest.
Defined.

(** With a name for every code: code 42 registered as "Echo" in a new
    dispatcher, unregistered and registered again; and code 43, which was
    never registered, unregistered in vain. *)
Lemma register_unregister_register_witness :
  (∃ d1 d2 d3,
     register_rpc_handler (env := demo_named_env) 42 "Echo" (Some 1)
       (rpc_server_dispatcher_new 63) = Ok (true, d1) ∧
     _handlers d1 !! "RPC_42"
     = Some {| code := 42; extra_name := "Echo"; h := Some 1 |} ∧
     unregister_rpc_handler (env := demo_named_env) 42 d1 = Ok (true, d2) ∧
     _handlers d2 = ∅ ∧
     register_rpc_handler (env := demo_named_env) 42 "Echo" (Some 2) d2
     = Ok (true, d3)) ∧
  (∃ d',
     run_dispatcher_calls (env := demo_named_env)
       [call_register 42 "Echo" (Some 1)] (rpc_server_dispatcher_new 63)
     = Ok (tt, d') ∧
     unregister_rpc_handler (env := demo_named_env) 43 d' = Ok (false, d')).
Proof.
  split.
  - assert (Hreg : ∃ d1, register_rpc_handler (env := demo_named_env) 42
                           "Echo" (Some 1) (rpc_server_dispatcher_new 63)
                         = Ok (true, d1))
      by (vm_compute; eexists; reflexivity).
    destruct Hreg as [d1 Hreg].
    destruct (register_unregister_register (env := demo_named_env) 42 "Echo"
                (Some 1) (Some 2) (rpc_server_dispatcher_new 63) d1)
      as [Hround _].
    destruct (Hround Hreg)
      as ((Hfiled & _) & d2 & d3 & Hun & _ & _ & Hback & _ & Hre & _).
    exists d1, d2, d3. split; [exact Hreg|]. split; [exact Hfiled|].
    split; [exact Hun|]. split; [exact Hback|exact Hre].
  - eexists. split; [vm_compute; reflexivity|].
    match goal with
    | |- unregister_rpc_handler _ ?d' = _ =>
        destruct (register_unregister_register (env := demo_named_env) 42
                    "Echo" (Some 1) (Some 2) (rpc_server_dispatcher_new 63)
                    d') as [_ Habsent]
    end.
    apply (Habsent 63 [call_register 42 "Echo" (Some 1)]).
    + intros c1 c2 Heq. cbn [task_code_to_string demo_named_env] in Heq.
      apply (inj (String.append "RPC_")) in Heq.
      exact (pretty.pretty_Z_inj _ _ Heq).
    + repeat constructor; intros c' Heq; vm_compute in Heq; discriminate.
    + vm_compute. reflexivity.
    + intros e He. vm_compute in He. discriminate.
Defined.

(** C9, as stated, fails for a code that was never registered when its
    name was given to another code as extra name: code 42 is registered
    under the extra name "RPC_43", the name of code 43; unregistering 43,
    whose slot is empty, returns true, takes the alias of 42 away and
    leaves 42 under its own name and in its slot. *)
Lemma unregister_aliased_code_returns_true :
  ∃ d1 d2,
    register_rpc_handler (env := demo_named_env) 42 "RPC_43" (Some 1)
      (rpc_server_dispatcher_new 63) = Ok (true, d1) ∧
    _vhandlers d1 !! 43%nat = Some None ∧
    task_code_to_string (environment := demo_named_env) 43 = "RPC_43" ∧
    unregister_rpc_handler (env := demo_named_env) 43 d1 = Ok (true, d2) ∧
    _handlers d2 !! "RPC_43" = None ∧
    _handlers d2 !! "RPC_42"
    = Some {| code := 42; extra_name := "RPC_43"; h := Some 1 |} ∧
    _vhandlers d2 !! 42%nat
    = Some (Some {| code := 42; extra_name := "RPC_43"; h := Some 1 |}).
Proof.
  eexists _, _.
  split; [vm_compute; reflexivity|].
  split; [vm_compute; reflexivity|].
  split; [vm_compute; reflexivity|].
  split; [vm_compute; reflexivity|].
  split; [vm_compute; reflexivity|].
  split; vm_compute; reflexivity.
Qed.

(** ** The scenarios S2 and S3 *)

(** S2: 100 ms, no resend threshold, no reply.  The timer is set for
    100 ms; when it fires the call gets ERR_TIMEOUT and the table is
    empty. *)
Example scenario_timeout_without_resend :
  ∃ e st',
    _requests demo_short_in_flight 7 !! 7 = Some e ∧
    timeout_ts_ms e = 0 ∧
    EvTimerEnqueue (timeout_task e) 7 100 ∈ trace demo_short_in_flight ∧
    on_rpc_timeout (env := demo_env) 7 (set_clock 5100 demo_short_in_flight)
    = Ok (tt, st') ∧
    _requests st' 7 !! 7 = None ∧
    list.last (trace st') = Some (EvCallEnqueue 100 ERR_TIMEOUT None 0).
Proof.
  eexists _, _. split; [vm_compute; reflexivity|].
  split; [reflexivity|].
  split; [vm_compute; apply list_elem_of_In; cbn; tauto|].
  split; [vm_compute; reflexivity|].
  split; vm_compute; reflexivity.
Qed.

(** S3: 1000 ms, resend threshold 200 ms.  Nothing by 5200: the request is
    sent again under the same id.  The reply arrives at 5300: the call is
    completed once with ERR_OK, the transport has seen two sends, the table
    is empty. *)
Example scenario_resend_then_reply :
  ∃ st1 st2,
    on_rpc_timeout (env := demo_env) 7 (set_clock 5200 demo_called)
    = Ok (tt, st1) ∧
    on_recv_reply (env := demo_env) None 900 7
      (Some (demo_reply ERR_OK None)) 0 (set_clock 5300 st1)
    = Ok (true, st2) ∧
    completions (trace st2) 100 = 1%nat ∧
    list.last (trace st2)
    = Some (EvCallEnqueue 100 ERR_OK (Some (demo_reply ERR_OK None)) 0) ∧
    length (filter (λ ev, is_net_send ev) (trace st2)) = 2%nat ∧
    _requests st2 7 !! 7 = None.
Proof.
  eexists _, _. split; [vm_compute; reflexivity|].
  split; [vm_compute; reflexivity|].
  split; [vm_compute; reflexivity|].
  split; [vm_compute; reflexivity|].
  split; vm_compute; reflexivity.
Qed.

(** ** The claims at the concrete engine *)

(** S1 with a late timer: the reply takes the entry, the timer fires and
    finds nothing, the reply completes the call. *)
Lemma completed_at_most_once_witness :
  ∃ sys,
    rtc (step (env := demo_env)) (demo_registered, []) sys ∧
    completions (trace sys.1) 100 = 1%nat ∧
    ∀ c, (completions (trace sys.1) c <= 1)%nat.
Proof.
  assert (Hrun : ∃ sys,
    rtc (step (env := demo_env)) (demo_registered, []) sys ∧
    completions (trace sys.1) 100 = 1%nat).
  { eexists. split.
    - eapply rtc_l.
      { eapply (step_reply_take (env := demo_env) None 900 7
                 (Some (demo_reply ERR_OK None)) 0).
        vm_compute. reflexivity. }
      eapply rtc_l.
      { eapply (step_timeout_absent (env := demo_env) 7).
        vm_compute. reflexivity. }
      eapply rtc_l.
      { eapply (step_reply_finish (env := demo_env) None 900
                 (Some (demo_reply ERR_OK None)) 0 _ true _ _ [] []).
        vm_compute. reflexivity. }
      apply rtc_refl.
    - vm_compute. reflexivity. }
  destruct Hrun as (sys & Hsteps & Hone).
  exists sys. split; [exact Hsteps|]. split; [exact Hone|].
  destruct (completed_at_most_once (env := demo_env)) as [Honce _].
  apply (Honce demo_registered sys); [reflexivity| |exact Hsteps].
  intros b k e b' k' e' He He' _.
  apply (inserted_entry (λ _ : Z, (∅ : gmap Z match_entry)) 7 7 b k
           {| resp_task := 100; timeout_task := 200; timeout_ts_ms := 6000 |})
    in He.
  apply (inserted_entry (λ _ : Z, (∅ : gmap Z match_entry)) 7 7 b' k'
           {| resp_task := 100; timeout_task := 200; timeout_ts_ms := 6000 |})
    in He'.
  destruct He as [(-> & -> & _)|He]; [|inversion He].
  destruct He' as [(-> & -> & _)|He']; [|inversion He'].
  split; reflexivity.
Defined.

(** C2, on the code.  The call of S3 in flight (deadline 6000).  The timer
    fires at 5200: the request is sent again and a new timer is set for the
    remaining 800 ms, but the entry keeps its deadline 6000.  When the timer
    fires again at the deadline, the entry is erased and nothing is handed
    to the call: no ERR_TIMEOUT is delivered.  Had it fired again before the
    deadline, at 5600, the request would have been sent a third time. *)
Theorem resend_then_second_fire :
  ∃ st1 st2 st3 e1,
    on_rpc_timeout (env := demo_env) 7 (set_clock 5200 demo_registered)
    = Ok (tt, st1) ∧
    trace st1 = [EvOnRpcCall demo_request None; EvNetSend 900 demo_request;
                 EvTimerEnqueue 201 7 800] ∧
    _requests st1 7 !! 7 = Some e1 ∧ timeout_ts_ms e1 = 6000 ∧
    on_rpc_timeout (env := demo_env) 7 (set_clock 6000 st1) = Ok (tt, st2) ∧
    _requests st2 7 !! 7 = None ∧
    trace st2 = trace st1 ∧
    completions (trace st2) 100 = 0%nat ∧
    on_rpc_timeout (env := demo_env) 7 (set_clock 5600 st1) = Ok (tt, st3) ∧
    trace st3 = trace st1
                ++ [EvOnRpcCall demo_request None; EvNetSend 900 demo_request;
                    EvTimerEnqueue 202 7 400].
Proof.
  eexists _, _, _, _.
  split; [vm_compute; reflexivity|].
  split; [vm_compute; reflexivity|].
  split; [vm_compute; reflexivity|].
  split; [reflexivity|].
  split; [vm_compute; reflexivity|].
  split; [vm_compute; reflexivity|].
  split; [vm_compute; reflexivity|].
  split; [vm_compute; reflexivity|].
  split; vm_compute; reflexivity.
Qed.

(** C4, as stated, fails on a request addressed to a plain IPv4 server:
    the redirect ends in the fatal assertion and nothing is re-issued. *)
Lemma forward_to_others_ipv4_aborts :
  on_recv_reply (env := demo_env) None 900 7 (Some demo_redirect) 0
    demo_registered
  = Abort "not implemented".
Proof. vm_compute. reflexivity. Qed.

(** S4: the redirect moves the call to the fresh id 1000, sends the request
    to 10.0.0.3:7000 and makes that address the leader of the group.  The
    same redirect under fault injection: the join point refuses the
    re-issued request, no entry is filed under the id 1000 and the call is
    completed, with ERR_TIMEOUT. *)
Lemma on_recv_reply_forward_to_others_witness :
  (∃ st' e',
     on_recv_reply (env := demo_env) None 900 7 (Some demo_redirect) 0
       demo_group_engine = Ok (true, st') ∧
     _requests st' 7 !! 7 = None ∧
     _requests st' 12 !! 1000 = Some e' ∧
     resp_task e' = 100 ∧
     leader <$> groups st' !! 1 = Some (addr_ipv4 167772163 7000) ∧
     completions (trace st') 100 = 0%nat) ∧
  (∃ st',
     on_recv_reply (env := demo_denying_env) None 900 7 (Some demo_redirect)
       0 demo_group_engine = Ok (true, st') ∧
     _requests st' 7 !! 7 = None ∧
     _requests st' 12 !! 1000 = None ∧
     trace st'
     = [EvTimerEnqueue 200 7 200; EvTaskCancel 200;
        EvOnRpcCall
          (msg_set_header (hdr_set_id 1000)
             (msg_set_to_address (addr_ipv4 167772163 7000)
                demo_group_request)) (Some 100);
        EvInjectDrop 900
          (msg_set_header (hdr_set_id 1000)
             (msg_set_to_address (addr_ipv4 167772163 7000)
                demo_group_request)) true;
        EvCallEnqueue 100 ERR_TIMEOUT None 1000;
        EvDeleteMessage demo_redirect]).
Proof.
  split.
  - destruct (on_recv_reply_forward_to_others (env := demo_env) None 900 7
                demo_redirect 0
                {| resp_task := 100; timeout_task := 200;
                   timeout_ts_ms := 6000 |}
                demo_task demo_group_request 1 demo_group 900
                demo_group_engine)
      as (st' & Hrun & _ & Hgrp & Haccepted).
    + reflexivity.
    + reflexivity.
    + reflexivity.
    + reflexivity.
    + reflexivity.
    + reflexivity.
    + intros _. vm_compute. discriminate.
    + repeat split; try reflexivity; vm_compute; congruence.
    + intros _. split; [vm_compute; discriminate|reflexivity].
    + match type of Haccepted with
      | if ?c then _ else _ => replace c with true in Haccepted by reflexivity
      end.
      destruct Haccepted as (Htable & _ & _ & Hpending).
      eexists st', _. split; [exact Hrun|].
      split; [rewrite (Htable 7 7); vm_compute; reflexivity|].
      split; [rewrite (Htable 12 1000); vm_compute; reflexivity|].
      split; [reflexivity|].
      split; [cbn in Hgrp; rewrite Hgrp; reflexivity|].
      cbn [resp_task] in Hpending. rewrite Hpending. vm_compute. reflexivity.
  - destruct (on_recv_reply_forward_to_others (env := demo_denying_env) None
                900 7 demo_redirect 0
                {| resp_task := 100; timeout_task := 200;
                   timeout_ts_ms := 6000 |}
                demo_task demo_group_request 1 demo_group 900
                demo_group_engine)
      as (st' & Hrun & _ & _ & Hrefused).
    + reflexivity.
    + reflexivity.
    + reflexivity.
    + reflexivity.
    + reflexivity.
    + reflexivity.
    + intros _. vm_compute. discriminate.
    + repeat split; try reflexivity; vm_compute; congruence.
    + intros Haccepted. vm_compute in Haccepted. discriminate.
    + match type of Hrefused with
      | if ?c then _ else _ => replace c with false in Hrefused by reflexivity
      end.
      destruct Hrefused as (Htable & _ & Htrace & _).
      exists st'. split; [exact Hrun|].
      split; [rewrite (Htable 7 7); vm_compute; reflexivity|].
      split; [rewrite (Htable 12 1000); vm_compute; reflexivity|].
      rewrite Htrace. vm_compute. reflexivity.
Defined.

(** S5, first failure: at 5000 with deadline 5050 the gap is 8 ms, the
    request is retried with 42 ms left. *)
Lemma uri_retry_shim_witness :
  ∃ st',
    run_callback (cb_uri_retry 5050 (cb_user 1)) (Some 100)
      (ERR_OTHER 1) 1 None (demo_uri_engine {[ 1 := 50 ]} 5000 0) = Ok (tt, st') ∧
    send_retry_count <$> messages st' !! 1 = Some 1 ∧
    (client_timeout_ms ∘ header) <$> messages st' !! 1 = Some 42 ∧
    trace st' = [EvAccessFailure 50 1 (ERR_OTHER 1);
                 EvDelayedCall (addr_uri 1) 100 8].
Proof.
  destruct (uri_retry_shim 5050 (cb_user 1) (Some 100)
              (ERR_OTHER 1) 1 None (demo_uri_request 0)
              (demo_uri_engine {[ 1 := 50 ]} 5000 0) eq_refl)
    as (_ & _ & Htriggered).
  destruct (Htriggered 1 50) as [Hretry _].
  - repeat split; vm_compute; discriminate.
  - reflexivity.
  - reflexivity.
  - vm_compute. split; discriminate.
  - vm_compute. discriminate.
  - reflexivity.
  - destruct (Hretry eq_refl 100 (task_set_state TASK_STATE_RUNNING demo_task)
                eq_refl eq_refl eq_refl eq_refl)
      as (st' & Hrun & Hmsg & _ & Htrace).
    exists st'. split; [exact Hrun|].
    rewrite Hmsg, Htrace. repeat split.
Defined.

(** C5, on the code.  A request addressed to URI 1 (resolver 50) that has
    been retried 29 times, with the deadline at 60000.  The claim's gap is
    min(8 << 29, 1000) = 1000; the [int] shift gives 0.  At 30000 the
    request is retried at once, with all of the 30000 ms that are left as
    its timeout, not after 1000 ms with 29000.  At 59500 the claim has no
    time for a retry (59500 + 1000 is past the deadline) and delivers
    ERR_TIMEOUT; the code retries at once, and the callback gets nothing. *)
Theorem uri_retry_gap_overflow :
  ∃ st1 st2,
    Z.min (Z.shiftl 8 29) 1000 = 1000 ∧
    backoff_gap 29 = 0 ∧
    run_callback (cb_uri_retry 60000 (cb_user 1)) (Some 100) (ERR_OTHER 1) 1
      None (demo_uri_engine {[ 1 := 50 ]} 30000 29) = Ok (tt, st1) ∧
    trace st1 = [EvAccessFailure 50 1 (ERR_OTHER 1);
                 EvDelayedCall (addr_uri 1) 100 0] ∧
    (client_timeout_ms ∘ header) <$> messages st1 !! 1 = Some 30000 ∧
    send_retry_count <$> messages st1 !! 1 = Some 30 ∧
    ¬ 59500 + Z.min (Z.shiftl 8 29) 1000 < 60000 ∧
    run_callback (cb_uri_retry 60000 (cb_user 1)) (Some 100) (ERR_OTHER 1) 1
      None (demo_uri_engine {[ 1 := 50 ]} 59500 29) = Ok (tt, st2) ∧
    trace st2 = [EvAccessFailure 50 1 (ERR_OTHER 1);
                 EvDelayedCall (addr_uri 1) 100 0] ∧
    (client_timeout_ms ∘ header) <$> messages st2 !! 1 = Some 500.
Proof.
  eexists _, _.
  split; [vm_compute; reflexivity|].
  split; [vm_compute; reflexivity|].
  split; [vm_compute; reflexivity|].
  split; [vm_compute; reflexivity|].
  split; [vm_compute; reflexivity|].
  split; [vm_compute; reflexivity|].
  split; [vm_compute; intros H; discriminate H|].
  split; [vm_compute; reflexivity|].
  split; vm_compute; reflexivity.
Qed.

(** S6 over session 5: the response is stamped and sent on the session. *)
Lemma reply_stamps_valid_target_witness :
  ∃ st',
    reply (env := demo_env) (Some 100) (demo_reply ERR_OK None)
      ERR_FORWARD_TO_OTHERS demo_engine = Ok (tt, st') ∧
    EvSessionSend 5
      (stamp_error (env := demo_env) ERR_FORWARD_TO_OTHERS
         (demo_reply ERR_OK None)) ∈ trace st'.
Proof.
  destruct (reply_stamps_valid_target (env := demo_env) (Some 100)
              (demo_reply ERR_OK None) ERR_FORWARD_TO_OTHERS demo_engine)
    as (_ & _ & _ & Hsession).
  destruct (Hsession 5 eq_refl eq_refl) as (st' & Hrun & Hsend & _).
  exists st'. split; [exact Hrun|]. apply Hsend. reflexivity.
Defined.

(** C6, as stated, fails twice.  A response with an invalid target is
    released as it came: its error code is still ERR_OK, not the ERR_TIMEOUT
    passed to [reply], and no hook ran.  A response whose code is
    TASK_CODE_INVALID goes out on its session, stamped, and no hook ran
    either. *)
Lemma reply_without_stamp_or_hook :
  (∃ st',
     reply (env := demo_env) (Some 100) demo_lost_response ERR_TIMEOUT
       demo_engine = Ok (tt, st') ∧
     trace st' = [EvDeleteMessage demo_lost_response] ∧
     server_error_code (header demo_lost_response) = ERR_OK ∧
     ∀ t m, EvOnRpcReply t m ∉ trace st') ∧
  (∃ st',
     reply (env := demo_env) (Some 100) demo_unknown_response
       ERR_HANDLER_NOT_FOUND demo_engine = Ok (tt, st') ∧
     trace st'
     = [EvSessionSend 5
          (stamp_error (env := demo_env) ERR_HANDLER_NOT_FOUND
             demo_unknown_response)] ∧
     ∀ t m, EvOnRpcReply t m ∉ trace st').
Proof.
  split; eexists; (split; [vm_compute; reflexivity|]);
    (split; [vm_compute; reflexivity|]).
  - split; [reflexivity|]. intros t m Hin.
    apply list_elem_of_singleton in Hin. discriminate.
  - intros t m Hin. apply list_elem_of_singleton in Hin. discriminate.
Qed.

(** The stamp of [call] at the concrete engine: the draw is 0. *)
Lemma call_stamps_then_dispatches_witness :
  call (env := demo_env) 1 (Some 100) demo_engine
  = call_address (env := demo_env) (addr_ipv4 167772161 7000) 1 (Some 100)
      (set_messages
         {[ 1 := msg_set_header (hdr_set_trace_id 0) demo_request ]}
         (set_rand_pos 1 demo_engine)).
Proof.
  destruct (call_stamps_then_dispatches (env := demo_env) 1 (Some 100)
              demo_request demo_engine eq_refl)
    as (_ & _ & _ & _ & Hrun).
  rewrite Hrun. vm_compute. reflexivity.
Defined.

(** C7, as stated, fails when the generator draws 0, which lies in the
    range [call] asks for: the request goes out with trace_id 0. *)
Lemma call_with_zero_trace_id :
  ∃ st' m,
    call (env := demo_env) 1 (Some 100) demo_engine = Ok (tt, st') ∧
    messages st' !! 1 = Some m ∧
    trace_id (header m) = 0 ∧
    EvNetSend 900 m ∈ trace st'.
Proof.
  eexists _, _. split; [vm_compute; reflexivity|].
  split; [vm_compute; reflexivity|].
  split; [reflexivity|].
  vm_compute. apply list_elem_of_In. cbn. tauto.
Qed.

(** S6: the pure client gets the redirect on its session; the request from
    a server is copied and forwarded under the same id 7. *)
Lemma forward_fake_or_real_witness :
  (∃ st',
     forward (env := demo_env) (Some 100) demo_client_request
       (addr_ipv4 167772163 7000) demo_engine = Ok (tt, st') ∧
     messages st' = messages demo_engine ∧
     trace st'
     = [EvOnRpcReply 100
          (stamp_error (env := demo_env) ERR_FORWARD_TO_OTHERS
             (marshall
                (create_response (env := demo_env) demo_client_request)
                (addr_ipv4 167772163 7000)));
        EvSessionSend 5
          (stamp_error (env := demo_env) ERR_FORWARD_TO_OTHERS
             (marshall
                (create_response (env := demo_env) demo_client_request)
                (addr_ipv4 167772163 7000)))]) ∧
  (∃ st' copied,
     forward (env := demo_env) (Some 100) demo_server_request
       (addr_ipv4 167772163 7000) demo_engine = Ok (tt, st') ∧
     messages st' !! 200 = Some copied ∧
     id (header copied) = 7 ∧ is_forwarded (header copied) = true ∧
     trace st' = [EvOnRpcCall copied None; EvNetSend 900 copied]).
Proof.
  split.
  - destruct (forward_fake_or_real (env := demo_env) (Some 100)
                demo_client_request (addr_ipv4 167772163 7000) demo_engine)
      as [Hfake _]; [reflexivity|reflexivity|discriminate|].
    destruct Hfake as (_ & _ & _ & Hsession & _);
      [vm_compute; discriminate|].
    eexists. split; [exact (Hsession 5 eq_refl eq_refl)|].
    split; vm_compute; reflexivity.
  - destruct (forward_fake_or_real (env := demo_env) (Some 100)
                demo_server_request (addr_ipv4 167772163 7000) demo_engine)
      as [_ Hreal]; [reflexivity|reflexivity|discriminate|].
    destruct (Hreal ltac:(vm_compute; reflexivity) 900)
      as (st' & copied & Hrun & Hmsg & Hid & Hflag & _ & _ & _ & Htrace).
    + vm_compute. discriminate.
    + intros _. split; [reflexivity|vm_compute; reflexivity].
    + reflexivity.
    + exists st', copied. split; [exact Hrun|]. split; [exact Hmsg|].
      split; [exact Hid|]. split; [exact Hflag|].
      rewrite Htrace.
      replace (on_rpc_call (task_spec_get (local_rpc_code demo_server_request))
                 copied) with true by reflexivity.
      reflexivity.
Defined.

(** C8, as stated, fails for a pure client in three ways.  Under fault
    injection the reply hook refuses the response: it is handed to the drop
    injection and deleted, and nothing goes out on session 5.  A request
    from a pure client that has no session, or that was itself forwarded,
    is not answered at all: the assertion on the port of the target stops
    the process. *)
Lemma forward_pure_client_not_on_session :
  (∃ st',
     forward (env := demo_denying_env) (Some 100) demo_client_request
       (addr_ipv4 167772163 7000) demo_engine = Ok (tt, st') ∧
     port (from_address (header demo_client_request)) <= 1023 ∧
     trace st'
     = [EvOnRpcReply 100
          (stamp_error (env := demo_denying_env) ERR_FORWARD_TO_OTHERS
             (marshall
                (create_response (env := demo_denying_env)
                   demo_client_request)
                (addr_ipv4 167772163 7000)));
        EvInjectDrop 5
          (stamp_error (env := demo_denying_env) ERR_FORWARD_TO_OTHERS
             (marshall
                (create_response (env := demo_denying_env)
                   demo_client_request)
                (addr_ipv4 167772163 7000))) true;
        EvDeleteMessage
          (stamp_error (env := demo_denying_env) ERR_FORWARD_TO_OTHERS
             (marshall
                (create_response (env := demo_denying_env)
                   demo_client_request)
                (addr_ipv4 167772163 7000)))]) ∧
  forward (env := demo_env) None
    {| header := header demo_client_request;
       to_address := to_address demo_client_request;
       server_address := addr_invalid;
       local_rpc_code := 42; hdr_format := 0; io_session := None;
       send_retry_count := 0; dl_alone := true; ref_count := 0;
       body := None |}
    (addr_ipv4 167772163 7000) demo_engine
  = Abort "target address must have named port in this case" ∧
  forward (env := demo_env) None
    (msg_set_header (hdr_set_is_forwarded true) demo_client_request)
    (addr_ipv4 167772163 7000) demo_engine
  = Abort "target address must have named port in this case".
Proof.
  split; [|split; vm_compute; reflexivity].
  eexists. split; [vm_compute; reflexivity|].
  split; [vm_compute; discriminate|]. vm_compute. reflexivity.
Qed.

(** The redirect of S4 sent to a request addressed to 10.0.0.1:7000. *)
Lemma on_recv_reply_non_group_fatal_witness :
  on_recv_reply (env := demo_env) None 900 7 (Some demo_redirect) 0
    demo_registered
  = Abort "not implemented".
Proof.
  destruct (on_recv_reply_non_group_fatal (env := demo_env) None 900 7
              demo_redirect 0
              {| resp_task := 100; timeout_task := 200;
                 timeout_ts_ms := 6000 |}
              demo_task demo_request demo_registered)
    as [_ Hfatal].
  - reflexivity.
  - reflexivity.
  - reflexivity.
  - left. reflexivity.
  - discriminate.
  - apply Hfatal. intros (_ & _ & Hself). vm_compute in Hself.
    discriminate.
Defined.

(** * The further properties on the demo engine *)

(** S1 end to end: the request goes out, the reply ERR_OK completes the
    call once and the table is empty again. *)
Lemma call_then_reply_witness :
  ∃ st1 st2,
    call_ip (env := demo_env) (addr_ipv4 167772161 7000) 1 (Some 100)
      false false demo_engine = Ok (tt, st1) ∧
    on_recv_reply (env := demo_env) None 900 7
      (Some (demo_reply ERR_OK None)) 0 st1 = Ok (true, st2) ∧
    (∀ b, _requests st2 b = ∅) ∧
    completions (trace st2) 100 = 1%nat.
Proof.
  destruct (call_then_reply (env := demo_env) (addr_ipv4 167772161 7000)
              1 100 demo_request demo_task 900 demo_engine None 900
              (demo_reply ERR_OK None) 0)
    as (st1 & st2 & Hcall & _ & Hreply & Htable & _ & Hdone).
  - repeat split; try reflexivity; vm_compute; congruence.
  - reflexivity.
  - reflexivity.
  - reflexivity.
  - reflexivity.
  - vm_compute. discriminate.
  - reflexivity.
  - exists st1, st2. split; [exact Hcall|]. split; [exact Hreply|].
    split; [exact Htable|exact Hdone].
Defined.


(** S2 with a late reply: 100 ms without resend, the timer fires, then the
    reply arrives and is deleted. *)
Lemma timeout_then_late_reply_witness :
  ∃ st1 st2 st3,
    call_ip (env := demo_env) (addr_ipv4 167772161 7000) 1 (Some 100)
      false false (set_messages {[ 1 := demo_short_request ]} demo_engine)
    = Ok (tt, st1) ∧
    on_rpc_timeout (env := demo_env) 7 (set_clock 5100 st1) = Ok (tt, st2) ∧
    on_recv_reply (env := demo_env) None 900 7
      (Some (demo_reply ERR_OK None)) 0 st2 = Ok (false, st3) ∧
    trace st3
    = trace st1 ++ [EvCallEnqueue 100 ERR_TIMEOUT None 0;
                    EvDeleteMessage (demo_reply ERR_OK None)].
Proof.
  destruct (timeout_then_late_reply (env := demo_env)
              (addr_ipv4 167772161 7000) 1 100 demo_short_request demo_task
              900 (set_messages {[ 1 := demo_short_request ]} demo_engine)
              5100 None 900 (demo_reply ERR_OK None) 0)
    as (st1 & st2 & st3 & Hcall & _ & Htimeout & Ht2 & Hreply & Ht3 & _).
  - repeat split; try reflexivity; vm_compute; congruence.
  - reflexivity.
  - reflexivity.
  - reflexivity.
  - reflexivity.
  - vm_compute. intros [H _]. discriminate H.
  - reflexivity.
  - exists st1, st2, st3. split; [exact Hcall|]. split; [exact Htimeout|].
    split; [exact Hreply|].
    rewrite Ht3, Ht2, <- (assoc_L (++)). reflexivity.
Defined.

(** The transport reports a failure before any reply: the call of S4, to
    group 1, ends with ERR_NETWORK_FAILURE and the leader hint moves on
    to 10.0.0.3. *)
Lemma on_recv_reply_network_failure_witness :
  ∃ st',
    on_recv_reply (env := demo_env) None 900 7 None 30 demo_group_engine
    = Ok (true, st') ∧
    _requests st' 7 !! 7 = None ∧
    list.last (trace st')
    = Some (EvCallEnqueue 100 ERR_NETWORK_FAILURE None 30) ∧
    leader <$> groups st' !! 1 = Some (addr_ipv4 167772163 7000).
Proof.
  destruct (on_recv_reply_network_failure (env := demo_env) None 900 7 30
              {| resp_task := 100; timeout_task := 200;
                 timeout_ts_ms := 6000 |}
              demo_task demo_group_request demo_group_engine)
    as (st' & Hrun & Hgone & Htrace & _ & Hgroup).
  - reflexivity.
  - reflexivity.
  - reflexivity.
  - intros g [= <-]. vm_compute. eauto.
  - exists st'. split; [exact Hrun|]. split; [exact Hgone|]. split.
    + rewrite Htrace. vm_compute. reflexivity.
    + rewrite (Hgroup 1 demo_group eq_refl eq_refl). reflexivity.
Defined.

(** Id 7 is in flight: issuing the request of S1 again under the same id
    is fatal. *)
Lemma call_ip_id_in_flight_witness :
  call_ip (env := demo_env) (addr_ipv4 167772161 7000) 1 (Some 100) false
    false demo_in_flight
  = Abort "the message is already on the fly!!!".
Proof.
  apply (call_ip_id_in_flight (env := demo_env) (addr_ipv4 167772161 7000)
           1 100 false demo_request demo_task
           {| resp_task := 100; timeout_task := 200; timeout_ts_ms := 6000 |}
           900 demo_in_flight).
  - repeat split; try reflexivity; vm_compute; congruence.
  - reflexivity.
  - reflexivity.
  - reflexivity.
Defined.



(** Ids 7 and 20 share bucket 7: the timer of 7 and then the reply for 7
    leave the entry of 20 as it was. *)
Lemma handlers_touch_own_key_witness :
  let st := set_clock 5200 demo_two_in_flight in
  let st1 := engine_after (on_rpc_timeout (env := demo_env) 7 st) st in
  let st2 :=
    engine_after
      (on_recv_reply (env := demo_env) None 900 7
         (Some (demo_reply ERR_OK None)) 0 st1) st1 in
  _requests st1 7 !! 20 = _requests st 7 !! 20 ∧
  _requests st2 7 !! 20 = _requests st 7 !! 20 ∧
  _requests st2 7 !! 7 = None.
Proof.
  intros st st1 st2.
  destruct (handlers_touch_own_key (env := demo_env) 7 st st1)
    as [Htimer _].
  destruct (handlers_touch_own_key (env := demo_env) 7 st1 st2)
    as [_ Hreply].
  assert (Hrun1 : on_rpc_timeout (env := demo_env) 7 st = Ok (tt, st1))
    by (vm_compute; reflexivity).
  assert (Hrun2 : on_recv_reply (env := demo_env) None 900 7
                    (Some (demo_reply ERR_OK None)) 0 st1 = Ok (true, st2))
    by (vm_compute; reflexivity).
  assert (Hplain : ∀ r, Some (demo_reply ERR_OK None) = Some r →
                        error r ≠ ERR_FORWARD_TO_OTHERS)
    by (intros r [= <-]; vm_compute; discriminate).
  assert (Hother : ¬ (7 = 7 `mod` MATCHER_BUCKET_NR (environment := demo_env) ∧ 20 = 7))
    by (intros [_ H]; discriminate H).
  pose proof (Htimer Hrun1 7 20 Hother) as H1.
  pose proof (Hreply None 900 _ 0 true Hrun2 Hplain 7 20) as H2.
  pose proof (Hreply None 900 _ 0 true Hrun2 Hplain 7 7) as H3.
  rewrite decide_False in H2 by exact Hother.
  rewrite decide_True in H3 by (split; reflexivity).
  split; [exact H1|]. split; [congruence|exact H3].
Defined.

(** The matcher of S1 can be destroyed before the call and not while it
    is in flight. *)
Lemma rpc_client_matcher_destroy_needs_empty_table_witness :
  rpc_client_matcher_destroy (env := demo_env) demo_engine
  = Ok (tt, demo_engine) ∧
  rpc_client_matcher_destroy (env := demo_env) demo_in_flight
  = Abort "all rpc entries must be removed before the matcher ends".
Proof.
  split.
  - apply (rpc_client_matcher_destroy_needs_empty_table (env := demo_env)
             demo_engine); [reflexivity|].
    intros i _. reflexivity.
  - destruct (rpc_client_matcher_destroy_needs_empty_table (env := demo_env)
                demo_in_flight eq_refl) as [_ Hfull].
    apply (Hfull 7 {| resp_task := 100; timeout_task := 200;
                      timeout_ts_ms := 6000 |}).
    reflexivity.
Defined.

(** The request for URI 1: without a resolver the call ends with
    ERR_SERVICE_NOT_FOUND; with resolver 50 the resolution is asked for
    and the callback of the call is wrapped with the deadline 6000. *)
Lemma call_uri_resolver_or_not_found_witness :
  (∃ st',
     call_uri (env := demo_env) (addr_uri 1) 1 (Some 100)
       (demo_unresolved_engine ∅) = Ok (tt, st') ∧
     trace st' = [EvCallEnqueue 100 ERR_SERVICE_NOT_FOUND None 0]) ∧
  (∃ st',
     call_uri (env := demo_env) (addr_uri 1) 1 (Some 100)
       (demo_unresolved_engine {[ 1 := 50 ]}) = Ok (tt, st') ∧
     trace st' = [EvResolve 50 0 1 (Some 100) 1000] ∧
     current_handler <$> calls st' !! 100
     = Some (cb_uri_retry 6000 (cb_user 1))).
Proof.
  split.
  - destruct (call_uri_resolver_or_not_found (env := demo_env) (addr_uri 1)
                1 1 (Some 100) demo_unresolved_request
                (demo_unresolved_engine ∅))
      as (st' & Hrun & _ & _ & Hrest).
    + reflexivity.
    + reflexivity.
    + reflexivity.
    + intros c [= <-]. vm_compute. eauto.
    + exists st'. split; [exact Hrun|].
      change (uri_resolvers (demo_unresolved_engine ∅) !! 1)
        with (@None Z) in Hrest.
      destruct Hrest as [_ Htrace]. rewrite Htrace. reflexivity.
  - destruct (call_uri_resolver_or_not_found (env := demo_env) (addr_uri 1)
                1 1 (Some 100) demo_unresolved_request
                (demo_unresolved_engine {[ 1 := 50 ]}))
      as (st' & Hrun & _ & _ & Hrest).
    + reflexivity.
    + reflexivity.
    + reflexivity.
    + intros c [= <-]. vm_compute. eauto.
    + exists st'. split; [exact Hrun|].
      change (uri_resolvers (demo_unresolved_engine {[ 1 := 50 ]}) !! 1)
        with (Some 50) in Hrest.
      destruct Hrest as [Htrace Hshim]. split; [exact Htrace|].
      rewrite (Hshim 100 demo_task eq_refl eq_refl). reflexivity.
Defined.

(** A resolution that fails with error 5 ends the call with that error;
    a resolution to partition 2 of a request already bound to partition
    1 of app 1 is fatal. *)
Lemma on_resolve_result_failure_witness :
  (∃ st',
     on_resolve_result (env := demo_env) 1 (Some 100)
       {| resolve_err := ERR_OTHER 5; resolve_pid := 0;
          resolve_address := addr_invalid |}
       (demo_unresolved_engine {[ 1 := 50 ]}) = Ok (tt, st') ∧
     trace st' = [EvCallEnqueue 100 (ERR_OTHER 5) None 0]) ∧
  on_resolve_result (env := demo_env) 1 (Some 100)
    {| resolve_err := ERR_OK; resolve_pid := 2;
       resolve_address := addr_ipv4 167772161 7000 |}
    (demo_uri_engine {[ 1 := 50 ]} 5000 0)
  = Abort "inconsistent gpid".
Proof.
  split.
  - destruct (on_resolve_result_failure (env := demo_env) 1 (Some 100)
                {| resolve_err := ERR_OTHER 5; resolve_pid := 0;
                   resolve_address := addr_invalid |}
                demo_unresolved_request (demo_unresolved_engine {[ 1 := 50 ]}))
      as [Hfail _].
    + reflexivity.
    + intros c [= <-]. vm_compute. eauto.
    + destruct Hfail as (st' & Hrun & _ & _ & Htrace);
        [discriminate|].
      exists st'. split; [exact Hrun|]. rewrite Htrace. reflexivity.
  - destruct (on_resolve_result_failure (env := demo_env) 1 (Some 100)
                {| resolve_err := ERR_OK; resolve_pid := 2;
                   resolve_address := addr_ipv4 167772161 7000 |}
                (demo_uri_request 0) (demo_uri_engine {[ 1 := 50 ]} 5000 0))
      as [_ Hbad].
    + reflexivity.
    + intros c [= <-]. vm_compute. eauto.
    + apply Hbad; [reflexivity|vm_compute; discriminate..].
Defined.


(** A response to a forwarded request leaves through the client network
    900 although the request came over session 5; a response without a
    session leaves through the server network of port 34601, and is a
    fault on an engine that has no server network at all. *)
Lemma reply_network_choice_witness :
  reply (env := demo_env) None demo_forwarded_response ERR_OK demo_engine
  = Ok (tt,
        set_trace
          [EvNetSend 900
             (stamp_error (env := demo_env) ERR_OK demo_forwarded_response)]
          demo_engine) ∧
  (let response :=
     msg_set_to_address (addr_ipv4 167772169 34601)
       (msg_set_header (hdr_set_from_address (addr_ipv4 167772162 34601))
          demo_lost_response) in
   reply (env := demo_env) None response ERR_OK (demo_unresolved_engine ∅)
   = Ok (tt,
         set_trace
           [EvNetSend 901 (stamp_error (env := demo_env) ERR_OK response)]
           (demo_unresolved_engine ∅)) ∧
   reply (env := demo_env) None response ERR_OK demo_engine = Fault).
Proof.
  split.
  - destruct (reply_network_choice (env := demo_env) None
                demo_forwarded_response ERR_OK demo_engine)
      as (_ & Hforwarded & _).
    specialize (Hforwarded 5 eq_refl eq_refl ltac:(intros _; reflexivity)).
    vm_compute in Hforwarded |- *. exact Hforwarded.
  - intros response. split.
    + destruct (reply_network_choice (env := demo_env) None response ERR_OK
                  (demo_unresolved_engine ∅))
        as (_ & _ & Hsessionless & _).
      specialize (Hsessionless eq_refl eq_refl ltac:(intros _; reflexivity)).
      vm_compute in Hsessionless |- *. exact Hsessionless.
    + destruct (reply_network_choice (env := demo_env) None response ERR_OK
                  demo_engine)
        as (_ & _ & Hsessionless & _).
      specialize (Hsessionless eq_refl eq_refl ltac:(intros _; reflexivity)).
      vm_compute in Hsessionless |- *. exact Hsessionless.
Defined.

(** Under fault injection the reply to session 5 is not sent: no send in
    the history, one drop accounted. *)
Lemma reply_sends_at_most_once_witness :
  let st' :=
    engine_after
      (reply (env := demo_denying_env) (Some 100) (demo_reply ERR_OK None)
         ERR_OK demo_engine) demo_engine in
  length (filter (λ ev, is_send ev) (trace st')) = 0%nat ∧
  ∃ net,
    EvInjectDrop net
      (stamp_error (env := demo_denying_env) ERR_OK (demo_reply ERR_OK None))
      true ∈ trace st'.
Proof.
  intros st'.
  destruct (reply_sends_at_most_once (env := demo_denying_env) (Some 100)
              (demo_reply ERR_OK None) ERR_OK demo_engine st')
    as (evs & Htrace & _ & Hvalid).
  - vm_compute. reflexivity.
  - destruct Hvalid as [Hcount Hdrop].
    + intros [H _]. discriminate H.
    + change (trace demo_engine ++ evs) with evs in Htrace.
      rewrite Htrace. split; [exact Hcount|]. apply Hdrop. reflexivity.
Defined.



(** After code 42 is registered as "Echo", registering code 43 under the
    same name is fatal. *)
Lemma register_twice_is_fatal_witness :
  ∃ d1,
    register_rpc_handler (env := demo_env) 42 "Echo" (Some 1) demo_dispatcher
    = Ok (true, d1) ∧
    register_rpc_handler (env := demo_env) 43 "Echo" (Some 2) d1
    = Abort "rpc registration confliction".
Proof.
  eexists. split; [vm_compute; reflexivity|].
  apply (register_twice_is_fatal (env := demo_env) 42 43 "Echo" "Echo"
           (Some 1) (Some 2)
           demo_dispatcher).
  - vm_compute. reflexivity.
  - right. left. reflexivity.
Defined.

(** With a name for every code: after 42 is registered as "Echo", 7 as
    "Seven" and 7 is unregistered, the request named "Echo" finds handler 1,
    and so does the same request once it carries code 42. *)
Lemma dispatcher_lookups_agree_witness :
  ∃ d,
    run_dispatcher_calls (env := demo_named_env)
      [call_register 42 "Echo" (Some 1);
       call_register 7 "Seven" (Some 2); call_unregister 7]
      (rpc_server_dispatcher_new 63)
    = Ok (tt, d) ∧
    on_request (env := demo_named_env) demo_named_request d
    = Ok (Some (42, 1), d) ∧
    on_request (env := demo_named_env)
      (msg_set_local_rpc_code 42 demo_named_request) d
    = Ok (Some (42, 1), d).
Proof.
  eexists. split; [vm_compute; reflexivity|].
  split; [vm_compute; reflexivity|].
  match goal with
  | |- on_request _ ?d = _ =>
      destruct (dispatcher_lookups_agree (env := demo_named_env) 63
                  [call_register 42 "Echo" (Some 1);
                   call_register 7 "Seven" (Some 2); call_unregister 7]
                  d demo_named_request 42 1) as [Hname _]
  end.
  - intros c1 c2 Heq. cbn [task_code_to_string demo_named_env] in Heq.
    apply (inj (String.append "RPC_")) in Heq.
    exact (pretty.pretty_Z_inj _ _ Heq).
  - repeat constructor; intros c' Heq; vm_compute in Heq; discriminate.
  - vm_compute. reflexivity.
  - discriminate.
  - apply Hname; [reflexivity|vm_compute; reflexivity].
Defined.

(** A request for code 42 that arrives at a node serving it with handler 1
    and with 25 ms of delay is turned into one task, enqueued with that
    delay; nothing is sent or deleted. *)
Lemma on_recv_request_reaches_handler_witness :
  let tsk := {| task_request := demo_client_request; task_handler := 1;
                task_delay_milliseconds := 0; task_ref_count := 0 |} in
  ∃ s',
    on_recv_request (env := demo_env) (nenv := demo_node_env) None 900
      demo_client_request 25 (demo_serving 1)
    = Ok (tt, s') ∧
    node_log s'
    = [NvTaskCreate None tsk;
       NvRequestEnqueue (request_task_set_delay 25 tsk)] ∧
    trace (engine s') = [].
Proof.
  intros tsk. eexists. split.
  - apply (on_recv_request_reaches_handler (env := demo_env)
             (nenv := demo_node_env) None 900 demo_client_request
             demo_client_request 25 42 1 "Echo" demo_service (demo_serving 1)
             tsk).
    + vm_compute. reflexivity.
    + reflexivity.
    + reflexivity.
    + discriminate.
    + reflexivity.
    + intros _. reflexivity.
    + reflexivity.
  - split; vm_compute; reflexivity.
Defined.

(** A node that does not serve yet deletes the request; a serving node
    without a handler for code 42, or with an empty function registered
    for it, answers on session 5 and deletes it. *)
Lemma on_recv_request_unserved_witness :
  let not_found :=
    [EvSessionSend 5
       (stamp_error (env := demo_env) ERR_HANDLER_NOT_FOUND
          (create_response (env := demo_env) demo_client_request));
     EvDeleteMessage demo_client_request] in
  let demo_serving_empty :=
    service_after
      (engine_register_rpc_handler (env := demo_env) 42 "Echo" None
         demo_service)
      demo_service in
  (∃ s',
     on_recv_request (env := demo_env) (nenv := demo_node_env) None 900
       demo_client_request 0 demo_not_serving
     = Ok (tt, s') ∧
     trace (engine s') = [EvDeleteMessage demo_client_request] ∧
     node_log s' = []) ∧
  (∃ s',
     on_recv_request (env := demo_env) (nenv := demo_node_env) None 900
       demo_client_request 0 demo_service
     = Ok (tt, s') ∧
     trace (engine s') = not_found ∧ node_log s' = []) ∧
  (∃ s',
     on_recv_request (env := demo_env) (nenv := demo_node_env) None 900
       demo_client_request 0 demo_serving_empty
     = Ok (tt, s') ∧
     trace (engine s') = not_found ∧ node_log s' = []).
Proof.
  intros not_found demo_serving_empty. split; [|split].
  - destruct (on_recv_request_unserved (env := demo_env)
                (nenv := demo_node_env) None 900 demo_client_request
                demo_client_request 0 42 42 5 demo_not_serving) as [Hoff _].
    eexists. split; [rewrite (Hoff eq_refl); reflexivity|].
    split; vm_compute; reflexivity.
  - destruct (on_recv_request_unserved (env := demo_env)
                (nenv := demo_node_env) None 900 demo_client_request
                demo_client_request 0 42 42 5 demo_service) as [_ Hnone].
    eexists. split.
    + apply Hnone.
      * reflexivity.
      * reflexivity.
      * intros _. split; [intros _; reflexivity|vm_compute; reflexivity].
      * reflexivity.
      * reflexivity.
      * reflexivity.
    + split; vm_compute; reflexivity.
  - destruct (on_recv_request_unserved (env := demo_env)
                (nenv := demo_node_env) None 900 demo_client_request
                demo_client_request 0 42 42 5 demo_serving_empty)
      as [_ Hnone].
    eexists. split.
    + apply Hnone.
      * reflexivity.
      * reflexivity.
      * intros _. split; [intros _; reflexivity|vm_compute; reflexivity].
      * reflexivity.
      * reflexivity.
      * reflexivity.
    + split; vm_compute; reflexivity.
Defined.

(** The fault injector refuses tasks for handler 13: the request is
    accounted as dropped and its task released, never enqueued. *)
Lemma on_recv_request_injector_denies_witness :
  let tsk := {| task_request := demo_client_request; task_handler := 13;
                task_delay_milliseconds := 0; task_ref_count := 0 |} in
  ∃ s',
    on_recv_request (env := demo_env) (nenv := demo_node_env) None 900
      demo_client_request 0 (demo_serving 13)
    = Ok (tt, s') ∧
    node_log s' = [NvTaskCreate None tsk; NvRequestRelease tsk] ∧
    trace (engine s') = [EvInjectDrop 900 demo_client_request false].
Proof.
  intros tsk. eexists. split.
  - apply (on_recv_request_injector_denies (env := demo_env)
             (nenv := demo_node_env) None 900 demo_client_request
             demo_client_request 0 42 42 13 (demo_serving 13) tsk).
    + reflexivity.
    + reflexivity.
    + discriminate.
    + intros _. reflexivity.
    + vm_compute. reflexivity.
    + reflexivity.
  - split; vm_compute; reflexivity.
Defined.

(** Starting the demo node succeeds; a server network on port 9999, which
    the demo environment refuses to start, stops the process. *)
Lemma start_network_failure_is_fatal_witness :
  (∃ err s',
     start (nenv := demo_node_env) demo_app_spec demo_service
     = Ok (err, s') ∧
     (err = ERR_OK ∨ err = ERR_SERVICE_ALREADY_RUNNING)) ∧
  create_network (nenv := demo_node_env)
    {| cs_port := 9999; channel := 0; factory_name := "sim";
       message_buffer_block_size := 65536 |} false 1 demo_service
  = Abort "create network failed".
Proof.
  split.
  - eexists _, _. split; [vm_compute; reflexivity|].
    eapply (start_network_failure_is_fatal (nenv := demo_node_env)
              demo_app_spec demo_service).
    vm_compute. reflexivity.
  - destruct (start_network_failure_is_fatal (nenv := demo_node_env)
                demo_app_spec demo_service demo_service ERR_OK)
      as [_ Hfatal].
    apply Hfatal. vm_compute. discriminate.
Defined.

(** The demo node starts once; the second [start] reports that the service
    is already running and changes nothing. *)
Lemma start_once_witness :
  ∃ s',
    start (nenv := demo_node_env) demo_app_spec demo_service
    = Ok (ERR_OK, s') ∧
    start (nenv := demo_node_env) demo_app_spec s'
    = Ok (ERR_SERVICE_ALREADY_RUNNING, s').
Proof.
  eexists. split; [vm_compute; reflexivity|].
  apply (start_once (nenv := demo_node_env) demo_app_spec demo_app_spec
           demo_service).
  vm_compute. reflexivity.
Defined.

(** After the demo node starts, it has a client network for channel 0 under
    both header formats, its channel 1 stays without one, and its primary
    address is the DSN/TCP client network's address with port 34601. *)
Lemma start_client_table_and_primary_witness :
  ∃ s',
    start (nenv := demo_node_env) demo_app_spec demo_service
    = Ok (ERR_OK, s') ∧
    _is_running s' = true ∧
    is_Some (_client_nets (engine s') !! (1, 0)) ∧
    is_Some (_client_nets (engine s') !! (2, 0)) ∧
    _client_nets (engine s') !! (1, 1) = None ∧
    _local_primary_address (engine s') = addr_ipv4 167772162 34601.
Proof.
  eexists. split; [vm_compute; reflexivity|].
  match goal with
  | |- _is_running ?s' = _ ∧ _ =>
      destruct (start_client_table_and_primary (nenv := demo_node_env)
                  demo_app_spec demo_service s'
                  ltac:(vm_compute; reflexivity))
        as (Hrun & Htable & net & Hnet & Hprimary)
  end.
  split; [exact Hrun|].
  pose proof (Htable 1 0) as H10.
  pose proof (Htable 2 0) as H20.
  pose proof (Htable 1 1) as H11.
  rewrite decide_True in H10
    by (repeat split; try (vm_compute; discriminate);
        vm_compute; eauto).
  rewrite decide_True in H20
    by (repeat split; try (vm_compute; discriminate);
        vm_compute; eauto).
  rewrite decide_False in H11
    by (intros (_ & _ & [x Hx]); vm_compute in Hx; discriminate).
  destruct H10 as (n10 & H10 & _). destruct H20 as (n20 & H20 & _).
  split; [rewrite H10; eauto|].
  split; [rewrite H20; eauto|].
  split; [rewrite H11; vm_compute; reflexivity|].
  rewrite Hprimary. vm_compute in Hnet. injection Hnet as <-.
    vm_compute. reflexivity.
Defined.

(** Affinity mask 22 names the cores 1, 2 and 4: worker 4 of a pool that
    does not share cores is pinned to core 2 alone, and with an empty mask
    to no core. *)
Lemma run_internal_affinity_single_core_witness :
  (∃ k, 0 <= k < 64 ∧
     task_worker.run_internal_affinity demo_pool_spec 4 = Some (2 ^ k) ∧
     Z.testbit 22 k = true) ∧
  task_worker.run_internal_affinity
    {| task_worker.worker_priority := 2;
       task_worker.worker_share_core := false;
       task_worker.worker_affinity_mask := 0 |} 4
  = Some 0.
Proof.
  split.
  - destruct (run_internal_affinity_single_core demo_pool_spec 4 eq_refl)
      as [Hone _].
    apply Hone. vm_compute. split; reflexivity.
  - destruct (run_internal_affinity_single_core
                {| task_worker.worker_priority := 2;
                   task_worker.worker_share_core := false;
                   task_worker.worker_affinity_mask := 0 |} 4 eq_refl)
      as [_ Hnone].
    apply Hnone. reflexivity.
Defined.

(** With mask 22 (three cores) worker 5 gets the core of worker 2, and
    workers 0 and 1 get different cores. *)
Lemma own_core_mask_round_robin_witness :
  task_worker.own_core_mask 22 5 = task_worker.own_core_mask 22 2 ∧
  task_worker.own_core_mask 22 0 ≠ task_worker.own_core_mask 22 1.
Proof.
  destruct (own_core_mask_round_robin 22) as [Hperiod Hdistinct].
  - vm_compute. split; reflexivity.
  - split.
    + apply (Hperiod 2). lia.
    + apply Hdistinct; [lia|vm_compute; reflexivity].
Defined.

